(** * Portfolio tracker: achievements, goals, competencies, recommendations

    A shallow embedding of the decision logic of the [PortfolioApp] class of
    "Портфолио исследователя.py": [unlock_achievement], [check_achievements],
    [load_competencies], [update_competencies], [generate_recommendations]
    and [update_goals], together with the part of the PostgreSQL schema of
    [create_tables] these methods read and write.

    Conventions of the embedding.
    - Python [str] values are Rocq strings holding the UTF-8 bytes of the
      text.  Equality, [in] (substring), [split] and [rstrip] on an ASCII
      character agree on code points and on UTF-8 bytes; [CHAR_LENGTH]
      counts the bytes that start a code point.
    - A number is the rational ([Q]) it stands for.  SQL [AVG] over
      integer levels is the exact mean: the sixteen or more significant
      digits [numeric] keeps of it are idealised away.  Python's [float] is
      the nearest binary64 number, a tie going to the even significand, and
      [round(_, 1)] is the correctly rounded result CPython computes; the
      exponent of a float is not bounded above, which an [INTEGER] column
      never reaches.
    - A table is the list of its rows in insertion order.
    - Every [cursor.execute] and [conn.commit] goes through [execute], which
      appends the statement to the trace [issued] and asks a failure oracle
      whether the store rejects it. *)

(** The second part of the development covers the methods around these:
    [create_tables] with its seeding of the catalog, [load_used_keywords],
    [update_keywords_listbox], [save_entry], [update_research_map],
    [update_achievements], [update_all_tabs], [add_goal] and
    [delete_all_goals].

    Further conventions.
    - What a method reads from a widget is an argument of its model or a
      field of the state; [askyesno] is the boolean it returns.
    - [datetime.strptime], [int], [strftime] and the store's reading of a
      [DATE] are parameters of the model.
    - [ORDER BY] on text compares strings byte by byte.
    - The tables are those the connection sees; what a later rollback or
      an aborted transaction does to them is a matter of the failure
      oracle. *)

From Stdlib Require Import ZArith QArith Qabs Qround List String Ascii Bool Lia.
From Stdlib Require Import DecimalString.
From Stdlib Require Import Sorted Permutation.
Import ListNotations.

Local Open Scope string_scope.
Local Open Scope list_scope.
Local Open Scope Z_scope.

(** ** Strings *)

(** Python's [sub in s]. *)
Fixpoint contains (sub s : string) : bool :=
  String.prefix sub s ||
  match s with
  | EmptyString => false
  | String _ rest => contains sub rest
  end.

(** A byte of the form 10xxxxxx continues a UTF-8 code point. *)
Definition is_continuation (c : ascii) : bool :=
  let n := N_of_ascii c in (128 <=? n)%N && (n <? 192)%N.

(** SQL [CHAR_LENGTH]: the number of code points. *)
Fixpoint char_length (s : string) : Z :=
  match s with
  | EmptyString => 0
  | String c rest => (if is_continuation c then 0 else 1) + char_length rest
  end.

(** [s.split(sep)[-1]] for a one-character separator: the text after the
    last occurrence of [sep], the whole of [s] when there is none. *)
Fixpoint split_last (sep : ascii) (s : string) : string :=
  match s with
  | EmptyString => EmptyString
  | String c rest =>
      if contains (String sep EmptyString) rest then split_last sep rest
      else if Ascii.eqb c sep then rest
      else s
  end.

(** [s.rstrip(ch)] for a one-character argument: every trailing [ch] goes. *)
Fixpoint rstrip (ch : ascii) (s : string) : string :=
  match s with
  | EmptyString => EmptyString
  | String c rest =>
      match rstrip ch rest with
      | EmptyString => if Ascii.eqb c ch then EmptyString else String c EmptyString
      | r => String c r
      end
  end.

(** [str(n)] for a Python [int]. *)
Definition str_int (n : Z) : string := NilZero.string_of_int (Z.to_int n).

(** [''.join(l)]. *)
Definition join (l : list string) : string := fold_right String.append ""%string l.

(** The UTF-8 code points of a string, in order. *)
Fixpoint code_points (s : string) : list string :=
  match s with
  | EmptyString => []
  | String c rest =>
      match code_points rest with
      | String c' cp :: cps =>
          if is_continuation c' then String c (String c' cp) :: cps
          else String c EmptyString :: String c' cp :: cps
      | cps => String c EmptyString :: cps
      end
  end.

Definition of_bytes (l : list nat) : string :=
  fold_right (fun n s => String (ascii_of_nat n) s) EmptyString l.

(** The code points for which [str.isspace] holds. *)
Definition whitespace_bytes : list (list nat) :=
  ([ [9]; [10]; [11]; [12]; [13]; [28]; [29]; [30]; [31]; [32];
     [194; 133]; [194; 160]; [225; 154; 128] ]
   ++ map (fun n => [226; 128; n]) (seq 128 11)
   ++ [ [226; 128; 168]; [226; 128; 169]; [226; 128; 175];
        [226; 129; 159]; [227; 128; 128] ])%nat.

Definition whitespace_code_points : list string := map of_bytes whitespace_bytes.

Definition is_space (cp : string) : bool :=
  existsb (String.eqb cp) whitespace_code_points.

Fixpoint drop_while {A : Type} (f : A -> bool) (l : list A) : list A :=
  match l with
  | [] => []
  | x :: rest => if f x then drop_while f rest else l
  end.

(** Python's [s.strip()]. *)
Definition strip (s : string) : string :=
  join (rev (drop_while is_space (rev (drop_while is_space (code_points s))))).

(** Python's [s.split(sep)] for a one-character separator. *)
Fixpoint split_on (sep : ascii) (s : string) : list string :=
  match s with
  | EmptyString => [EmptyString]
  | String c rest =>
      if Ascii.eqb c sep then EmptyString :: split_on sep rest
      else match split_on sep rest with
           | piece :: pieces => String c piece :: pieces
           | [] => [String c EmptyString]
           end
  end.

(** [[k.strip() for k in s.split(",") if k.strip()]] *)
Definition stripped_pieces (s : string) : list string :=
  filter (fun k => negb (String.eqb k "")) (map strip (split_on "," s)).

(** ** Numbers *)

(** A Python number as the goal tracker handles it: the entry count is an
    [int], a rounded mean is a [float]. *)
Inductive number :=
| PyInt (n : Z)
| PyFloat (x : Q).

Definition number_value (v : number) : Q :=
  match v with
  | PyInt n => inject_Z n
  | PyFloat x => x
  end.

Definition Qlt_bool (x y : Q) : bool := negb (Qle_bool y x).

(** Rounding to the nearest integer, a tie going to the even neighbour. *)
Definition round_half_even (x : Q) : Z :=
  let f := Qfloor x in
  match Qcompare (x - inject_Z f) (1 # 2) with
  | Lt => f
  | Gt => f + 1
  | Eq => if Z.even f then f else f + 1
  end.

(** 2 to the power [t], for an integer [t] of either sign. *)
Definition pow2 (t : Z) : Q :=
  if 0 <=? t then inject_Z (2 ^ t) else Qmake 1 (Z.to_pos (2 ^ (- t))).

(** The binary exponent of a positive number: the [e] with
    [2 ^ e <= a < 2 ^ (e + 1)]. *)
Definition ilog2 (a : Q) : Z :=
  let e0 := Z.log2 (Qnum a) - Z.log2 (Zpos (Qden a)) in
  if Qle_bool (pow2 e0) a then e0 else e0 - 1.

(** The exponent of the last bit of the binary64 numbers around [a]:
    52 below the exponent of [a], and -1074 at least. *)
Definition last_bit (a : Q) : Z := Z.max (ilog2 a - 52) (-1074).

(** The multiple of [pow2 t] nearest to [a], a tie going to the even
    multiple. *)
Definition nearest_multiple (a : Q) (t : Z) : Q :=
  (inject_Z (round_half_even (a / pow2 t)) * pow2 t)%Q.

(** [y], the float nearest to [a = |x|], with the sign of [x]. *)
Definition signed (x a y : Q) : Q :=
  if Qeq_bool y a then x else if Qle_bool 0 x then y else (- y)%Q.

(** Python's [float(x)] of an exact number: the nearest number with a
    significand of 53 bits (of fewer bits below the normal range, whose
    numbers are the multiples of 2 ^ -1074), a tie going to the even
    significand.  A number a float holds exactly comes back as it is
    written. *)
Definition float (x : Q) : Q :=
  signed x (Qabs x) (nearest_multiple (Qabs x) (last_bit (Qabs x))).

(** The number of tenths in the decimal nearest to [x]. *)
Definition tenths (x : Q) : Z := round_half_even (x * (10 # 1)).

(** Python's [round(x, 1)] of a float [x]: the exact value of [x] rounded
    to the nearest multiple of 0.1, a tie (which a float reaches at .25 and
    .75 only) going to the even one, and the float nearest to that. *)
Definition round1 (x : Q) : Q := float (Qmake (tenths x) 10).

(** [str(x)] and [repr(x)] of a float [round1] returned: the shortest
    decimal that reads back as [x], which has one digit after the point. *)
Definition str_float1 (x : Q) : string :=
  let t := tenths x in
  let sign := if t <? 0 then "-" else "" in
  let whole := str_int (Z.abs t / 10) in
  let tenth := str_int (Z.abs t mod 10) in
  (sign ++ whole ++ "." ++ tenth)%string.

Definition str_number (v : number) : string :=
  match v with
  | PyInt n => str_int n
  | PyFloat x => str_float1 x
  end.

(** SQL [AVG] of a column of integers: [NULL] over no rows. *)
Definition avg (levels : list Z) : option Q :=
  match levels with
  | [] => None
  | _ => Some (Qmake (fold_right Z.add 0 levels) (Pos.of_nat (List.length levels)))
  end.

(** [float(avg_level or 0)]. *)
Definition float_or_0 (avg_level : option Q) : Q :=
  match avg_level with
  | Some x => float x
  | None => 0%Q
  end.

(** Storing a number in an [INTEGER] column: a float of [round1] goes out
    as its [repr], the decimal of one digit, and PostgreSQL rounds a
    numeric literal to the nearest integer, a tie going away from zero. *)
Definition to_integer (v : number) : Z :=
  match v with
  | PyInt n => n
  | PyFloat x =>
      let d := Qmake (tenths x) 10 in
      if Qle_bool 0 d then Qfloor (d + (1 # 2)) else - Qfloor ((1 # 2) - d)
  end.

(** ** The schema of [create_tables] *)

Record date := mkDate { year : Z; month : Z; day : Z }.

(** Table [entries]: название, тип, дата, описание, соавторы. *)
Record entry := mkEntry {
  entry_id : Z;
  entry_title : string;
  entry_type : string;
  entry_date : date;
  entry_description : option string;
  entry_coauthors : option string }.

(** Table [achievements]: название is [UNIQUE]. *)
Record achievement := mkAchievement {
  achievement_id : Z;
  achievement_name : string;
  achievement_description : string }.

(** Table [user_achievements], primary key (user_id, achievement_id);
    получено defaults to [CURRENT_TIMESTAMP]. *)
Record user_achievement := mkUserAchievement {
  ua_user_id : Z;
  ua_achievement_id : Z;
  ua_received : Z }.

(** Table [competencies]: название, категория. *)
Record competency := mkCompetency {
  competency_id : Z;
  competency_name : string;
  competency_category : string }.

(** Table [entry_competencies], primary key (entry_id, competency_id);
    both columns reference their table [ON DELETE CASCADE]. *)
Record entry_competency := mkEntryCompetency {
  ec_entry_id : Z;
  ec_competency_id : Z;
  ec_level : Z }.

(** Table [goals]: описание, тип, цель_значение, текущее_значение,
    завершено. *)
Record goal := mkGoal {
  goal_id : Z;
  goal_description : string;
  goal_type : string;
  goal_target : Z;
  goal_current : Z;
  goal_completed : bool }.

Record database := mkDatabase {
  entries : list entry;
  achievements : list achievement;
  user_achievements : list user_achievement;
  competencies : list competency;
  competencies_id_seq : Z;
  entry_competencies : list entry_competency;
  goals : list goal;
  current_timestamp : Z }.

Definition set_user_achievements (l : list user_achievement) (d : database) : database :=
  mkDatabase (entries d) (achievements d) l (competencies d)
    (competencies_id_seq d) (entry_competencies d) (goals d) (current_timestamp d).

Definition set_competencies (l : list competency) (seq : Z)
  (g : list entry_competency) (d : database) : database :=
  mkDatabase (entries d) (achievements d) (user_achievements d) l seq g
    (goals d) (current_timestamp d).

Definition set_goals (l : list goal) (d : database) : database :=
  mkDatabase (entries d) (achievements d) (user_achievements d) (competencies d)
    (competencies_id_seq d) (entry_competencies d) l (current_timestamp d).

(** The five seeded achievements of [create_tables]. *)
Definition achievements_data : list (string * string) :=
  [ ("Первый шаг", "Создана первая запись");
    ("Командный игрок", "Три и более записи с соавторами");
    ("Разносторонний", "Записи минимум трёх разных типов");
    ("Плодотворный год", "Три и более записи за один календарный год");
    ("Словобог", "Суммарный объём описаний превысил 5000 символов") ].

Fixpoint seed_achievements (next : Z) (l : list (string * string)) : list achievement :=
  match l with
  | [] => []
  | (name, desc) :: rest => mkAchievement next name desc :: seed_achievements (next + 1) rest
  end.

(** ** Statements *)

(** The statements the modelled methods send to the store. *)
Inductive stmt :=
| CountEntries
| CountCoauthored
| CountDistinctTypes
| CountEntriesOfYear (y : Z)
| SumDescriptionLengths
| SelectAchievementId (name : string)
| SelectUserAchievement (user_id ach_id : Z)
| InsertUserAchievement (user_id ach_id : Z)
| Commit
| DeleteCompetencies
| InsertCompetency (name category : string)
| SelectCompetencyLevels
| SelectGoals
| AvgLevelByName (name : string)
| UpdateGoalCurrent (v : number) (id : Z)
| UpdateGoalCompleted (b : bool) (id : Z).

Inductive exn :=
| TypeError
| UniqueViolation
| ForeignKeyViolation
| OperationalError (msg : string).

(** [str(e)] inside the handlers' f-strings. *)
Definition str_exn (e : exn) : string :=
  match e with
  | TypeError => "'NoneType' object is not subscriptable"
  | UniqueViolation => "duplicate key value violates unique constraint"
  | ForeignKeyViolation => "insert or update on table violates foreign key constraint"
  | OperationalError msg => msg
  end.

(** *** Queries *)

(** [SELECT COUNT( * ) FROM entries] *)
Definition count_entries (d : database) : Z := Z.of_nat (List.length (entries d)).

(** [соавторы IS NOT NULL AND соавторы != '' AND соавторы != ' '] *)
Definition has_coauthors (e : entry) : bool :=
  match entry_coauthors e with
  | None => false
  | Some s => negb (String.eqb s "") && negb (String.eqb s " ")
  end.

Definition count_coauthored (d : database) : Z :=
  Z.of_nat (List.length (filter has_coauthors (entries d))).

(** [SELECT COUNT(DISTINCT тип) FROM entries] *)
Definition count_distinct_types (d : database) : Z :=
  Z.of_nat (List.length (nodup string_dec (map entry_type (entries d)))).

(** [SELECT COUNT( * ) FROM entries WHERE EXTRACT(YEAR FROM дата) = %s] *)
Definition count_entries_of_year (y : Z) (d : database) : Z :=
  Z.of_nat (List.length (filter (fun e => year (entry_date e) =? y) (entries d))).

Fixpoint non_null {A : Type} (l : list (option A)) : list A :=
  match l with
  | [] => []
  | Some x :: rest => x :: non_null rest
  | None :: rest => non_null rest
  end.

(** [SELECT SUM(CHAR_LENGTH(описание)) FROM entries WHERE описание IS NOT NULL]:
    [NULL] when no row qualifies. *)
Definition sum_description_lengths (d : database) : option Z :=
  match non_null (map entry_description (entries d)) with
  | [] => None
  | descs => Some (fold_right Z.add 0 (map char_length descs))
  end.

(** [SELECT id FROM achievements WHERE название = %s], then [fetchone()]. *)
Definition select_achievement_id (name : string) (d : database) : option Z :=
  option_map achievement_id
    (find (fun a => String.eqb (achievement_name a) name) (achievements d)).

Definition is_unlock (user_id ach_id : Z) (r : user_achievement) : bool :=
  (ua_user_id r =? user_id) && (ua_achievement_id r =? ach_id).

(** [SELECT 1 FROM user_achievements WHERE user_id = %s AND achievement_id = %s],
    then the truth value of [fetchone()]. *)
Definition select_user_achievement (user_id ach_id : Z) (d : database) : bool :=
  existsb (is_unlock user_id ach_id) (user_achievements d).

(** *** Data-changing statements *)

Definition update_goal (id : Z) (f : goal -> goal) (d : database) : database :=
  set_goals (map (fun g => if goal_id g =? id then f g else g) (goals d)) d.

Definition with_current (n : Z) (g : goal) : goal :=
  mkGoal (goal_id g) (goal_description g) (goal_type g) (goal_target g) n (goal_completed g).

Definition with_completed (b : bool) (g : goal) : goal :=
  mkGoal (goal_id g) (goal_description g) (goal_type g) (goal_target g) (goal_current g) b.

Definition references_competency (d : database) (g : entry_competency) : bool :=
  existsb (fun c => competency_id c =? ec_competency_id g) (competencies d).

(** What a statement the store accepts does to the tables; the constraints
    of the schema reject an insert that breaks them. *)
Definition effect (s : stmt) (d : database) : exn + database :=
  match s with
  | InsertUserAchievement u a =>
      if select_user_achievement u a d then inl UniqueViolation
      else if existsb (fun r => achievement_id r =? a) (achievements d)
      then inr (set_user_achievements
                  (user_achievements d ++ [mkUserAchievement u a (current_timestamp d)]) d)
      else inl ForeignKeyViolation
  | DeleteCompetencies =>
      inr (set_competencies [] (competencies_id_seq d)
             (filter (fun g => negb (references_competency d g)) (entry_competencies d)) d)
  | InsertCompetency name category =>
      let id := competencies_id_seq d + 1 in
      inr (set_competencies (competencies d ++ [mkCompetency id name category]) id
             (entry_competencies d) d)
  | UpdateGoalCurrent v id => inr (update_goal id (with_current (to_integer v)) d)
  | UpdateGoalCompleted b id => inr (update_goal id (with_completed b) d)
  | _ => inr d
  end.

(** ** The application object and its effects *)

Inductive dialog :=
| InfoBox (title message : string)
| ErrorBox (title message : string).

(** What the modelled methods reach through [self]: the connection's view
    of the tables, the trace of statements sent over it, the loaded
    specialty profiles and the selected set, the three text widgets they
    fill, the message boxes shown and the lines printed; [today] is the
    system clock read by [datetime.now()]. *)
Record app := mkApp {
  db : database;
  issued : list stmt;
  today : date;
  specialties_data : list (string * list (string * string));
  current_specialty : option string;
  self_competencies : list competency;
  competencies_text : string;
  recommendations_text : string;
  goals_text : string;
  dialogs : list dialog;
  printed : list string }.

Definition set_db (d : database) (a : app) : app :=
  mkApp d (issued a) (today a) (specialties_data a) (current_specialty a)
    (self_competencies a) (competencies_text a) (recommendations_text a)
    (goals_text a) (dialogs a) (printed a).

Definition set_issued (l : list stmt) (a : app) : app :=
  mkApp (db a) l (today a) (specialties_data a) (current_specialty a)
    (self_competencies a) (competencies_text a) (recommendations_text a)
    (goals_text a) (dialogs a) (printed a).

Definition set_profile (s : option string) (l : list competency) (a : app) : app :=
  mkApp (db a) (issued a) (today a) (specialties_data a) s l
    (competencies_text a) (recommendations_text a) (goals_text a) (dialogs a)
    (printed a).

Definition set_competencies_text (t : string) (a : app) : app :=
  mkApp (db a) (issued a) (today a) (specialties_data a) (current_specialty a)
    (self_competencies a) t (recommendations_text a) (goals_text a) (dialogs a)
    (printed a).

Definition set_recommendations_text (t : string) (a : app) : app :=
  mkApp (db a) (issued a) (today a) (specialties_data a) (current_specialty a)
    (self_competencies a) (competencies_text a) t (goals_text a) (dialogs a)
    (printed a).

Definition set_goals_text (t : string) (a : app) : app :=
  mkApp (db a) (issued a) (today a) (specialties_data a) (current_specialty a)
    (self_competencies a) (competencies_text a) (recommendations_text a) t
    (dialogs a) (printed a).

Definition set_dialogs (l : list dialog) (a : app) : app :=
  mkApp (db a) (issued a) (today a) (specialties_data a) (current_specialty a)
    (self_competencies a) (competencies_text a) (recommendations_text a)
    (goals_text a) l (printed a).

Definition set_printed (l : list string) (a : app) : app :=
  mkApp (db a) (issued a) (today a) (specialties_data a) (current_specialty a)
    (self_competencies a) (competencies_text a) (recommendations_text a)
    (goals_text a) (dialogs a) l.

(** A method either returns or raises; either way it leaves a state. *)
Inductive outcome (A : Type) :=
| Returned (x : A)
| Raised (e : exn).

Arguments Returned {A} x.
Arguments Raised {A} e.

Definition M (A : Type) : Type := app -> outcome A * app.

Definition ret {A : Type} (x : A) : M A := fun a => (Returned x, a).

Definition raise {A : Type} (e : exn) : M A := fun a => (Raised e, a).

Definition bind {A B : Type} (m : M A) (k : A -> M B) : M B :=
  fun a =>
    match m a with
    | (Returned x, a') => k x a'
    | (Raised e, a') => (Raised e, a')
    end.

(** [try: body / except Exception as e: handler]: what the body did before
    it raised stays done. *)
Definition try_except {A : Type} (body : M A) (handler : exn -> M A) : M A :=
  fun a =>
    match body a with
    | (Returned x, a') => (Returned x, a')
    | (Raised e, a') => handler e a'
    end.

Declare Scope action_scope.
Delimit Scope action_scope with action.

Notation "x <- m ;; k" := (bind m (fun x => k))
  (at level 61, m at next level, right associativity) : action_scope.
Notation "m ;; k" := (bind m (fun _ => k))
  (at level 61, right associativity) : action_scope.

Local Open Scope action_scope.

Definition when (b : bool) (m : M unit) : M unit := if b then m else ret tt.

Definition get {A : Type} (f : app -> A) : M A := fun a => (Returned (f a), a).

Definition modify (f : app -> app) : M unit := fun a => (Returned tt, f a).

(** [x[0]] on the result of [fetchone()]. *)
Definition subscript0 {A : Type} (row : option A) : M A :=
  match row with
  | Some x => ret x
  | None => raise TypeError
  end.

Definition messagebox_showinfo (title message : string) : M unit :=
  modify (fun a => set_dialogs (dialogs a ++ [InfoBox title message]) a).

Definition messagebox_showerror (title message : string) : M unit :=
  modify (fun a => set_dialogs (dialogs a ++ [ErrorBox title message]) a).

Definition print (line : string) : M unit :=
  modify (fun a => set_printed (printed a ++ [line]) a).

(** The failure oracle: [rejects n s] is the error message when the store
    fails the statement [s] sent as the [n]-th one (connectivity, aborted
    transaction, ...), [None] when it runs it. *)
Definition oracle : Type := nat -> stmt -> option string.

Definition reliable : oracle := fun _ _ => None.

Section Methods.

Variable rejects : oracle.

(** [self.cursor.execute(s)] and [self.conn.commit()]. *)
Definition execute (s : stmt) : M unit :=
  fun a =>
    let a1 := set_issued (issued a ++ [s]) a in
    match rejects (List.length (issued a)) s with
    | Some msg => (Raised (OperationalError msg), a1)
    | None =>
        match effect s (db a) with
        | inl e => (Raised e, a1)
        | inr d => (Returned tt, set_db d a1)
        end
    end.

(** [execute] a [SELECT], then fetch its result. *)
Definition query {A : Type} (s : stmt) (result : database -> A) : M A :=
  execute s ;; get (fun a => result (db a)).

(** *** Achievements *)

Definition unlock_achievement (name : string) (user_id : Z) : M unit :=
  try_except
    (row <- query (SelectAchievementId name) (select_achievement_id name) ;;
     ach_id <- subscript0 row ;;
     unlocked <- query (SelectUserAchievement user_id ach_id)
                   (select_user_achievement user_id ach_id) ;;
     when (negb unlocked)
       (execute (InsertUserAchievement user_id ach_id) ;;
        execute Commit ;;
        messagebox_showinfo "Достижение" ("Получено достижение: " ++ name)%string))
    (fun e => print ("Ошибка разблокировки достижения: " ++ str_exn e)%string).

Definition check_achievements (entry_id : Z) : M unit :=
  let user_id := 1 in
  count <- query CountEntries count_entries ;;
  when (count =? 1) (unlock_achievement "Первый шаг" user_id) ;;
  coauthored <- query CountCoauthored count_coauthored ;;
  when (coauthored >=? 3) (unlock_achievement "Командный игрок" user_id) ;;
  types_count <- query CountDistinctTypes count_distinct_types ;;
  when (types_count >=? 3) (unlock_achievement "Разносторонний" user_id) ;;
  current_year <- get (fun a => year (today a)) ;;
  year_count <- query (CountEntriesOfYear current_year) (count_entries_of_year current_year) ;;
  when (year_count >=? 3) (unlock_achievement "Плодотворный год" user_id) ;;
  result <- query SumDescriptionLengths sum_description_lengths ;;
  let total_chars := match result with Some n => n | None => 0 end in
  when (total_chars >? 5000) (unlock_achievement "Словобог" user_id).

(** *** Competencies and recommendations *)

(** A row of the aggregate query of [update_competencies]:
    id, название, категория, AVG(уровень). *)
Record level_row := mkLevelRow {
  row_id : Z;
  row_name : string;
  row_category : string;
  row_avg : option Q }.

(** The message of [generate_recommendations] for one row, if any. *)
Definition recommendation (r : level_row) : list string :=
  let name := row_name r in
  let level := float_or_0 (row_avg r) in
  if Qeq_bool level 0 then
    ["Вы еще не оценивали компетенцию '" ++ name ++ "'. Добавьте запись с этой компетенцией."]%string
  else if Qlt_bool level 2 then
    if contains "Программирование" name then
      ["Компетенция '" ++ name ++ "' требует развития. Рекомендуем решать задачи на LeetCode или Codewars."]%string
    else if contains "БД" name then
      ["Компетенция '" ++ name ++ "' низкая. Рекомендуем пройти курс по SQL и NoSQL базам данных."]%string
    else if contains "Презентация" name then
      ["Компетенция '" ++ name ++ "' слабая. Выступите с докладом на студенческой конференции."]%string
    else
      ["Компетенция '" ++ name ++ "' требует серьезного развития. Рекомендуем пройти соответствующий курс."]%string
  else if Qlt_bool level 3 then
    ["Уровень компетенции '" ++ name ++ "' ниже среднего. Рекомендуем практиковаться в этой области."]%string
  else if Qle_bool (9 # 2) level then
    ["Компетенция '" ++ name ++ "' развита отлично! Можете делиться опытом с другими."]%string
  else [].

Definition fallback_recommendation : string :=
  "Все компетенции развиты хорошо! Продолжайте в том же духе.".

(** The list [recommendations] when the loop and the fallback test are done. *)
Definition recommendations (comp_data : list level_row) : list string :=
  match flat_map recommendation comp_data with
  | [] => [fallback_recommendation]
  | recs => recs
  end.

Definition nl : string := String "010"%char EmptyString.

(** [for i, rec in enumerate(recs, i): rec_text += f"{i}. {rec}\n"] *)
Fixpoint numbered (i : Z) (recs : list string) : string :=
  match recs with
  | [] => ""
  | rec :: rest => (str_int i ++ ". " ++ rec ++ nl ++ numbered (i + 1) rest)%string
  end.

Definition generate_recommendations (comp_data : list level_row) : M unit :=
  let rec_text :=
    ("Персонализированные рекомендации:" ++ nl ++ nl
       ++ numbered 1 (recommendations comp_data))%string in
  modify (set_recommendations_text rec_text).

(** [level = round(float(avg_level or 0), 1)] *)
Definition displayed_level (r : level_row) : Q := round1 (float_or_0 (row_avg r)).

Definition is_weak (r : level_row) : bool :=
  Qlt_bool (displayed_level r) 3 && Qlt_bool 0 (displayed_level r).

(** The list [weak_zones] of [update_competencies] when its loop is done. *)
Definition weak_zones (comp_data : list level_row) : list (string * Q) :=
  map (fun r => (row_name r, displayed_level r)) (filter is_weak comp_data).

Definition level_line (r : level_row) : string :=
  ("• " ++ row_name r ++ " (" ++ row_category r ++ "): "
     ++ str_float1 (displayed_level r) ++ "/5.0" ++ nl)%string.

Definition weak_line (z : string * Q) : string :=
  ("• " ++ fst z ++ ": " ++ str_float1 (snd z) ++ "/5.0" ++ nl)%string.

Definition levels_text (comp_data : list level_row) : string :=
  let text :=
    ("Средний уровень по компетенциям:" ++ nl ++ nl
       ++ String.concat "" (map level_line comp_data))%string in
  match weak_zones comp_data with
  | [] => text
  | zones =>
      (text ++ nl ++ "Слабые зоны (уровень < 3):" ++ nl
         ++ String.concat "" (map weak_line zones))%string
  end.

Fixpoint insert_by {A : Type} (le : A -> A -> bool) (x : A) (l : list A) : list A :=
  match l with
  | [] => [x]
  | y :: rest => if le x y then x :: l else y :: insert_by le x rest
  end.

(** [ORDER BY]: a stable sort. *)
Definition order_by {A : Type} (le : A -> A -> bool) (l : list A) : list A :=
  fold_right (insert_by le) [] l.

(** [ORDER BY c.категория, c.название], strings compared byte by byte. *)
Definition category_name_le (r1 r2 : level_row) : bool :=
  match String.compare (row_category r1) (row_category r2) with
  | Lt => true
  | Gt => false
  | Eq => String.leb (row_name r1) (row_name r2)
  end.

Definition levels_of (d : database) (c : competency) : list Z :=
  map ec_level
    (filter (fun g => ec_competency_id g =? competency_id c) (entry_competencies d)).

(** The aggregate query of [update_competencies]: every competency, left
    joined with its grades and grouped by its (primary) key. *)
Definition select_competency_levels (d : database) : list level_row :=
  order_by category_name_le
    (map (fun c => mkLevelRow (competency_id c) (competency_name c)
                     (competency_category c) (avg (levels_of d c)))
       (competencies d)).

Definition update_competencies : M unit :=
  loaded <- get self_competencies ;;
  match loaded with
  | [] =>
      modify (set_competencies_text "Сначала загрузите компетенции для специальности") ;;
      modify (set_recommendations_text "")
  | _ =>
      try_except
        (comp_data <- query SelectCompetencyLevels select_competency_levels ;;
         modify (set_competencies_text (levels_text comp_data)) ;;
         generate_recommendations comp_data)
        (fun e =>
           modify (set_competencies_text
                     ("Ошибка при загрузке компетенций: " ++ str_exn e)%string))
  end.

Fixpoint for_each {A : Type} (l : list A) (body : A -> M unit) : M unit :=
  match l with
  | [] => ret tt
  | x :: rest => body x ;; for_each rest body
  end.

(** [specialty in self.specialties_data], then
    [self.specialties_data[specialty].get("competencies", [])]. *)
Definition profile (specialty : string) (a : app) : option (list (string * string)) :=
  option_map snd
    (find (fun p => String.eqb (fst p) specialty) (specialties_data a)).

(** [specialty] is what [self.specialty_combo.get()] returns.  The rebuilding
    of the check boxes ([create_competencies_widgets]) leaves no trace in
    the modelled state. *)
Definition load_competencies (specialty : string) : M unit :=
  known <- get (profile specialty) ;;
  match known with
  | Some competencies_list =>
      when (negb (String.eqb specialty ""))
        (modify (set_profile (Some specialty) []) ;;
         try_except
           (execute DeleteCompetencies ;;
            for_each competencies_list
              (fun comp =>
                 comp_id <- query (InsertCompetency (fst comp) (snd comp))
                              competencies_id_seq ;;
                 modify (fun a =>
                           set_profile (current_specialty a)
                             (self_competencies a
                                ++ [mkCompetency comp_id (fst comp) (snd comp)]) a)) ;;
            execute Commit ;;
            update_competencies ;;
            messagebox_showinfo "Успех"
              ("Загружены компетенции для специальности: " ++ specialty)%string)
           (fun e =>
              messagebox_showerror "Ошибка"
                ("Ошибка загрузки компетенций: " ++ str_exn e)%string))
  | None => ret tt
  end.

(** *** Goals *)

(** [SELECT * FROM goals ORDER BY id] *)
Definition select_goals (d : database) : list goal :=
  order_by (fun g1 g2 => goal_id g1 <=? goal_id g2) (goals d).

(** [SELECT AVG(ec.уровень) FROM competencies c JOIN entry_competencies ec
    ON c.id = ec.competency_id WHERE c.название = %s] *)
Definition avg_level_by_name (name : string) (d : database) : option Q :=
  avg (flat_map (levels_of d)
         (filter (fun c => String.eqb (competency_name c) name) (competencies d))).

(** [description.split("(")[-1].rstrip(")") if "(" in description else ""] *)
Definition goal_competency (description : string) : string :=
  if contains "(" description then rstrip ")" (split_last "(" description) else "".

(** The value of [current] after the dispatch on the goal's type. *)
Definition recompute_current (g : goal) : M number :=
  if String.eqb (goal_type g) "Добавить записи" then
    n <- query CountEntries count_entries ;;
    ret (PyInt n)
  else if String.eqb (goal_type g) "Поднять компетенцию" then
    let comp_name := goal_competency (goal_description g) in
    if String.eqb comp_name "" then ret (PyInt 0)
    else
      result <- query (AvgLevelByName comp_name) (avg_level_by_name comp_name) ;;
      ret (PyFloat (round1 (float_or_0 result)))
  else ret (PyInt (goal_current g)).

(** [current >= target] *)
Definition reaches (current : number) (target : Z) : bool :=
  Qle_bool (inject_Z target) (number_value current).

Definition goal_text (g : goal) (current : number) (status : string) : string :=
  ("Цель: " ++ goal_description g ++ nl ++ "Прогресс: "
     ++ str_number current ++ " из " ++ str_int (goal_target g) ++ " "
     ++ status ++ nl ++ nl)%string.

(** The loop over the fetched goals; [text] accumulates. *)
Fixpoint refresh_goals (gs : list goal) (text : string) : M string :=
  match gs with
  | [] => ret text
  | g :: rest =>
      current <- recompute_current g ;;
      execute (UpdateGoalCurrent current (goal_id g)) ;;
      status <- (if reaches current (goal_target g)
                 then execute (UpdateGoalCompleted true (goal_id g)) ;;
                      ret "✓ Выполнено"
                 else execute (UpdateGoalCompleted false (goal_id g)) ;;
                      ret "→ В процессе") ;;
      refresh_goals rest (text ++ goal_text g current status)%string
  end.

Definition update_goals : M unit :=
  try_except
    (gs <- query SelectGoals select_goals ;;
     text <- refresh_goals gs "" ;;
     execute Commit ;;
     modify (set_goals_text
               (if String.eqb text "" then "Цели еще не добавлены" else text)))
    (fun e =>
       modify (set_goals_text ("Ошибка при обновлении целей: " ++ str_exn e)%string)).

End Methods.

(** ** The rest of the store and of the window *)

(** Table [keywords]: keyword is [UNIQUE]. *)
Record keyword_row := mkKeyword { keyword_id : Z; keyword_text : string }.

(** Table [entry_keywords], primary key (entry_id, keyword_id). *)
Record entry_keyword := mkEntryKeyword { ek_entry_id : Z; ek_keyword_id : Z }.

(** The statements of the methods below that [stmt] does not list. *)
Inductive statement :=
| CreateTable (table : string)
| CountAchievements
| InsertAchievement (name description : string)
| SelectKeywords
| InsertEntry (title type date_str description coauthors : string)
| InsertKeyword (keyword : string)
| InsertEntryKeyword (entry_id keyword_id : Z)
| InsertEntryCompetency (entry_id competency_id level : Z)
| SelectKeywordCounts
| SelectCoauthors
| SelectAchievements
| InsertGoal (description type : string) (target : Z)
| DeleteGoals.

(** What these methods reach beyond [app]: the keyword tables, the
    sequences behind the [SERIAL] columns, the trace of their statements,
    the keyword list and the two widgets showing it, two more text panes,
    the description field of the goal form and the warnings shown. *)
Record session := mkSession {
  window : app;
  keywords : list keyword_row;
  entry_keywords : list entry_keyword;
  entries_id_seq : Z;
  keywords_id_seq : Z;
  goals_id_seq : Z;
  achievements_id_seq : Z;
  sent : list statement;
  used_keywords : list string;
  keywords_listbox : list string;
  keywords_combo_values : list string;
  research_text : string;
  achievements_text : string;
  goal_desc_entry : string;
  warnings : list (string * string) }.

Definition set_window (a : app) (s : session) : session :=
  mkSession a (keywords s) (entry_keywords s) (entries_id_seq s) (keywords_id_seq s)
    (goals_id_seq s) (achievements_id_seq s) (sent s) (used_keywords s)
    (keywords_listbox s) (keywords_combo_values s) (research_text s)
    (achievements_text s) (goal_desc_entry s) (warnings s).

Definition set_keywords (l : list keyword_row) (seq : Z) (s : session) : session :=
  mkSession (window s) l (entry_keywords s) (entries_id_seq s) seq
    (goals_id_seq s) (achievements_id_seq s) (sent s) (used_keywords s)
    (keywords_listbox s) (keywords_combo_values s) (research_text s)
    (achievements_text s) (goal_desc_entry s) (warnings s).

Definition set_entry_keywords (l : list entry_keyword) (s : session) : session :=
  mkSession (window s) (keywords s) l (entries_id_seq s) (keywords_id_seq s)
    (goals_id_seq s) (achievements_id_seq s) (sent s) (used_keywords s)
    (keywords_listbox s) (keywords_combo_values s) (research_text s)
    (achievements_text s) (goal_desc_entry s) (warnings s).

Definition set_entries_id_seq (n : Z) (s : session) : session :=
  mkSession (window s) (keywords s) (entry_keywords s) n (keywords_id_seq s)
    (goals_id_seq s) (achievements_id_seq s) (sent s) (used_keywords s)
    (keywords_listbox s) (keywords_combo_values s) (research_text s)
    (achievements_text s) (goal_desc_entry s) (warnings s).

Definition set_goals_id_seq (n : Z) (s : session) : session :=
  mkSession (window s) (keywords s) (entry_keywords s) (entries_id_seq s)
    (keywords_id_seq s) n (achievements_id_seq s) (sent s) (used_keywords s)
    (keywords_listbox s) (keywords_combo_values s) (research_text s)
    (achievements_text s) (goal_desc_entry s) (warnings s).

Definition set_achievements_id_seq (n : Z) (s : session) : session :=
  mkSession (window s) (keywords s) (entry_keywords s) (entries_id_seq s)
    (keywords_id_seq s) (goals_id_seq s) n (sent s) (used_keywords s)
    (keywords_listbox s) (keywords_combo_values s) (research_text s)
    (achievements_text s) (goal_desc_entry s) (warnings s).

Definition set_sent (l : list statement) (s : session) : session :=
  mkSession (window s) (keywords s) (entry_keywords s) (entries_id_seq s)
    (keywords_id_seq s) (goals_id_seq s) (achievements_id_seq s) l (used_keywords s)
    (keywords_listbox s) (keywords_combo_values s) (research_text s)
    (achievements_text s) (goal_desc_entry s) (warnings s).

Definition set_used_keywords (l : list string) (s : session) : session :=
  mkSession (window s) (keywords s) (entry_keywords s) (entries_id_seq s)
    (keywords_id_seq s) (goals_id_seq s) (achievements_id_seq s) (sent s) l
    (keywords_listbox s) (keywords_combo_values s) (research_text s)
    (achievements_text s) (goal_desc_entry s) (warnings s).

Definition set_keywords_listbox (l : list string) (s : session) : session :=
  mkSession (window s) (keywords s) (entry_keywords s) (entries_id_seq s)
    (keywords_id_seq s) (goals_id_seq s) (achievements_id_seq s) (sent s)
    (used_keywords s) l (keywords_combo_values s) (research_text s)
    (achievements_text s) (goal_desc_entry s) (warnings s).

Definition set_keywords_combo_values (l : list string) (s : session) : session :=
  mkSession (window s) (keywords s) (entry_keywords s) (entries_id_seq s)
    (keywords_id_seq s) (goals_id_seq s) (achievements_id_seq s) (sent s)
    (used_keywords s) (keywords_listbox s) l (research_text s)
    (achievements_text s) (goal_desc_entry s) (warnings s).

Definition set_research_text (t : string) (s : session) : session :=
  mkSession (window s) (keywords s) (entry_keywords s) (entries_id_seq s)
    (keywords_id_seq s) (goals_id_seq s) (achievements_id_seq s) (sent s)
    (used_keywords s) (keywords_listbox s) (keywords_combo_values s) t
    (achievements_text s) (goal_desc_entry s) (warnings s).

Definition set_achievements_text (t : string) (s : session) : session :=
  mkSession (window s) (keywords s) (entry_keywords s) (entries_id_seq s)
    (keywords_id_seq s) (goals_id_seq s) (achievements_id_seq s) (sent s)
    (used_keywords s) (keywords_listbox s) (keywords_combo_values s)
    (research_text s) t (goal_desc_entry s) (warnings s).

Definition set_goal_desc_entry (t : string) (s : session) : session :=
  mkSession (window s) (keywords s) (entry_keywords s) (entries_id_seq s)
    (keywords_id_seq s) (goals_id_seq s) (achievements_id_seq s) (sent s)
    (used_keywords s) (keywords_listbox s) (keywords_combo_values s)
    (research_text s) (achievements_text s) t (warnings s).

Definition set_warnings (l : list (string * string)) (s : session) : session :=
  mkSession (window s) (keywords s) (entry_keywords s) (entries_id_seq s)
    (keywords_id_seq s) (goals_id_seq s) (achievements_id_seq s) (sent s)
    (used_keywords s) (keywords_listbox s) (keywords_combo_values s)
    (research_text s) (achievements_text s) (goal_desc_entry s) l.

Definition set_entries (l : list entry) (d : database) : database :=
  mkDatabase l (achievements d) (user_achievements d) (competencies d)
    (competencies_id_seq d) (entry_competencies d) (goals d) (current_timestamp d).

Definition set_achievements (l : list achievement) (d : database) : database :=
  mkDatabase (entries d) l (user_achievements d) (competencies d)
    (competencies_id_seq d) (entry_competencies d) (goals d) (current_timestamp d).

Definition set_entry_competencies (l : list entry_competency) (d : database) : database :=
  mkDatabase (entries d) (achievements d) (user_achievements d) (competencies d)
    (competencies_id_seq d) l (goals d) (current_timestamp d).

(** The tables the window's connection sees. *)
Definition tables (s : session) : database := db (window s).

Definition set_tables (d : database) (s : session) : session :=
  set_window (set_db d (window s)) s.

(** *** Queries *)

(** [SELECT COUNT( * ) FROM achievements] *)
Definition count_achievements (s : session) : Z :=
  Z.of_nat (List.length (achievements (tables s))).

(** [SELECT keyword FROM keywords ORDER BY keyword], strings compared byte
    by byte. *)
Definition select_keywords (s : session) : list string :=
  order_by String.leb (map keyword_text (keywords s)).

(** The id [RETURNING id] hands back after the upsert of a keyword. *)
Definition keyword_id_of (keyword : string) (s : session) : option Z :=
  option_map keyword_id
    (find (fun k => String.eqb (keyword_text k) keyword) (keywords s)).

(** [COUNT(ek.entry_id)] of the group of one keyword text. *)
Definition keyword_count (s : session) (keyword : string) : Z :=
  Z.of_nat
    (List.length
       (flat_map
          (fun k => filter (fun ek => ek_keyword_id ek =? keyword_id k) (entry_keywords s))
          (filter (fun k => String.eqb (keyword_text k) keyword) (keywords s)))).

(** [ORDER BY count DESC, k.keyword] *)
Definition count_desc_keyword_le (r1 r2 : string * Z) : bool :=
  if snd r2 <? snd r1 then true
  else if snd r1 <? snd r2 then false
  else String.leb (fst r1) (fst r2).

(** The first query of [update_research_map]: the keywords left joined with
    their uses, grouped by keyword. *)
Definition select_keyword_counts (s : session) : list (string * Z) :=
  order_by count_desc_keyword_le
    (map (fun k => (k, keyword_count s k))
       (nodup string_dec (map keyword_text (keywords s)))).

(** The second query of [update_research_map]. *)
Definition select_coauthors (s : session) : list (option string) :=
  map entry_coauthors (filter has_coauthors (entries (tables s))).

(** The query of [update_achievements]: the catalog by id, left joined with
    the unlocks of user 1. *)
Definition select_achievements (s : session) : list (string * string * option Z) :=
  flat_map
    (fun a =>
       match filter (is_unlock 1 (achievement_id a)) (user_achievements (tables s)) with
       | [] => [(achievement_name a, achievement_description a, None)]
       | rows =>
           map (fun r => (achievement_name a, achievement_description a,
                          Some (ua_received r))) rows
       end)
    (order_by (fun a1 a2 => achievement_id a1 <=? achievement_id a2)
       (achievements (tables s))).

(** *** Data-changing statements *)

(** The largest value of an [INTEGER] column. *)
Definition integer_max : Z := 2147483647.

Definition integer_min : Z := -2147483648.

Definition out_of_range : exn := OperationalError "integer out of range".

Definition invalid_date : exn := OperationalError "invalid input syntax for type date".

Definition check_violation : exn :=
  OperationalError "new row violates check constraint".

(** Actions over a session. *)
Definition W (A : Type) : Type := session -> outcome A * session.

Definition unit_w {A : Type} (x : A) : W A := fun s => (Returned x, s).

Definition raise_w {A : Type} (e : exn) : W A := fun s => (Raised e, s).

Definition bind_w {A B : Type} (m : W A) (k : A -> W B) : W B :=
  fun s =>
    match m s with
    | (Returned x, s') => k x s'
    | (Raised e, s') => (Raised e, s')
    end.

Definition try_except_w {A : Type} (body : W A) (handler : exn -> W A) : W A :=
  fun s =>
    match body s with
    | (Returned x, s') => (Returned x, s')
    | (Raised e, s') => handler e s'
    end.

(** A method of the first part, run on the window of the session. *)
Definition lift {A : Type} (m : M A) : W A :=
  fun s => let (r, a) := m (window s) in (r, set_window a s).

Definition get_w {A : Type} (f : session -> A) : W A := fun s => (Returned (f s), s).

Definition modify_w (f : session -> session) : W unit := fun s => (Returned tt, f s).

Definition subscript0_w {A : Type} (row : option A) : W A :=
  match row with
  | Some x => unit_w x
  | None => raise_w TypeError
  end.

Declare Scope window_scope.
Delimit Scope window_scope with window.

Notation "x <- m ;; k" := (bind_w m (fun x => k))
  (at level 61, m at next level, right associativity) : window_scope.
Notation "m ;; k" := (bind_w m (fun _ => k))
  (at level 61, right associativity) : window_scope.

Definition messagebox_showwarning (title message : string) : W unit :=
  modify_w (fun s => set_warnings (warnings s ++ [(title, message)]) s).

Fixpoint for_each_w {A : Type} (l : list A) (body : A -> W unit) : W unit :=
  match l with
  | [] => unit_w tt
  | x :: rest => bind_w (body x) (fun _ => for_each_w rest body)
  end.

(** The failure oracle of these statements. *)
Definition oracle_w : Type := nat -> statement -> option string.

Definition reliable_w : oracle_w := fun _ _ => None.

(** *** The research map *)

(** [coauthor_count[author] = coauthor_count.get(author, 0) + 1] on a dict
    kept as the list of its items in insertion order. *)
Fixpoint increment (author : string) (counts : list (string * Z)) : list (string * Z) :=
  match counts with
  | [] => [(author, 1)]
  | (k, n) :: rest =>
      if String.eqb k author then (k, n + 1) :: rest
      else (k, n) :: increment author rest
  end.

(** The dict [coauthor_count] when the loop over the rows is done. *)
Definition coauthor_count (rows : list (option string)) : list (string * Z) :=
  fold_left
    (fun counts row =>
       match row with
       | Some r =>
           if String.eqb r "" then counts
           else fold_left (fun c author => increment author c) (stripped_pieces r) counts
       | None => counts
       end)
    rows [].

(** [sorted(items, key=lambda x: x[1], reverse=True)]: stable, largest
    count first. *)
Definition sorted_by_count (items : list (string * Z)) : list (string * Z) :=
  order_by (fun x y => snd y <=? snd x) items.

Definition keyword_line (r : string * Z) : string :=
  ("  " ++ fst r ++ " — " ++ str_int (snd r) ++ " записи" ++ nl)%string.

Definition coauthor_line (r : string * Z) : string :=
  ("  " ++ fst r ++ " — " ++ str_int (snd r) ++ " работы" ++ nl)%string.

(** The text [update_research_map] builds from the results of its queries. *)
Definition research_map_text (keywords_data : list (string * Z))
  (coauthors_data : list (option string)) : string :=
  let sorted_coauthors := sorted_by_count (coauthor_count coauthors_data) in
  let text := ("Ключевые слова:" ++ nl)%string in
  let text :=
    (text ++ join (map keyword_line (filter (fun r => snd r >? 0) keywords_data)))%string in
  let text :=
    if negb (existsb (fun r => snd r >? 0) keywords_data)
    then (text ++ "  (ключевые слова еще не добавлены)" ++ nl)%string
    else text in
  let text := (text ++ nl ++ "Соавторы:" ++ nl)%string in
  let text :=
    (text ++ join (map coauthor_line
                     (filter (fun r => negb (String.eqb (fst r) "")) sorted_coauthors)))%string in
  match sorted_coauthors with
  | [] => (text ++ "  (соавторы еще не добавлены)" ++ nl)%string
  | _ => text
  end.

(** The form of the first tab, as [save_entry] reads it: the text of the
    fields, the check boxes with the competency id behind each, and the
    level chosen in the read-only combo box of 1 to 5. *)
Record form := mkForm {
  title_entry : string;
  type_combo : string;
  date_entry : string;
  desc_text : string;
  coauthors_entry : string;
  keywords_combo : string;
  comp_vars : list (bool * Z);
  level_combo : Z }.

(** The DDL of [create_tables], by table. *)
Definition queries : list statement :=
  map CreateTable
    [ "entries"; "keywords"; "entry_keywords"; "achievements"; "user_achievements";
      "competencies"; "entry_competencies"; "goals" ]%string.

Section Window.

Variable rejects : oracle.
Variable refuses : oracle_w.

(** [datetime.strptime(_, "%Y-%m-%d")], [None] for [ValueError]. *)
Variable strptime : string -> option date.

(** The store reading a text as a [DATE]. *)
Variable date_in : string -> option date.

(** Python's [int] of a text, [None] for [ValueError]. *)
Variable py_int : string -> option Z.

(** [_.strftime("%Y-%m-%d %H:%M")] of a stored timestamp. *)
Variable strftime : Z -> string.

Local Open Scope window_scope.

(** What a statement the store accepts does to the tables and sequences.
    The tables exist, so [CREATE TABLE IF NOT EXISTS] changes nothing; a
    [SERIAL] default draws from its sequence before a conflict is seen. *)
Definition run (q : statement) (s : session) : exn + session :=
  let d := tables s in
  match q with
  | InsertAchievement name description =>
      let id := achievements_id_seq s + 1 in
      let s1 := set_achievements_id_seq id s in
      if existsb (fun a => String.eqb (achievement_name a) name) (achievements d)
      then inr s1
      else if existsb (fun a => achievement_id a =? id) (achievements d)
      then inl UniqueViolation
      else inr (set_tables
                  (set_achievements (achievements d ++ [mkAchievement id name description]) d)
                  s1)
  | InsertEntry title type date_str description coauthors =>
      match date_in date_str with
      | None => inl invalid_date
      | Some day =>
          let id := entries_id_seq s + 1 in
          if existsb (fun e => entry_id e =? id) (entries d) then inl UniqueViolation
          else inr (set_tables
                      (set_entries
                         (entries d
                            ++ [mkEntry id title type day (Some description) (Some coauthors)])
                         d)
                      (set_entries_id_seq id s))
      end
  | InsertKeyword keyword =>
      let id := keywords_id_seq s + 1 in
      if existsb (fun k => String.eqb (keyword_text k) keyword) (keywords s)
      then inr (set_keywords (keywords s) id s)
      else if existsb (fun k => keyword_id k =? id) (keywords s)
      then inl UniqueViolation
      else inr (set_keywords (keywords s ++ [mkKeyword id keyword]) id s)
  | InsertEntryKeyword e k =>
      if existsb (fun r => (ek_entry_id r =? e) && (ek_keyword_id r =? k)) (entry_keywords s)
      then inr s
      else if existsb (fun r => entry_id r =? e) (entries d)
              && existsb (fun r => keyword_id r =? k) (keywords s)
      then inr (set_entry_keywords (entry_keywords s ++ [mkEntryKeyword e k]) s)
      else inl ForeignKeyViolation
  | InsertEntryCompetency e c level =>
      if negb ((1 <=? level) && (level <=? 5)) then inl check_violation
      else if existsb (fun r => (ec_entry_id r =? e) && (ec_competency_id r =? c))
                (entry_competencies d)
      then inr s
      else if existsb (fun r => entry_id r =? e) (entries d)
              && existsb (fun r => competency_id r =? c) (competencies d)
      then inr (set_tables
                  (set_entry_competencies
                     (entry_competencies d ++ [mkEntryCompetency e c level]) d)
                  s)
      else inl ForeignKeyViolation
  | InsertGoal description type target =>
      if (target <? integer_min) || (integer_max <? target) then inl out_of_range
      else
        let id := goals_id_seq s + 1 in
        if existsb (fun g => goal_id g =? id) (goals d) then inl UniqueViolation
        else inr (set_tables
                    (set_goals (goals d ++ [mkGoal id description type target 0 false]) d)
                    (set_goals_id_seq id s))
  | DeleteGoals => inr (set_tables (set_goals [] d) s)
  | _ => inr s
  end.

(** [self.cursor.execute(q)] for these statements. *)
Definition execute_w (q : statement) : W unit :=
  fun s =>
    let s1 := set_sent (sent s ++ [q]) s in
    match refuses (List.length (sent s)) q with
    | Some msg => (Raised (OperationalError msg), s1)
    | None =>
        match run q s1 with
        | inl e => (Raised e, s1)
        | inr s2 => (Returned tt, s2)
        end
    end.

Definition query_w {A : Type} (q : statement) (result : session -> A) : W A :=
  execute_w q ;; get_w result.

(** *** Creating and seeding the tables *)

Definition create_tables : W unit :=
  for_each_w queries
    (fun query =>
       try_except_w (execute_w query)
         (fun e => lift (print ("Ошибка при создании таблицы: " ++ str_exn e)%string))) ;;
  count <- query_w CountAchievements count_achievements ;;
  (if count =? 0
   then for_each_w achievements_data
          (fun row => execute_w (InsertAchievement (fst row) (snd row)))
   else unit_w tt) ;;
  lift (execute rejects Commit).

(** *** Keywords *)

Definition load_used_keywords : W unit :=
  try_except_w
    (rows <- query_w SelectKeywords select_keywords ;;
     modify_w (set_used_keywords rows))
    (fun _ => modify_w (set_used_keywords [])).

Definition update_keywords_listbox : W unit :=
  modify_w (fun s => set_keywords_listbox (used_keywords s) s).

(** *** The panes *)

Definition update_research_map : W unit :=
  try_except_w
    (keywords_data <- query_w SelectKeywordCounts select_keyword_counts ;;
     coauthors_data <- query_w SelectCoauthors select_coauthors ;;
     modify_w (set_research_text (research_map_text keywords_data coauthors_data)))
    (fun e =>
       modify_w (set_research_text ("Ошибка при загрузке данных: " ++ str_exn e)%string)).

Definition achievement_block (row : string * string * option Z) : string :=
  let '(name, desc, received) := row in
  let status :=
    match received with
    | Some t => ("✓ Получено: " ++ strftime t)%string
    | None => "✗ Еще не получено"%string
    end in
  ("• " ++ name ++ nl ++ "  " ++ desc ++ nl ++ "  " ++ status ++ nl ++ nl)%string.

Definition update_achievements : W unit :=
  try_except_w
    (rows <- query_w SelectAchievements select_achievements ;;
     modify_w (set_achievements_text
                 ("Все достижения:" ++ nl ++ nl ++ join (map achievement_block rows))%string))
    (fun e =>
       modify_w (set_achievements_text
                   ("Ошибка при загрузке данных: " ++ str_exn e)%string)).

Definition update_all_tabs : W unit :=
  update_research_map ;;
  update_achievements ;;
  lift (update_competencies rejects) ;;
  lift (update_goals rejects).

(** *** Saving an entry *)

(** The statements after the checks of the form, up to the commit. *)
Definition store_entry (f : form) (description : string)
  (selected_comps : list (Z * Z)) (keywords : list string) : W Z :=
  entry_id <- query_w (InsertEntry (title_entry f) (type_combo f) (date_entry f)
                         description (coauthors_entry f))
                entries_id_seq ;;
  for_each_w keywords
    (fun keyword =>
       row <- query_w (InsertKeyword keyword) (keyword_id_of keyword) ;;
       keyword_id <- subscript0_w row ;;
       execute_w (InsertEntryKeyword entry_id keyword_id)) ;;
  for_each_w selected_comps
    (fun c => execute_w (InsertEntryCompetency entry_id (fst c) (snd c))) ;;
  lift (execute rejects Commit) ;;
  unit_w entry_id.

Definition save_entry (f : form) : W unit :=
  try_except_w
    (let title := title_entry f in
     let entry_type := type_combo f in
     let date_str := date_entry f in
     let description := strip (desc_text f ++ nl) in
     if String.eqb title "" || String.eqb entry_type "" || String.eqb date_str "" then
       messagebox_showwarning "Предупреждение"
         "Заполните обязательные поля: Название, Тип, Дата"
     else
       match strptime date_str with
       | None =>
           messagebox_showwarning "Предупреждение"
             "Некорректный формат даты. Используйте ГГГГ-ММ-ДД"
       | Some _ =>
           let selected_comps :=
             map (fun v => (snd v, level_combo f)) (filter fst (comp_vars f)) in
           if (List.length selected_comps =? 0)%nat then
             messagebox_showwarning "Предупреждение" "Выберите хотя бы одну компетенцию"
           else if (3 <? List.length selected_comps)%nat then
             messagebox_showwarning "Предупреждение" "Можно выбрать не более 3 компетенций"
           else
             let keywords := stripped_pieces (keywords_combo f) in
             keywords <- (if (5 <? List.length keywords)%nat
                          then lift (messagebox_showinfo "Информация"
                                       "Выбрано более 5 ключевых слов. Сохранены первые 5.") ;;
                               unit_w (firstn 5 keywords)
                          else unit_w keywords) ;;
             entry_id <- store_entry f description selected_comps keywords ;;
             load_used_keywords ;;
             update_keywords_listbox ;;
             modify_w (fun s => set_keywords_combo_values (used_keywords s) s) ;;
             lift (check_achievements rejects entry_id) ;;
             lift (messagebox_showinfo "Успех" "Запись сохранена") ;;
             update_all_tabs
       end)
    (fun e =>
       lift (messagebox_showerror "Ошибка" ("Ошибка при сохранении: " ++ str_exn e)%string)).

(** *** Goals *)

(** [goal_type], [value] and [competency] are what the combo boxes and the
    value field of the goal form hold; the description field is part of
    the session, as the method clears it. *)
Definition add_goal (goal_type value competency : string) : W unit :=
  description <- get_w goal_desc_entry ;;
  if String.eqb description "" then
    messagebox_showwarning "Предупреждение" "Введите описание цели"
  else
    match (match py_int value with
           | Some target_value => if target_value <=? 0 then None else Some target_value
           | None => None
           end) with
    | None =>
        messagebox_showwarning "Предупреждение" "Введите положительное числовое значение"
    | Some target_value =>
        let insert (description : string) : W unit :=
          try_except_w
            (execute_w (InsertGoal description goal_type target_value) ;;
             lift (execute rejects Commit) ;;
             modify_w (set_goal_desc_entry "") ;;
             lift (messagebox_showinfo "Успех" "Цель добавлена") ;;
             lift (update_goals rejects))
            (fun e =>
               lift (messagebox_showerror "Ошибка"
                       ("Ошибка при добавлении цели: " ++ str_exn e)%string)) in
        if String.eqb goal_type "Поднять компетенцию" then
          if String.eqb competency "" then
            messagebox_showwarning "Предупреждение" "Выберите компетенцию"
          else insert (description ++ " (" ++ competency ++ ")")%string
        else insert description
    end.

(** [answer] is what the user replies to [askyesno]. *)
Definition delete_all_goals (answer : bool) : W unit :=
  if answer then
    try_except_w
      (execute_w DeleteGoals ;;
       lift (execute rejects Commit) ;;
       lift (update_goals rejects) ;;
       lift (messagebox_showinfo "Успех" "Все цели удалены"))
      (fun e =>
         lift (messagebox_showerror "Ошибка" ("Ошибка при удалении: " ++ str_exn e)%string))
  else unit_w tt.

End Window.

(** ** Sample states *)

(** The profile [load_specialties] writes when competencies.json is missing. *)
Definition default_specialties : list (string * list (string * string)) :=
  [ ("Информационные системы",
     [ ("Программирование", "Технические");
       ("Работа с БД", "Технические");
       ("Проектирование систем", "Технические");
       ("Презентация результатов", "Коммуникационные");
       ("Научное письмо", "Коммуникационные");
       ("Командная работа", "Социальные");
       ("Управление проектами", "Организационные") ]) ].

(** The store right after [create_tables], holding the given entries. *)
Definition seeded (l : list entry) : database :=
  mkDatabase l (seed_achievements 1 achievements_data) [] [] 0 [] [] 0.

(** The application over a store, nothing sent or shown yet. *)
Definition started (d : database) : app :=
  mkApp d [] (mkDate 2025 9 1) default_specialties None [] "" "" "" [] [].

Definition sample_entry (id : Z) (type : string) (coauthors : string) : entry :=
  mkEntry id "Доклад" type (mkDate 2025 3 14) (Some "Описание работы") (Some coauthors).

(** Three entries of two types, each with a named coauthor. *)
Definition coauthored_entries : list entry :=
  [ sample_entry 1 "Проект" "Иванов";
    sample_entry 2 "Публикация" "Петров, Сидоров";
    sample_entry 3 "Проект" "Иванов" ].

(** Three entries whose coauthors field holds two spaces. *)
Definition blank_coauthor_entries : list entry :=
  [ sample_entry 1 "Проект" "  ";
    sample_entry 2 "Публикация" "  ";
    sample_entry 3 "Проект" "  " ].

(** An oracle that fails the statement sent as the [k]-th one. *)
Definition fails_at (k : nat) (msg : string) : oracle :=
  fun n _ => if Nat.eqb n k then Some msg else None.



(** A goal on "Программирование" with target 4 and grades 4 and 5, and a
    goal of five entries, stored as completed, over three entries. *)
Definition goals_sample : database :=
  mkDatabase coauthored_entries (seed_achievements 1 achievements_data) []
    [mkCompetency 1 "Программирование" "Технические"] 1
    [mkEntryCompetency 1 1 4; mkEntryCompetency 2 1 5]
    [mkGoal 1 "Поднять навык (Программирование)" "Поднять компетенцию" 4 0 false;
     mkGoal 2 "Пять записей" "Добавить записи" 5 0 true]
    0.

(** Two competencies loaded and graded: "Программирование" by 2 and 2,
    "Работа с БД" by 4. *)
Definition graded_app : app :=
  let loaded := [mkCompetency 1 "Программирование" "Технические";
                 mkCompetency 2 "Работа с БД" "Технические"] in
  set_profile (Some "Информационные системы"%string) loaded
    (started
       (mkDatabase coauthored_entries (seed_achievements 1 achievements_data) []
          loaded 2
          [mkEntryCompetency 1 1 2; mkEntryCompetency 2 2 4; mkEntryCompetency 3 1 2]
          [] 0)).

(** ** Vocabulary of the statements *)

(** The statements of [unlock_achievement] after its catalog lookup. *)
Definition unlock_step (s : stmt) : Prop :=
  match s with
  | SelectUserAchievement _ _ | InsertUserAchievement _ _ | Commit => True
  | _ => False
  end.

(** The rows of [user_achievements] for one (user, achievement) pair. *)
Definition unlock_rows (user_id ach_id : Z) (d : database) : list user_achievement :=
  filter (is_unlock user_id ach_id) (user_achievements d).

(** The statements a run has added to the trace. *)
Definition new_statements (before after : app) : list stmt :=
  skipn (List.length (issued before)) (issued after).

(** The five aggregate queries [check_achievements] sends itself. *)
Definition predicate_query (s : stmt) : bool :=
  match s with
  | CountEntries | CountCoauthored | CountDistinctTypes
  | CountEntriesOfYear _ | SumDescriptionLengths => true
  | _ => false
  end.

(** What one guarded call of [unlock_achievement] adds to the trace. *)
Definition attempt (b : bool) (name : string) (tr : list stmt) : list stmt :=
  if b then SelectAchievementId name :: tr else [].

(** ASCII whitespace: tab, line feed, vertical tab, form feed, carriage
    return and space. *)
Definition is_whitespace (c : ascii) : bool :=
  let n := N_of_ascii c in ((9 <=? n) && (n <=? 13) || (n =? 32))%N.

Fixpoint whitespace_only (s : string) : bool :=
  match s with
  | EmptyString => true
  | String c rest => is_whitespace c && whitespace_only rest
  end.

(** The specification's reading of an entry with coauthors: the field is
    neither blank nor whitespace only. *)
Definition names_a_coauthor (e : entry) : bool :=
  match entry_coauthors e with
  | None => false
  | Some s => negb (whitespace_only s)
  end.

Definition unlock_log (e : exn) : string :=
  ("Ошибка разблокировки достижения: " ++ str_exn e)%string.



Definition name_and_category (c : competency) : string * string :=
  (competency_name c, competency_category c).

(** The value [recompute_current] computes for a goal over given tables. *)
Definition current_of (d : database) (g : goal) : number :=
  if String.eqb (goal_type g) "Добавить записи" then PyInt (count_entries d)
  else if String.eqb (goal_type g) "Поднять компетенцию" then
    if String.eqb (goal_competency (goal_description g)) "" then PyInt 0
    else PyFloat (round1 (float_or_0
                            (avg_level_by_name (goal_competency (goal_description g)) d)))
  else PyInt (goal_current g).

(** What one round of the loop of [update_goals] writes into a row. *)
Definition refreshed (d : database) (g row : goal) : goal :=
  with_completed (reaches (current_of d g) (goal_target g))
    (with_current (to_integer (current_of d g)) row).

(** The updates of one round, row by row. *)
Definition refresh_row (d : database) (g row : goal) : goal :=
  if goal_id row =? goal_id g then refreshed d g row else row.

(** ** Vocabulary of the further properties *)

(** The five conditions of [check_achievements], by achievement name. *)
Definition earned (a : app) (name : string) : Prop :=
  (name = "Первый шаг"%string /\ count_entries (db a) = 1)
  \/ (name = "Командный игрок"%string /\ 3 <= count_coauthored (db a))
  \/ (name = "Разносторонний"%string /\ 3 <= count_distinct_types (db a))
  \/ (name = "Плодотворный год"%string
      /\ 3 <= count_entries_of_year (year (today a)) (db a))
  \/ (name = "Словобог"%string
      /\ 5000 < match sum_description_lengths (db a) with
                | Some n => n
                | None => 0
                end).

Definition ua_key (r : user_achievement) : Z * Z := (ua_user_id r, ua_achievement_id r).

(** The primary key of [user_achievements]. *)
Definition unlocks_unique (d : database) : Prop :=
  NoDup (map ua_key (user_achievements d)).

(** From [a] to [a'] nothing changed but [user_achievements], which gained
    rows at its end: each for [user] and for the catalog id of a name in
    [names]; the primary key, if it held, still holds. *)
Definition grows (names : string -> Prop) (user : Z) (a a' : app) : Prop :=
  entries (db a') = entries (db a)
  /\ achievements (db a') = achievements (db a)
  /\ competencies (db a') = competencies (db a)
  /\ entry_competencies (db a') = entry_competencies (db a)
  /\ goals (db a') = goals (db a)
  /\ today a' = today a
  /\ (unlocks_unique (db a) -> unlocks_unique (db a'))
  /\ exists added,
       user_achievements (db a') = user_achievements (db a) ++ added
       /\ Forall (fun r =>
                    ua_user_id r = user
                    /\ exists name,
                         names name
                         /\ select_achievement_id name (db a) = Some (ua_achievement_id r))
            added.

Definition inv_keeps (inv : app -> Prop) {A : Type} (m : M A) (V : A -> Prop) : Prop :=
  forall a, inv a -> inv (snd (m a)) /\ (forall x, fst (m a) = Returned x -> V x).

(** The achievement [name], if the catalog has it, is unlocked for user 1. *)
Definition settled (a : app) (name : string) : Prop :=
  forall ach_id,
    select_achievement_id name (db a) = Some ach_id ->
    select_user_achievement 1 ach_id (db a) = true.

(** Every name looked up since [a0] is settled. *)
Definition settles_lookups (a0 a : app) : Prop :=
  grows (earned a0) 1 a0 a
  /\ exists tr,
       issued a = issued a0 ++ tr
       /\ forall name, In (SelectAchievementId name) tr -> settled a name.

(** The lines of one goal in the goals pane. *)
Definition goal_block (d : database) (g : goal) : string :=
  goal_text g (current_of d g)
    (if reaches (current_of d g) (goal_target g)
     then "✓ Выполнено" else "→ В процессе")%string.

(** A goal after a refresh over the tables [d]. *)
Definition refresh (d : database) (g : goal) : goal := refreshed d g g.

(** The text the goals pane ends with. *)
Definition goals_pane (d : database) : string :=
  let text := join (map (goal_block d) (select_goals d)) in
  if String.eqb text "" then "Цели еще не добавлены"%string else text.

(** The columns of a goal a refresh never writes. *)
Definition goal_static (g : goal) : Z * string * string * Z :=
  (goal_id g, goal_description g, goal_type g, goal_target g).

(** Nothing changed since [a0] but the trace, the text widgets and the
    current value and completion flag of goals. *)
Definition only_progress_changed (a0 a : app) : Prop :=
  entries (db a) = entries (db a0)
  /\ achievements (db a) = achievements (db a0)
  /\ user_achievements (db a) = user_achievements (db a0)
  /\ competencies (db a) = competencies (db a0)
  /\ entry_competencies (db a) = entry_competencies (db a0)
  /\ map goal_static (goals (db a)) = map goal_static (goals (db a0))
  /\ dialogs a = dialogs a0
  /\ printed a = printed a0.

(** The statements of [update_goals]. *)
Definition goal_statement (s : stmt) : bool :=
  match s with
  | SelectGoals | CountEntries | AvgLevelByName _ | UpdateGoalCurrent _ _
  | UpdateGoalCompleted _ _ | Commit => true
  | _ => false
  end.

(** The action keeps [only_progress_changed]; it returns, or raises the
    error of the statement the store rejected, the last one it sent. *)
Definition contained (rejects : oracle) (a0 : app) {A : Type} (m : M A) : Prop :=
  forall a tr,
    issued a = issued a0 ++ tr ->
    only_progress_changed a0 a ->
    only_progress_changed a0 (snd (m a))
    /\ match fst (m a) with
       | Returned _ => exists tr', issued (snd (m a)) = issued a0 ++ tr'
       | Raised e =>
           exists tr' s msg,
             issued (snd (m a)) = issued a0 ++ tr' ++ [s]
             /\ rejects (List.length (issued a0 ++ tr')) s = Some msg
             /\ e = OperationalError msg
       end.

(** Category first, then name. *)
Definition category_then_name (r1 r2 : level_row) : Prop :=
  String.compare (row_category r1) (row_category r2) = Lt
  \/ (row_category r1 = row_category r2
      /\ String.leb (row_name r1) (row_name r2) = true).

(** The action shows no message box and touches no entry; when it raises,
    it raises the error of a statement the store rejected. *)
Definition rejected_only {A : Type} (m : M A) : Prop :=
  forall a,
    dialogs (snd (m a)) = dialogs a
    /\ entries (db (snd (m a))) = entries (db a)
    /\ match fst (m a) with
       | Returned _ => True
       | Raised e => exists msg, e = OperationalError msg
       end.

(** ** Vocabulary of the methods around *)

Local Open Scope window_scope.

(** The description [add_goal] stores. *)
Definition stored_description (goal_type description competency : string) : string :=
  if String.eqb goal_type "Поднять компетенцию"
  then (description ++ " (" ++ competency ++ ")")%string
  else description.

(** The [try] block of [add_goal] with its handler. *)
Definition insert_goal (rejects : oracle) (refuses : oracle_w)
  (date_in : string -> option date) (description goal_type : string) (target : Z) : W unit :=
  try_except_w
    (execute_w refuses date_in (InsertGoal description goal_type target) ;;
     lift (execute rejects Commit) ;;
     modify_w (set_goal_desc_entry "") ;;
     lift (messagebox_showinfo "Успех" "Цель добавлена") ;;
     lift (update_goals rejects))
    (fun e =>
       lift (messagebox_showerror "Ошибка"
               ("Ошибка при добавлении цели: " ++ str_exn e)%string)).

(** What the checks of [add_goal] ask of the form. *)
Definition goal_form_complete (py_int : string -> option Z)
  (goal_type value competency description : string) (target : Z) : Prop :=
  description <> ""%string
  /\ py_int value = Some target
  /\ 0 < target
  /\ (goal_type = "Поднять компетенцию"%string -> competency <> ""%string).

(** The loop over the DDL of [create_tables]. *)
Definition create_loop (refuses : oracle_w) (date_in : string -> option date)
  (l : list statement) : W unit :=
  for_each_w l
    (fun query =>
       try_except_w (execute_w refuses date_in query)
         (fun e => lift (print ("Ошибка при создании таблицы: " ++ str_exn e)%string))).

(** Nothing of the session differs but the trace of statements and the
    lines printed. *)
Definition same_store (s s' : session) : Prop :=
  db (window s') = db (window s)
  /\ issued (window s') = issued (window s)
  /\ dialogs (window s') = dialogs (window s)
  /\ keywords s' = keywords s
  /\ entry_keywords s' = entry_keywords s
  /\ achievements_id_seq s' = achievements_id_seq s
  /\ warnings s' = warnings s.

(** The session differs from [s] in the four panes, the goals' progress
    columns and the two traces at most. *)
Definition panes_only (s s' : session) : Prop :=
  only_progress_changed (window s) (window s')
  /\ today (window s') = today (window s)
  /\ self_competencies (window s') = self_competencies (window s)
  /\ current_specialty (window s') = current_specialty (window s)
  /\ keywords s' = keywords s
  /\ entry_keywords s' = entry_keywords s
  /\ entries_id_seq s' = entries_id_seq s
  /\ keywords_id_seq s' = keywords_id_seq s
  /\ goals_id_seq s' = goals_id_seq s
  /\ used_keywords s' = used_keywords s
  /\ keywords_listbox s' = keywords_listbox s
  /\ keywords_combo_values s' = keywords_combo_values s
  /\ goal_desc_entry s' = goal_desc_entry s
  /\ warnings s' = warnings s.

(** What an action leaves as it was: a view [f] of the application that
    neither the trace, nor the tables, nor the goals pane enter. *)
Definition leaves {X : Type} (f : app -> X) {A : Type} (m : M A) : Prop :=
  forall a, f (snd (m a)) = f a.

(** The competencies ticked in the form, each with the chosen level. *)
Definition selected_comps (f : form) : list (Z * Z) :=
  map (fun v => (snd v, level_combo f)) (filter fst (comp_vars f)).

(** The description [save_entry] stores. *)
Definition stored_text (f : form) : string := strip (desc_text f ++ nl).

(** The keywords [save_entry] stores. *)
Definition saved_keywords (f : form) : list string :=
  firstn 5 (stripped_pieces (keywords_combo f)).

(** What the checks of [save_entry] ask of the form. *)
Definition form_complete (strptime : string -> option date) (f : form) : Prop :=
  title_entry f <> ""%string
  /\ type_combo f <> ""%string
  /\ date_entry f <> ""%string
  /\ strptime (date_entry f) <> None
  /\ (1 <= List.length (selected_comps f) <= 3)%nat.

(** [save_entry] once the form has passed the checks. *)
Definition save_checked (rejects : oracle) (refuses : oracle_w)
  (date_in : string -> option date) (strftime : Z -> string) (f : form) : W unit :=
  try_except_w
    (keywords <- (if (5 <? List.length (stripped_pieces (keywords_combo f)))%nat
                  then lift (messagebox_showinfo "Информация"
                               "Выбрано более 5 ключевых слов. Сохранены первые 5.") ;;
                       unit_w (firstn 5 (stripped_pieces (keywords_combo f)))
                  else unit_w (stripped_pieces (keywords_combo f))) ;;
     entry_id <- store_entry rejects refuses date_in f (stored_text f) (selected_comps f)
                   keywords ;;
     load_used_keywords refuses date_in ;;
     update_keywords_listbox ;;
     modify_w (fun s => set_keywords_combo_values (used_keywords s) s) ;;
     lift (check_achievements rejects entry_id) ;;
     lift (messagebox_showinfo "Успех" "Запись сохранена") ;;
     update_all_tabs rejects refuses date_in strftime)
    (fun e =>
       lift (messagebox_showerror "Ошибка" ("Ошибка при сохранении: " ++ str_exn e)%string)).

(** One round of the keyword loop of [save_entry]. *)
Definition keyword_step (refuses : oracle_w) (date_in : string -> option date)
  (eid : Z) (keyword : string) : W unit :=
  row <- query_w refuses date_in (InsertKeyword keyword) (keyword_id_of keyword) ;;
  keyword_id <- subscript0_w row ;;
  execute_w refuses date_in (InsertEntryKeyword eid keyword_id).

(** The session with more keywords, more links to entries and more
    statements sent. *)
Definition with_keywords (kws : list keyword_row) (kseq : Z) (eks : list entry_keyword)
  (tr : list statement) (s : session) : session :=
  set_sent (sent s ++ tr)
    (set_entry_keywords (entry_keywords s ++ eks)
       (set_keywords (keywords s ++ kws) kseq s)).

(** The keyword is in the table and linked to the entry. *)
Definition linked (eid : Z) (s : session) (keyword : string) : Prop :=
  exists id,
    keyword_id_of keyword s = Some id
    /\ In (mkEntryKeyword eid id) (entry_keywords s).

(** The keywords a trace inserts, in order. *)
Definition keyword_inserts (tr : list statement) : list string :=
  flat_map (fun q => match q with InsertKeyword k => [k] | _ => [] end) tr.

(** The session with more grades and more statements sent. *)
Definition with_grades (grades : list entry_competency) (tr : list statement)
  (s : session) : session :=
  set_sent (sent s ++ tr)
    (set_tables
       (set_entry_competencies (entry_competencies (tables s) ++ grades) (tables s)) s).

Definition grade_of (eid : Z) (c : Z * Z) : entry_competency :=
  mkEntryCompetency eid (fst c) (snd c).

Definition insert_grade (eid : Z) (c : Z * Z) : statement :=
  InsertEntryCompetency eid (fst c) (snd c).

(** The row [save_entry] inserts into [entries]. *)
Definition new_entry (f : form) (id : Z) (day : date) : entry :=
  mkEntry id (title_entry f) (type_combo f) day (Some (stored_text f))
    (Some (coauthors_entry f)).

Definition insert_entry (f : form) : statement :=
  InsertEntry (title_entry f) (type_combo f) (date_entry f) (stored_text f)
    (coauthors_entry f).

(** The session when [store_entry] has run over an answering store. *)
Definition stored (f : form) (day : date) (kws : list keyword_row) (kseq : Z)
  (eks : list entry_keyword) (tr : list statement) (s : session) : session :=
  let id := entries_id_seq s + 1 in
  let d :=
    set_entry_competencies
      (entry_competencies (tables s) ++ map (grade_of id) (selected_comps f))
      (set_entries (entries (tables s) ++ [new_entry f id day]) (tables s)) in
  set_window (set_db d (set_issued (issued (window s) ++ [Commit]) (window s)))
    (with_keywords kws kseq eks
       (insert_entry f :: tr ++ map (insert_grade id) (selected_comps f))
       (set_entries_id_seq id s)).

(** What an answering store needs to take the entry of a form: a date it
    reads, a level from 1 to 5, ticked competencies that are distinct rows
    of the table, and ids that came from the sequences. *)
Definition storable (date_in : string -> option date) (f : form) (day : date)
  (s : session) : Prop :=
  date_in (date_entry f) = Some day
  /\ 1 <= level_combo f <= 5
  /\ NoDup (map fst (selected_comps f))
  /\ Forall (fun c => In (fst c) (map competency_id (competencies (tables s))))
       (selected_comps f)
  /\ Forall (fun e => entry_id e <= entries_id_seq s) (entries (tables s))
  /\ Forall (fun g => ec_entry_id g <= entries_id_seq s) (entry_competencies (tables s))
  /\ Forall (fun k => keyword_id k <= keywords_id_seq s) (keywords s).

(** The note on keywords beyond the fifth. *)
Definition noted (f : form) (s : session) : session :=
  if (5 <? List.length (stripped_pieces (keywords_combo f)))%nat
  then set_window
         (set_dialogs
            (dialogs (window s)
               ++ [InfoBox "Информация"
                     "Выбрано более 5 ключевых слов. Сохранены первые 5."])
            (window s)) s
  else s.

(** The keyword list reloaded and shown in the list box and the combo box. *)
Definition listed (s : session) : session :=
  let used := select_keywords s in
  set_keywords_combo_values used
    (set_keywords_listbox used
       (set_used_keywords used (set_sent (sent s ++ [SelectKeywords]) s))).

(** What [save_entry] does once the entry is stored and listed. *)
Definition after_commit (rejects : oracle) (refuses : oracle_w)
  (date_in : string -> option date) (strftime : Z -> string) (eid : Z) : W unit :=
  try_except_w
    (lift (check_achievements rejects eid) ;;
     lift (messagebox_showinfo "Успех" "Запись сохранена") ;;
     update_all_tabs rejects refuses date_in strftime)
    (fun e =>
       lift (messagebox_showerror "Ошибка" ("Ошибка при сохранении: " ++ str_exn e)%string)).

Definition is_info (box : dialog) : Prop :=
  match box with
  | InfoBox _ _ => True
  | ErrorBox _ _ => False
  end.

(** A store with the catalog seeded and two competencies loaded, no entry
    yet. *)
Definition profile_loaded : database :=
  mkDatabase [] (seed_achievements 1 achievements_data) []
    [mkCompetency 1 "Программирование" "Технические";
     mkCompetency 2 "Научное письмо" "Коммуникационные"] 2 [] [] 0.

(** The window over a store, nothing sent or shown yet. *)
Definition opened (d : database) : session :=
  mkSession (started d) [] [] 0 0 0 5 [] [] [] [] "" "" "" [].

(** A form with one competency ticked and two keywords. *)
Definition first_form : form :=
  mkForm "Доклад на семинаре" "Конференция" "2025-09-01" "Тезисы доклада" "Иванов"
    "базы данных, SQL" [(true, 1); (false, 2)] 4.

(** A reader of the one date the sample form holds. *)
Definition sample_date (s : string) : option date :=
  if String.eqb s "2025-09-01" then Some (mkDate 2025 9 1) else None.

(** The application when the entry of the form is in the table. *)
Definition with_entry (f : form) (day : date) (s : session) : app :=
  set_db (set_entries (entries (tables s) ++ [new_entry f (entries_id_seq s + 1) day])
            (tables s))
    (window s).

Local Close Scope window_scope.

(** * Verification *)

Local Open Scope action_scope.

(** ** Running the methods *)

Ltac unfold_actions :=
  unfold try_except, query, when, bind, execute, subscript0, get, modify,
    messagebox_showinfo, messagebox_showerror, print, ret, raise in *.

(** Split on the next test the method makes: the innermost scrutinee. *)
Ltac split_match :=
  match goal with
  | |- context [match ?x with _ => _ end] =>
      lazymatch x with
      | context [match _ with _ => _ end] => fail
      | _ => destruct x eqn:?
      end
  end.

Lemma new_statements_app before after tr :
  issued after = issued before ++ tr -> new_statements before after = tr.
Proof.
  unfold new_statements. intros ->.
  rewrite skipn_app, skipn_all, Nat.sub_diag. reflexivity.
Qed.

(** [unlock_achievement] always returns: whatever the store does, it starts
    with the catalog lookup, goes on with unlock steps only, and leaves the
    entries, the catalog and the clock alone. *)
Lemma unlock_achievement_run rejects name user a :
  exists a' tr,
    unlock_achievement rejects name user a = (Returned tt, a')
    /\ issued a' = issued a ++ SelectAchievementId name :: tr
    /\ Forall unlock_step tr
    /\ entries (db a') = entries (db a)
    /\ achievements (db a') = achievements (db a)
    /\ today a' = today a.
Proof.
  unfold unlock_achievement. unfold_actions.
  repeat (cbn; split_match); cbn.
  all: eexists; eexists; split; [reflexivity|]; cbn;
       repeat rewrite <- app_assoc; cbn.
  all: split; [reflexivity|].
  all: repeat split; auto; repeat constructor.
Qed.

(** Unlock rows are only ever added. *)
Lemma unlock_achievement_keeps rejects name user a u i :
  select_user_achievement u i (db a) = true ->
  select_user_achievement u i (db (snd (unlock_achievement rejects name user a))) = true.
Proof.
  intros Hrow. unfold unlock_achievement. unfold_actions.
  repeat (cbn; split_match); cbn; try assumption.
  all: repeat match goal with
         | H : inr _ = inr _ |- _ => injection H as <-
         | H : inl _ = inr _ |- _ => discriminate H
         end.
  all: try assumption.
  all: unfold select_user_achievement in *; cbn; rewrite existsb_app, Hrow;
       reflexivity.
Qed.

(** ** The unlock procedure *)

Lemma catalog_lookup_exists name ach_id d :
  select_achievement_id name d = Some ach_id ->
  existsb (fun r => achievement_id r =? ach_id) (achievements d) = true.
Proof.
  unfold select_achievement_id.
  destruct (find _ (achievements d)) as [r|] eqn:Hfind; [|discriminate].
  intros [= <-]. apply find_some in Hfind as [Hin _].
  apply existsb_exists. exists r. split; [assumption | apply Z.eqb_refl].
Qed.

Lemma no_unlock_rows user ach_id d :
  select_user_achievement user ach_id d = false ->
  unlock_rows user ach_id d = [].
Proof.
  unfold select_user_achievement, unlock_rows.
  induction (user_achievements d) as [|r l IH]; cbn; [reflexivity|].
  destruct (is_unlock user ach_id r); cbn; [discriminate | exact IH].
Qed.

Lemma some_unlock_rows user ach_id d :
  select_user_achievement user ach_id d = true ->
  (1 <= List.length (unlock_rows user ach_id d))%nat.
Proof.
  unfold select_user_achievement, unlock_rows.
  induction (user_achievements d) as [|r l IH]; cbn; [discriminate|].
  destruct (is_unlock user ach_id r); cbn; [lia | exact IH].
Qed.

(** The first unlock of a catalogued achievement: one row, one commit, one
    message box. *)
Lemma unlock_achievement_fresh a name user ach_id :
  select_achievement_id name (db a) = Some ach_id ->
  select_user_achievement user ach_id (db a) = false ->
  unlock_achievement reliable name user a =
    (Returned tt,
     set_dialogs
       (dialogs a ++ [InfoBox "Достижение" ("Получено достижение: " ++ name)])
       (set_db
          (set_user_achievements
             (user_achievements (db a)
                ++ [mkUserAchievement user ach_id (current_timestamp (db a))])
             (db a))
          (set_issued
             (issued a ++ [SelectAchievementId name; SelectUserAchievement user ach_id;
                           InsertUserAchievement user ach_id; Commit])
             a))).
Proof.
  intros Hid Hnew. pose proof (catalog_lookup_exists _ _ _ Hid) as Hfk.
  unfold unlock_achievement. unfold_actions. cbn.
  rewrite Hid. cbn. rewrite Hnew. cbn. rewrite Hnew, Hfk. cbn.
  repeat rewrite <- app_assoc. reflexivity.
Qed.

(** An unlock that finds its row: two reads and nothing else. *)
Lemma unlock_achievement_again a name user ach_id :
  select_achievement_id name (db a) = Some ach_id ->
  select_user_achievement user ach_id (db a) = true ->
  unlock_achievement reliable name user a =
    (Returned tt,
     set_db (db a)
       (set_issued
          (issued a ++ [SelectAchievementId name; SelectUserAchievement user ach_id])
          a)).
Proof.
  intros Hid Hold.
  unfold unlock_achievement. unfold_actions. cbn.
  rewrite Hid. cbn. rewrite Hold. cbn.
  repeat rewrite <- app_assoc. reflexivity.
Qed.

(** C1. For every user and every achievement name of the catalog, with the
    primary key of [user_achievements] holding for the pair, two calls of
    [unlock_achievement] in a row both return, leave exactly one row for the
    pair, and the second call changes no table, shows no message box and
    prints nothing; the first call shows the unlock message exactly when
    the pair had no row yet. *)
Theorem unlock_achievement_idempotent (a : app) (name : string) (user ach_id : Z) :
  select_achievement_id name (db a) = Some ach_id ->
  (List.length (unlock_rows user ach_id (db a)) <= 1)%nat ->
  let first := unlock_achievement reliable name user a in
  let second := unlock_achievement reliable name user (snd first) in
  fst first = Returned tt
  /\ fst second = Returned tt
  /\ List.length (unlock_rows user ach_id (db (snd second))) = 1%nat
  /\ db (snd second) = db (snd first)
  /\ dialogs (snd second) = dialogs (snd first)
  /\ printed (snd second) = printed (snd first)
  /\ printed (snd first) = printed a
  /\ dialogs (snd first) =
       dialogs a ++
         (if select_user_achievement user ach_id (db a) then []
          else [InfoBox "Достижение" ("Получено достижение: " ++ name)]).
Proof.
  intros Hid Hpk first second. subst first second.
  destruct (select_user_achievement user ach_id (db a)) eqn:Hrow.
  - rewrite (unlock_achievement_again _ _ _ _ Hid Hrow). cbn [fst snd].
    rewrite (unlock_achievement_again _ _ _ ach_id) by (cbn; assumption).
    cbn. rewrite app_nil_r. repeat split.
    pose proof (some_unlock_rows _ _ _ Hrow). lia.
  - rewrite (unlock_achievement_fresh _ _ _ _ Hid Hrow). cbn [fst snd].
    assert (Hnow : select_user_achievement user ach_id
              (set_user_achievements
                 (user_achievements (db a)
                    ++ [mkUserAchievement user ach_id (current_timestamp (db a))])
                 (db a)) = true).
    { unfold select_user_achievement. cbn. rewrite existsb_app. cbn.
      unfold is_unlock at 2. cbn. rewrite !Z.eqb_refl. cbn.
      apply orb_true_r. }
    rewrite (unlock_achievement_again _ _ _ ach_id) by (cbn; assumption).
    cbn. repeat split.
    unfold unlock_rows. cbn. rewrite filter_app.
    fold (unlock_rows user ach_id (db a)). rewrite (no_unlock_rows _ _ _ Hrow).
    cbn. unfold is_unlock. cbn. rewrite !Z.eqb_refl. reflexivity.
Qed.

(** ** The evaluator *)

Lemma bind_returned {A B : Type} (m : M A) (k : A -> M B) a x a' :
  m a = (Returned x, a') -> bind m k a = k x a'.
Proof. unfold bind. intros ->. reflexivity. Qed.

Lemma try_except_returned {A : Type} (body : M A) (handler : exn -> M A) a x a' :
  body a = (Returned x, a') -> try_except body handler a = (Returned x, a').
Proof. unfold try_except. intros ->. reflexivity. Qed.

Lemma bind_raised {A B : Type} (m : M A) (k : A -> M B) a e a' :
  m a = (Raised e, a') -> bind m k a = (Raised e, a').
Proof. unfold bind. intros ->. reflexivity. Qed.

Lemma predicate_query_run {A : Type} rejects s (result : database -> A) a :
  predicate_query s = true ->
  rejects (List.length (issued a)) s = None ->
  query rejects s result a =
    (Returned (result (db a)), set_db (db a) (set_issued (issued a ++ [s]) a)).
Proof.
  intros Hs Hok. unfold query, execute, bind, get. rewrite Hok.
  destruct s; try discriminate Hs; reflexivity.
Qed.

Lemma when_unlock_run rejects b name user a :
  exists a' tr,
    when b (unlock_achievement rejects name user) a = (Returned tt, a')
    /\ issued a' = issued a ++ attempt b name tr
    /\ Forall unlock_step tr
    /\ entries (db a') = entries (db a)
    /\ today a' = today a
    /\ (forall u i, select_user_achievement u i (db a) = true ->
                   select_user_achievement u i (db a') = true).
Proof.
  destruct b; cbn.
  - destruct (unlock_achievement_run rejects name user a)
      as (a' & tr & Hrun & Hissued & Htr & Hentries & _ & Htoday).
    exists a', tr. repeat split; auto.
    intros u i Hrow.
    pose proof (unlock_achievement_keeps rejects name user a u i Hrow) as Hkeep.
    rewrite Hrun in Hkeep. exact Hkeep.
  - exists a, []. rewrite app_nil_r. repeat split; auto.
Qed.

(** When the store answers the five aggregate queries, [check_achievements]
    returns, whatever happens inside the unlock calls; its trace is the five
    queries in order, each followed by the unlock it triggers. *)
Lemma check_achievements_run rejects entry_id a :
  (forall n s, predicate_query s = true -> rejects n s = None) ->
  exists a' a2 t1 t2 t3 t4 t5,
    check_achievements rejects entry_id a = (Returned tt, a')
    /\ Forall unlock_step (t1 ++ t2 ++ t3 ++ t4 ++ t5)
    /\ entries (db a') = entries (db a)
    /\ issued a' =
         issued a
           ++ CountEntries
           :: attempt (count_entries (db a) =? 1) "Первый шаг" t1
           ++ CountCoauthored
           :: attempt (count_coauthored (db a) >=? 3) "Командный игрок" t2
           ++ CountDistinctTypes
           :: attempt (count_distinct_types (db a) >=? 3) "Разносторонний" t3
           ++ CountEntriesOfYear (year (today a))
           :: attempt (count_entries_of_year (year (today a)) (db a) >=? 3)
                "Плодотворный год" t4
           ++ SumDescriptionLengths
           :: attempt (match sum_description_lengths (db a) with
                       | Some n => n
                       | None => 0
                       end >? 5000) "Словобог" t5
    /\ when (count_entries (db a) =? 1) (unlock_achievement rejects "Первый шаг" 1)
         (set_db (db a) (set_issued (issued a ++ [CountEntries]) a))
       = (Returned tt, a2)
    /\ (forall u i, select_user_achievement u i (db a2) = true ->
                   select_user_achievement u i (db a') = true).
Proof.
  intros Hok. unfold check_achievements.
  rewrite (bind_returned _ _ _ _ _
             (predicate_query_run rejects CountEntries _ a eq_refl
                (Hok _ CountEntries eq_refl))).
  set (a1 := set_db _ _).
  destruct (when_unlock_run rejects (count_entries (db a) =? 1) "Первый шаг" 1 a1)
    as (a2 & t1 & Hrun1 & Hiss1 & Ht1 & Hent1 & Hday1 & Hkeep1).
  unfold a1 in Hiss1, Hent1, Hday1; cbn in Hiss1, Hent1, Hday1.
  rewrite (bind_returned _ _ _ _ _ Hrun1).
  rewrite (bind_returned _ _ _ _ _
             (predicate_query_run rejects CountCoauthored _ a2 eq_refl
                (Hok _ CountCoauthored eq_refl))).
  set (a3 := set_db _ _).
  unfold count_coauthored at 1. rewrite Hent1. fold (count_coauthored (db a)).
  destruct (when_unlock_run rejects (count_coauthored (db a) >=? 3) "Командный игрок" 1 a3)
    as (a4 & t2 & Hrun2 & Hiss2 & Ht2 & Hent2 & Hday2 & Hkeep2).
  unfold a3 in Hiss2, Hent2, Hday2, Hkeep2; cbn in Hiss2, Hent2, Hday2, Hkeep2.
  rewrite Hent1 in Hent2. rewrite Hday1 in Hday2. rewrite Hiss1 in Hiss2.
  rewrite (bind_returned _ _ _ _ _ Hrun2).
  rewrite (bind_returned _ _ _ _ _
             (predicate_query_run rejects CountDistinctTypes _ a4 eq_refl
                (Hok _ CountDistinctTypes eq_refl))).
  set (a5 := set_db _ _).
  unfold count_distinct_types at 1. rewrite Hent2. fold (count_distinct_types (db a)).
  destruct (when_unlock_run rejects (count_distinct_types (db a) >=? 3) "Разносторонний" 1 a5)
    as (a6 & t3 & Hrun3 & Hiss3 & Ht3 & Hent3 & Hday3 & Hkeep3).
  unfold a5 in Hiss3, Hent3, Hday3, Hkeep3; cbn in Hiss3, Hent3, Hday3, Hkeep3.
  rewrite Hent2 in Hent3. rewrite Hday2 in Hday3. rewrite Hiss2 in Hiss3.
  rewrite (bind_returned _ _ _ _ _ Hrun3).
  rewrite (bind_returned _ _ _ (year (today a)) a6)
    by (unfold get; rewrite Hday3; reflexivity).
  rewrite (bind_returned _ _ _ _ _
             (predicate_query_run rejects (CountEntriesOfYear (year (today a))) _ a6
                eq_refl (Hok _ (CountEntriesOfYear (year (today a))) eq_refl))).
  set (a7 := set_db _ _).
  unfold count_entries_of_year at 1. rewrite Hent3.
  fold (count_entries_of_year (year (today a)) (db a)).
  destruct (when_unlock_run rejects
              (count_entries_of_year (year (today a)) (db a) >=? 3)
              "Плодотворный год" 1 a7)
    as (a8 & t4 & Hrun4 & Hiss4 & Ht4 & Hent4 & Hday4 & Hkeep4).
  unfold a7 in Hiss4, Hent4, Hday4, Hkeep4; cbn in Hiss4, Hent4, Hday4, Hkeep4.
  rewrite Hent3 in Hent4. rewrite Hiss3 in Hiss4.
  rewrite (bind_returned _ _ _ _ _ Hrun4).
  rewrite (bind_returned _ _ _ _ _
             (predicate_query_run rejects SumDescriptionLengths _ a8 eq_refl
                (Hok _ SumDescriptionLengths eq_refl))).
  set (a9 := set_db _ _).
  unfold sum_description_lengths at 1. rewrite Hent4.
  fold (sum_description_lengths (db a)).
  destruct (when_unlock_run rejects
              (match sum_description_lengths (db a) with
               | Some n => n
               | None => 0
               end >? 5000) "Словобог" 1 a9)
    as (a10 & t5 & Hrun5 & Hiss5 & Ht5 & Hent5 & Hday5 & Hkeep5).
  unfold a9 in Hiss5, Hent5, Hkeep5; cbn in Hiss5, Hent5, Hkeep5.
  rewrite Hent4 in Hent5. rewrite Hiss4 in Hiss5.
  exists a10, a2, t1, t2, t3, t4, t5.
  split; [exact Hrun5|]. split.
  { repeat (apply Forall_app; split); assumption. }
  split; [exact Hent5|]. split.
  { rewrite Hiss5. repeat (rewrite <- app_assoc; cbn [List.app]). reflexivity. }
  split; [exact Hrun1|].
  intros u i Hrow. auto.
Qed.

Lemma unlock_step_not_lookup name tr :
  Forall unlock_step tr -> ~ In (SelectAchievementId name) tr.
Proof.
  intros Hall Hin. rewrite Forall_forall in Hall. exact (Hall _ Hin).
Qed.

Lemma in_attempt name b name' tr :
  Forall unlock_step tr ->
  In (SelectAchievementId name) (attempt b name' tr) -> b = true /\ name' = name.
Proof.
  intros Hall. destruct b; cbn; [|tauto].
  intros [[= ->] | Hin]; [auto|].
  exfalso. exact (unlock_step_not_lookup _ _ Hall Hin).
Qed.

Lemma reliable_answers n s : predicate_query s = true -> reliable n s = None.
Proof. reflexivity. Qed.

(** C2. A run of [check_achievements] calls [unlock_achievement] for
    "Первый шаг" exactly when the store holds one entry; and with one entry
    and the name in the catalog, the achievement is unlocked for user 1 when
    the run ends. *)
Theorem first_step_exactly_one_entry (entry_id : Z) (a : app) :
  let a' := snd (check_achievements reliable entry_id a) in
  (In (SelectAchievementId "Первый шаг") (new_statements a a')
   <-> count_entries (db a) = 1)
  /\ (forall ach_id,
        count_entries (db a) = 1 ->
        select_achievement_id "Первый шаг" (db a) = Some ach_id ->
        select_user_achievement 1 ach_id (db a') = true).
Proof.
  destruct (check_achievements_run reliable entry_id a reliable_answers)
    as (a' & a2 & t1 & t2 & t3 & t4 & t5 & Hrun & Hsteps & _ & Hissued & Hfirst & Hkeep).
  rewrite Hrun. cbn [snd].
  repeat (apply Forall_app in Hsteps; destruct Hsteps as [? Hsteps]).
  split.
  - rewrite (new_statements_app _ _ _ Hissued). split.
    + intros Hin.
      repeat (cbn [In] in Hin; rewrite ?in_app_iff in Hin).
      repeat match type of Hin with
             | _ \/ _ => destruct Hin as [Hin | Hin]
             end;
        try discriminate Hin;
        match type of Hin with
        | In _ (attempt _ _ _) =>
            apply in_attempt in Hin; [destruct Hin as [Hb Hname] | assumption]
        end;
        try discriminate Hname.
      apply Z.eqb_eq. exact Hb.
    + intros ->. cbn. right. left. reflexivity.
  - intros ach_id Hone Hid. apply Hkeep.
    rewrite Hone in Hfirst. cbn [Z.eqb Pos.eqb when] in Hfirst.
    set (a1 := set_db _ _) in Hfirst.
    assert (Hid1 : select_achievement_id "Первый шаг" (db a1) = Some ach_id)
      by exact Hid.
    destruct (select_user_achievement 1 ach_id (db a1)) eqn:Hrow.
    + rewrite (unlock_achievement_again _ _ _ _ Hid1 Hrow) in Hfirst.
      injection Hfirst as <-. exact Hrow.
    + rewrite (unlock_achievement_fresh _ _ _ _ Hid1 Hrow) in Hfirst.
      injection Hfirst as <-. cbn.
      unfold select_user_achievement. cbn. rewrite existsb_app. cbn.
      rewrite Z.eqb_refl. apply orb_true_r.
Qed.

(** At the seeded catalog, "Первый шаг" unlocked twice for user 1. *)
Lemma unlock_achievement_idempotent_witness :
  select_achievement_id "Первый шаг" (db (started (seeded []))) = Some 1
  /\ (List.length (unlock_rows 1 1 (db (started (seeded [])))) <= 1)%nat
  /\ List.length
       (unlock_rows 1 1
          (db (snd (unlock_achievement reliable "Первый шаг" 1
                      (snd (unlock_achievement reliable "Первый шаг" 1
                              (started (seeded [])))))))) = 1%nat.
Proof.
  split; [reflexivity|]. split; [cbn; lia|].
  pose proof (unlock_achievement_idempotent (started (seeded [])) "Первый шаг" 1 1
                eq_refl (le_S _ _ (le_n 0))) as H.
  cbv zeta in H. destruct H as (_ & _ & H & _). exact H.
Defined.

(** A store with one entry: the run looks "Первый шаг" up and unlocks it. *)
Lemma first_step_exactly_one_entry_witness :
  let a := started (seeded [sample_entry 1 "Проект" "Иванов"]) in
  count_entries (db a) = 1
  /\ select_achievement_id "Первый шаг" (db a) = Some 1
  /\ In (SelectAchievementId "Первый шаг")
       (new_statements a (snd (check_achievements reliable 1 a)))
  /\ select_user_achievement 1 1 (db (snd (check_achievements reliable 1 a))) = true.
Proof.
  intro a. split; [reflexivity|]. split; [reflexivity|].
  pose proof (first_step_exactly_one_entry 1 a) as H. cbv zeta in H.
  destruct H as [Hiff Hrow]. split.
  - apply Hiff. reflexivity.
  - apply Hrow; reflexivity.
Defined.

(** ** "Командный игрок" *)

(** The condition the code tests: [check_achievements] calls
    [unlock_achievement] for "Командный игрок" exactly when at least three
    entries have a coauthors field other than [NULL], the empty string and
    one space. *)
Lemma team_player_attempt_iff (entry_id : Z) (a : app) :
  In (SelectAchievementId "Командный игрок")
    (new_statements a (snd (check_achievements reliable entry_id a)))
  <-> 3 <= count_coauthored (db a).
Proof.
  destruct (check_achievements_run reliable entry_id a reliable_answers)
    as (a' & a2 & t1 & t2 & t3 & t4 & t5 & Hrun & Hsteps & _ & Hissued & _).
  rewrite Hrun. cbn [snd].
  repeat (apply Forall_app in Hsteps; destruct Hsteps as [? Hsteps]).
  rewrite (new_statements_app _ _ _ Hissued). split.
  - intros Hin.
    repeat (cbn [In] in Hin; rewrite ?in_app_iff in Hin).
    repeat match type of Hin with
           | _ \/ _ => destruct Hin as [Hin | Hin]
           end;
      try discriminate Hin;
      match type of Hin with
      | In _ (attempt _ _ _) =>
          apply in_attempt in Hin; [destruct Hin as [Hb Hname] | assumption]
      end;
      try discriminate Hname.
    apply Z.geb_le. exact Hb.
  - intros Hthree. apply Z.geb_le in Hthree. rewrite Hthree.
    cbn [In]. right. apply in_or_app. right. cbn. right. left. reflexivity.
Qed.

(** C7. With three entries whose coauthors field is two spaces, no entry
    names a coauthor, yet the query of [check_achievements] counts all
    three, and the run unlocks "Командный игрок" and announces it. *)
Theorem team_player_counts_blank_coauthors :
  let a := started (seeded blank_coauthor_entries) in
  let a' := snd (check_achievements reliable 3 a) in
  List.length (filter names_a_coauthor (entries (db a))) = 0%nat
  /\ count_coauthored (db a) = 3
  /\ In (SelectAchievementId "Командный игрок") (new_statements a a')
  /\ select_achievement_id "Командный игрок" (db a) = Some 2
  /\ select_user_achievement 1 2 (db a) = false
  /\ select_user_achievement 1 2 (db a') = true
  /\ In (InfoBox "Достижение" "Получено достижение: Командный игрок") (dialogs a').
Proof.
  vm_compute. repeat split; auto 10.
Qed.

(** ** A name missing from the catalog *)

(** At the seeded catalog, unlocking the unknown name "Мастер" returns
    normally: nothing is raised to the caller. *)
Lemma unlock_unknown_name_returns :
  let a := started (seeded []) in
  select_achievement_id "Мастер" (db a) = None
  /\ unlock_achievement reliable "Мастер" 1 a
     = (Returned tt,
        set_printed [unlock_log TypeError]
          (set_issued [SelectAchievementId "Мастер"] a))
  /\ ~ (exists e, fst (unlock_achievement reliable "Мастер" 1 a) = Raised e).
Proof.
  cbv zeta. split; [reflexivity|]. split; [reflexivity|].
  intros [e He]. vm_compute in He. discriminate He.
Qed.

(** C8 (amended). For every achievement name absent from the catalog,
    [unlock_achievement] returns normally: the failed lookup is caught by
    the method's own handler and printed, no table changes, and no message
    box is shown. *)
Theorem unlock_unknown_name_logged (rejects : oracle) (name : string) (user : Z) (a : app) :
  select_achievement_id name (db a) = None ->
  let r := unlock_achievement rejects name user a in
  fst r = Returned tt
  /\ db (snd r) = db a
  /\ dialogs (snd r) = dialogs a
  /\ issued (snd r) = issued a ++ [SelectAchievementId name]
  /\ printed (snd r) =
       printed a
         ++ [unlock_log
               match rejects (List.length (issued a)) (SelectAchievementId name) with
               | Some msg => OperationalError msg
               | None => TypeError
               end].
Proof.
  intros Hmissing r. subst r.
  unfold unlock_achievement. unfold_actions. cbn.
  destruct (rejects (List.length (issued a)) (SelectAchievementId name)); cbn.
  - repeat split.
  - rewrite Hmissing. cbn. repeat split.
Qed.

(** The unknown name "Мастер" at the seeded catalog. *)
Lemma unlock_unknown_name_logged_witness :
  let a := started (seeded []) in
  select_achievement_id "Мастер" (db a) = None
  /\ fst (unlock_achievement reliable "Мастер" 1 a) = Returned tt
  /\ db (snd (unlock_achievement reliable "Мастер" 1 a)) = db a.
Proof.
  intro a. split; [reflexivity|].
  pose proof (unlock_unknown_name_logged reliable "Мастер" 1 a eq_refl) as H.
  cbv zeta in H. destruct H as (Hreturns & Hdb & _). split; assumption.
Defined.

(** ** Failures of the store *)









(** ** Recommendations *)

Local Open Scope Q_scope.

Lemma Qlt_bool_iff x y : Qlt_bool x y = true <-> x < y.
Proof.
  unfold Qlt_bool. rewrite negb_true_iff, <- not_true_iff_false, Qle_bool_iff.
  split; [apply Qnot_le_lt | apply Qlt_not_le].
Qed.

Lemma Qlt_bool_false x y : Qlt_bool x y = false <-> y <= x.
Proof.
  unfold Qlt_bool. rewrite negb_false_iff. apply Qle_bool_iff.
Qed.

Lemma Qle_bool_false x y : Qle_bool x y = false <-> y < x.
Proof.
  rewrite <- not_true_iff_false, Qle_bool_iff.
  split; [apply Qnot_le_lt | apply Qlt_not_le].
Qed.

(** Comparisons of one rational with constants are linear in its numerator
    and denominator. *)
Ltac q_order :=
  repeat match goal with
    | H : Qeq_bool _ _ = true |- _ => apply Qeq_bool_iff in H
    | H : Qeq_bool _ _ = false |- _ => apply Qeq_bool_neq in H
    | H : Qlt_bool _ _ = true |- _ => apply Qlt_bool_iff in H
    | H : Qlt_bool _ _ = false |- _ => apply Qlt_bool_false in H
    | H : Qle_bool _ _ = true |- _ => apply Qle_bool_iff in H
    | H : Qle_bool _ _ = false |- _ => apply Qle_bool_false in H
    end;
  unfold Qeq, Qle, Qlt in *; cbn [Qnum Qden] in *; lia.

(** A row gets no message exactly in the tier from 3 up to 4.5. *)
Lemma recommendation_none r :
  recommendation r = [] <-> 3 <= float_or_0 (row_avg r) /\ float_or_0 (row_avg r) < 9 # 2.
Proof.
  unfold recommendation. destruct (float_or_0 (row_avg r)) as [n d].
  repeat split_match; (split; [try discriminate; intros _; split | intros [? ?]; try reflexivity; exfalso]);
    q_order.
Qed.

(** What [generate_recommendations] writes into the recommendations pane
    for a list of messages. *)
Lemma generate_recommendations_run comp_data a :
  generate_recommendations comp_data a
  = (Returned tt,
     set_recommendations_text
       ("Персонализированные рекомендации:" ++ nl ++ nl
          ++ numbered 1 (recommendations comp_data))%string a).
Proof. reflexivity. Qed.

(** C4. For every row of the aggregation, [generate_recommendations] appends
    exactly one message when the level is 0 (not yet assessed), in (0, 2)
    (chosen by the first of the tokens "Программирование", "БД",
    "Презентация" the name contains, the serious-development message when it
    contains none), in [2, 3) (practice more) or at least 4.5 (share the
    experience), and none when the level is in [3, 4.5); the list of
    messages is the rows' messages in the order of the rows, and when it is
    not empty the method returns with that list, numbered from 1 under the
    heading, as the text of the recommendations pane. *)
Theorem recommendation_tiers (r : level_row) :
  let name := row_name r in
  let level := float_or_0 (row_avg r) in
  (level == 0 ->
   recommendation r =
     ["Вы еще не оценивали компетенцию '" ++ name
        ++ "'. Добавьте запись с этой компетенцией."]%string)
  /\ (0 < level -> level < 2 ->
      recommendation r =
        [if contains "Программирование" name then
           "Компетенция '" ++ name
             ++ "' требует развития. Рекомендуем решать задачи на LeetCode или Codewars."
         else if contains "БД" name then
           "Компетенция '" ++ name
             ++ "' низкая. Рекомендуем пройти курс по SQL и NoSQL базам данных."
         else if contains "Презентация" name then
           "Компетенция '" ++ name
             ++ "' слабая. Выступите с докладом на студенческой конференции."
         else
           "Компетенция '" ++ name
             ++ "' требует серьезного развития. Рекомендуем пройти соответствующий курс."]%string)
  /\ (2 <= level -> level < 3 ->
      recommendation r =
        ["Уровень компетенции '" ++ name
           ++ "' ниже среднего. Рекомендуем практиковаться в этой области."]%string)
  /\ (3 <= level -> level < 9 # 2 -> recommendation r = [])
  /\ (9 # 2 <= level ->
      recommendation r =
        ["Компетенция '" ++ name
           ++ "' развита отлично! Можете делиться опытом с другими."]%string)
  /\ (forall before after,
        flat_map recommendation (before ++ r :: after) =
          flat_map recommendation before ++ recommendation r
            ++ flat_map recommendation after)
  /\ (forall comp_data,
        flat_map recommendation comp_data <> [] ->
        recommendations comp_data = flat_map recommendation comp_data)
  /\ (forall comp_data a,
        flat_map recommendation comp_data <> [] ->
        let done := generate_recommendations comp_data a in
        fst done = Returned tt
        /\ recommendations_text (snd done)
           = ("Персонализированные рекомендации:" ++ nl ++ nl
                ++ numbered 1 (flat_map recommendation comp_data))%string).
Proof.
  assert (Hlist : forall comp_data,
             flat_map recommendation comp_data <> [] ->
             recommendations comp_data = flat_map recommendation comp_data).
  { intros comp_data Hsome. unfold recommendations.
    destruct (flat_map _ comp_data); [contradiction | reflexivity]. }
  cbv zeta. repeat split.
  1-5: unfold recommendation; destruct (float_or_0 (row_avg r)) as [n d];
       intros; repeat split_match; try reflexivity; exfalso; q_order.
  - intros before after. rewrite flat_map_app. reflexivity.
  - exact Hlist.
  - rewrite generate_recommendations_run. cbn [snd recommendations_text
      set_recommendations_text]. rewrite (Hlist comp_data H). reflexivity.
Qed.

(** Levels 0, 1.5 (a name with "БД"), 3.5 and 4.8, and the pane the method
    fills for the four rows. *)
Lemma recommendation_tiers_witness :
  let unassessed := mkLevelRow 1 "Научное письмо" "Коммуникационные" None in
  let low := mkLevelRow 2 "Работа с БД" "Технические" (Some (3 # 2)) in
  let fine := mkLevelRow 3 "Командная работа" "Социальные" (Some (7 # 2)) in
  let high := mkLevelRow 4 "Программирование" "Технические" (Some (24 # 5)) in
  recommendation unassessed =
    ["Вы еще не оценивали компетенцию 'Научное письмо'. Добавьте запись с этой компетенцией."]%string
  /\ recommendation low =
       ["Компетенция 'Работа с БД' низкая. Рекомендуем пройти курс по SQL и NoSQL базам данных."]%string
  /\ recommendation fine = []
  /\ recommendation high =
       ["Компетенция 'Программирование' развита отлично! Можете делиться опытом с другими."]%string
  /\ recommendations_text
       (snd (generate_recommendations [unassessed; low; fine; high]
               (started (seeded []))))
     = ("Персонализированные рекомендации:" ++ nl ++ nl
          ++ "1. Вы еще не оценивали компетенцию 'Научное письмо'. Добавьте запись с этой компетенцией."
          ++ nl
          ++ "2. Компетенция 'Работа с БД' низкая. Рекомендуем пройти курс по SQL и NoSQL базам данных."
          ++ nl
          ++ "3. Компетенция 'Программирование' развита отлично! Можете делиться опытом с другими."
          ++ nl)%string.
Proof.
  intros unassessed low fine high.
  pose proof (recommendation_tiers unassessed) as (H0 & _).
  pose proof (recommendation_tiers low) as (_ & H1 & _).
  pose proof (recommendation_tiers fine) as (_ & _ & _ & H3 & _).
  pose proof (recommendation_tiers high) as (_ & _ & _ & _ & H4 & _ & _ & Hpane).
  split; [apply H0; reflexivity|].
  split; [apply H1; vm_compute; reflexivity|].
  split; [apply H3; vm_compute; [discriminate | reflexivity]|].
  split; [apply H4; vm_compute; discriminate|].
  destruct (Hpane [unassessed; low; fine; high] (started (seeded []))) as [_ Htext].
  - vm_compute. discriminate.
  - rewrite Htext. vm_compute. reflexivity.
Defined.

(** One competency with mean 3.5: the set is not empty, and the only message
    is the fallback. *)
Lemma fallback_for_nonempty_set :
  let comp_data := [mkLevelRow 1 "Командная работа" "Социальные" (Some (7 # 2))] in
  comp_data <> []
  /\ recommendations comp_data = [fallback_recommendation]
  /\ In fallback_recommendation (recommendations comp_data)
  /\ recommendations_text (snd (generate_recommendations comp_data (started (seeded []))))
     = ("Персонализированные рекомендации:" ++ nl ++ nl
          ++ "1. " ++ fallback_recommendation ++ nl)%string.
Proof.
  cbv zeta. split; [discriminate|].
  assert (H : recommendations
                [mkLevelRow 1 "Командная работа" "Социальные" (Some (7 # 2))]
              = [fallback_recommendation]) by (vm_compute; reflexivity).
  split; [exact H|]. split; [rewrite H; left; reflexivity|].
  rewrite generate_recommendations_run. cbn [snd recommendations_text
    set_recommendations_text]. rewrite H. reflexivity.
Qed.

Lemma recommendation_not_fallback r :
  ~ In fallback_recommendation (recommendation r).
Proof.
  unfold recommendation, fallback_recommendation.
  repeat split_match; cbn; intros H; decompose [or] H; try contradiction;
    discriminate.
Qed.

Lemma flat_map_nil {A B : Type} (f : A -> list B) l :
  flat_map f l = [] <-> forall x, In x l -> f x = [].
Proof.
  induction l as [|y l IH]; cbn.
  - tauto.
  - split.
    + intros H. apply app_eq_nil in H as [Hy Hl].
      intros x [<- | Hx]; [assumption | apply IH; assumption].
    + intros H. rewrite (H y) by auto. cbn. apply IH. auto.
Qed.

(** C6 (amended). [generate_recommendations] returns with the list
    [recommendations], numbered from 1 under the heading, as the text of
    the recommendations pane.  The fallback message is in that list exactly
    when no competency of the aggregated set gets a message of its own,
    that is when every level of the set lies in [3, 4.5); the empty set is
    one such case; and then the fallback is the only message, so the pane
    holds the heading and the fallback as line 1. *)
Theorem fallback_iff_no_message (comp_data : list level_row) :
  (In fallback_recommendation (recommendations comp_data)
   <-> forall r, In r comp_data ->
         3 <= float_or_0 (row_avg r) /\ float_or_0 (row_avg r) < 9 # 2)
  /\ (In fallback_recommendation (recommendations comp_data) ->
      recommendations comp_data = [fallback_recommendation])
  /\ recommendations [] = [fallback_recommendation]
  /\ (forall a,
        let done := generate_recommendations comp_data a in
        fst done = Returned tt
        /\ recommendations_text (snd done)
           = ("Персонализированные рекомендации:" ++ nl ++ nl
                ++ numbered 1 (recommendations comp_data))%string
        /\ ((forall r, In r comp_data ->
               3 <= float_or_0 (row_avg r) /\ float_or_0 (row_avg r) < 9 # 2) ->
            recommendations_text (snd done)
            = ("Персонализированные рекомендации:" ++ nl ++ nl
                 ++ "1. " ++ fallback_recommendation ++ nl)%string)).
Proof.
  assert (Hnone : flat_map recommendation comp_data = []
                  <-> forall r, In r comp_data ->
                        3 <= float_or_0 (row_avg r) /\ float_or_0 (row_avg r) < 9 # 2).
  { rewrite flat_map_nil. split; intros H r Hr; apply recommendation_none; auto. }
  assert (Hin : In fallback_recommendation (recommendations comp_data)
                -> flat_map recommendation comp_data = []).
  { unfold recommendations.
    destruct (flat_map recommendation comp_data) as [|m ms] eqn:Hmsgs; [reflexivity|].
    intros Hfallback. exfalso. rewrite <- Hmsgs in Hfallback.
    apply in_flat_map in Hfallback as (r & _ & Hr).
    exact (recommendation_not_fallback r Hr). }
  split; [split|split; [|split]].
  - intros H. apply Hnone, Hin, H.
  - intros H. apply Hnone in H. unfold recommendations. rewrite H. left. reflexivity.
  - intros H. apply Hin in H. unfold recommendations. rewrite H. reflexivity.
  - reflexivity.
  - intros a. cbv zeta. rewrite generate_recommendations_run.
    cbn [fst snd recommendations_text set_recommendations_text].
    split; [reflexivity|]. split; [reflexivity|].
    intros H. apply Hnone in H. unfold recommendations. rewrite H. reflexivity.
Qed.

(** Two competencies at 3.5 and 4: the fallback is emitted. *)
Lemma fallback_iff_no_message_witness :
  let comp_data := [mkLevelRow 1 "Командная работа" "Социальные" (Some (7 # 2));
                    mkLevelRow 2 "Научное письмо" "Коммуникационные" (Some 4)] in
  (forall r, In r comp_data ->
     3 <= float_or_0 (row_avg r) /\ float_or_0 (row_avg r) < 9 # 2)
  /\ In fallback_recommendation (recommendations comp_data)
  /\ recommendations_text (snd (generate_recommendations comp_data (started (seeded []))))
     = ("Персонализированные рекомендации:" ++ nl ++ nl
          ++ "1. " ++ fallback_recommendation ++ nl)%string.
Proof.
  intro comp_data.
  assert (H : forall r, In r comp_data ->
                3 <= float_or_0 (row_avg r) /\ float_or_0 (row_avg r) < 9 # 2).
  { intros r [<- | [<- | []]]; vm_compute; split; try discriminate; reflexivity. }
  split; [exact H|].
  destruct (fallback_iff_no_message comp_data) as (Hiff & _ & _ & Hpane).
  split; [apply Hiff; exact H|].
  destruct (Hpane (started (seeded []))) as (_ & _ & Htext). exact (Htext H).
Defined.

(** ** Weak zones *)




(** ** Reloading a profile *)

Local Close Scope Q_scope.

Lemma insert_by_In {A : Type} (le : A -> A -> bool) x y l :
  In y (insert_by le x l) <-> y = x \/ In y l.
Proof.
  induction l as [|z l IH]; cbn.
  - intuition.
  - destruct (le x z); cbn; [intuition | rewrite IH; intuition].
Qed.

Lemma order_by_In {A : Type} (le : A -> A -> bool) y l :
  In y (order_by le l) <-> In y l.
Proof.
  unfold order_by. induction l as [|x l IH]; cbn; [tauto|].
  rewrite insert_by_In, IH. intuition.
Qed.

(** With no grade stored, every row of the aggregation has a [NULL] mean. *)
Lemma ungraded_levels d row :
  entry_competencies d = [] ->
  In row (select_competency_levels d) -> row_avg row = None.
Proof.
  intros Hnone Hrow. unfold select_competency_levels in Hrow.
  apply order_by_In, in_map_iff in Hrow as (c & <- & _).
  unfold levels_of. rewrite Hnone. reflexivity.
Qed.

(** The insert loop of [load_competencies]: one new row per competency of
    the profile, with an id above the sequence, mirrored in
    [self.competencies]. *)
Lemma insert_competencies_run comps :
  forall a,
  exists a' news,
    for_each comps
      (fun comp =>
         comp_id <- query reliable (InsertCompetency (fst comp) (snd comp))
                      competencies_id_seq ;;
         modify (fun a =>
                   set_profile (current_specialty a)
                     (self_competencies a
                        ++ [mkCompetency comp_id (fst comp) (snd comp)]) a)) a
    = (Returned tt, a')
    /\ competencies (db a') = competencies (db a) ++ news
    /\ self_competencies a' = self_competencies a ++ news
    /\ map name_and_category news = comps
    /\ Forall (fun c => competencies_id_seq (db a) < competency_id c) news
    /\ competencies_id_seq (db a) <= competencies_id_seq (db a')
    /\ entries (db a') = entries (db a)
    /\ entry_competencies (db a') = entry_competencies (db a)
    /\ dialogs a' = dialogs a.
Proof.
  induction comps as [|[name category] comps IH]; intros a.
  - exists a, []. cbn. rewrite !app_nil_r. repeat split; auto. lia.
  - cbn [for_each].
    set (a1 := set_profile (current_specialty a)
                 (self_competencies a
                    ++ [mkCompetency (competencies_id_seq (db a) + 1) name category])
                 (set_db
                    (set_competencies
                       (competencies (db a)
                          ++ [mkCompetency (competencies_id_seq (db a) + 1) name category])
                       (competencies_id_seq (db a) + 1)
                       (entry_competencies (db a)) (db a))
                    (set_issued (issued a ++ [InsertCompetency name category]) a))).
    destruct (IH a1) as (a' & news & Hrun & Hcomps & Hself & Hnames & Hids & Hseq
                         & Hentries & Hgrades & Hdialogs).
    exists a', (mkCompetency (competencies_id_seq (db a) + 1) name category :: news).
    split.
    { unfold bind at 1. cbn. exact Hrun. }
    cbn in Hcomps, Hself, Hids, Hseq, Hentries, Hgrades, Hdialogs.
    rewrite <- app_assoc in Hcomps, Hself.
    repeat split; auto.
    + cbn. rewrite Hnames. reflexivity.
    + constructor; [cbn; lia|].
      eapply Forall_impl; [|exact Hids]. cbn. intros c Hc. lia.
    + lia.
Qed.

Lemma update_competencies_run a :
  exists a',
    update_competencies reliable a = (Returned tt, a')
    /\ db a' = db a
    /\ dialogs a' = dialogs a
    /\ (self_competencies a <> [] ->
        competencies_text a' = levels_text (select_competency_levels (db a))).
Proof.
  unfold update_competencies, generate_recommendations. unfold_actions.
  cbv beta. destruct (self_competencies a) as [|c l] eqn:Hloaded.
  - eexists. split; [reflexivity|]. cbn. repeat split. contradiction.
  - eexists. split; [reflexivity|]. cbn. repeat split.
Qed.

Lemma cascade_deletes_all d :
  Forall (fun g => references_competency d g = true) (entry_competencies d) ->
  filter (fun g => negb (references_competency d g)) (entry_competencies d) = [].
Proof.
  induction 1 as [|g l Hg _ IH]; cbn; [reflexivity|].
  rewrite Hg. cbn. exact IH.
Qed.

Lemma no_weak_zone_when_ungraded comp_data :
  (forall row, In row comp_data -> row_avg row = None) ->
  weak_zones comp_data = [].
Proof.
  intros Hnone. unfold weak_zones.
  induction comp_data as [|row l IH]; cbn; [reflexivity|].
  unfold is_weak at 1, displayed_level. rewrite (Hnone row) by (left; reflexivity).
  cbn. apply IH. intros r Hr. apply Hnone. right. exact Hr.
Qed.

(** C10. A reload of a known profile, with the foreign key of
    [entry_competencies] holding, returns and announces success; it leaves
    the entries as they were, removes every grade, leaves in [competencies]
    only new rows (one per competency of the profile, with ids above the
    sequence), so that every row of the aggregation has no mean and the
    displayed level 0, and the weak-zone list is empty. *)
Theorem load_competencies_resets_levels
  (a : app) (specialty : string) (comps : list (string * string)) :
  profile specialty a = Some comps ->
  specialty <> ""%string ->
  Forall (fun g => references_competency (db a) g = true) (entry_competencies (db a)) ->
  let r := load_competencies reliable specialty a in
  fst r = Returned tt
  /\ entries (db (snd r)) = entries (db a)
  /\ entry_competencies (db (snd r)) = []
  /\ map name_and_category (competencies (db (snd r))) = comps
  /\ Forall (fun c => competencies_id_seq (db a) < competency_id c)
       (competencies (db (snd r)))
  /\ (forall row, In row (select_competency_levels (db (snd r))) ->
        row_avg row = None /\ displayed_level row = Qmake 0 10)
  /\ weak_zones (select_competency_levels (db (snd r))) = []
  /\ (comps <> [] ->
      competencies_text (snd r) = levels_text (select_competency_levels (db (snd r))))
  /\ dialogs (snd r) =
       dialogs a
         ++ [InfoBox "Успех" ("Загружены компетенции для специальности: " ++ specialty)].
Proof.
  intros Hprofile Hnonempty Hfk r. subst r.
  apply String.eqb_neq in Hnonempty.
  set (a0 := set_profile (Some specialty) [] a).
  set (a1 := set_db
               (set_competencies [] (competencies_id_seq (db a)) [] (db a))
               (set_issued (issued a ++ [DeleteCompetencies]) a0)).
  assert (Hdelete : execute reliable DeleteCompetencies a0 = (Returned tt, a1)).
  { unfold execute, a1. cbn. rewrite (cascade_deletes_all _ Hfk). reflexivity. }
  destruct (insert_competencies_run comps a1)
    as (a2 & news & Hloop & Hcomps & Hself & Hnames & Hids & _ & Hentries & Hgrades
        & Hdialogs).
  cbn in Hcomps, Hself, Hids, Hentries, Hgrades, Hdialogs.
  set (a3 := set_db (db a2) (set_issued (issued a2 ++ [Commit]) a2)).
  destruct (update_competencies_run a3) as (a4 & Hupdate & Hdb & Hdialogs4 & Htext).
  cbn in Hdb, Hdialogs4, Htext.
  set (a5 := set_dialogs
               (dialogs a4
                  ++ [InfoBox "Успех"
                        ("Загружены компетенции для специальности: " ++ specialty)])
               a4).
  assert (Hrun : load_competencies reliable specialty a = (Returned tt, a5)).
  { unfold load_competencies.
    rewrite (bind_returned _ _ _ (Some comps) a)
      by (unfold get; rewrite Hprofile; reflexivity).
    rewrite Hnonempty. cbn [negb when].
    rewrite (bind_returned _ _ _ tt a0) by reflexivity.
    apply try_except_returned.
    rewrite (bind_returned _ _ _ _ _ Hdelete).
    rewrite (bind_returned _ _ _ _ _ Hloop).
    rewrite (bind_returned _ _ _ tt a3) by reflexivity.
    rewrite (bind_returned _ _ _ _ _ Hupdate).
    reflexivity. }
  rewrite Hrun. cbn. rewrite Hdb.
  assert (Hungraded : forall row, In row (select_competency_levels (db a2)) ->
                        row_avg row = None)
    by (intros row; apply ungraded_levels; assumption).
  repeat split; auto.
  - rewrite Hcomps. exact Hnames.
  - rewrite Hcomps. exact Hids.
  - unfold displayed_level. rewrite (Hungraded row) by assumption. reflexivity.
  - apply no_weak_zone_when_ungraded. exact Hungraded.
  - intros Hsome. apply Htext. rewrite Hself. intros ->. apply Hsome.
    symmetry. exact Hnames.
  - rewrite Hdialogs4, Hdialogs. reflexivity.
Qed.

(** Two graded competencies, one of them a weak zone, before the default
    profile is reloaded. *)
Lemma load_competencies_resets_levels_witness :
  let d := mkDatabase coauthored_entries (seed_achievements 1 achievements_data) []
             [mkCompetency 1 "Программирование" "Технические";
              mkCompetency 2 "Работа с БД" "Технические"] 2
             [mkEntryCompetency 1 1 2; mkEntryCompetency 2 2 4; mkEntryCompetency 3 1 2]
             [] 0 in
  let a := started d in
  let specialty := "Информационные системы"%string in
  profile specialty a = Some (snd (hd (specialty, []) default_specialties))
  /\ specialty <> ""%string
  /\ Forall (fun g => references_competency (db a) g = true) (entry_competencies (db a))
  /\ weak_zones (select_competency_levels (db a)) = [("Программирование"%string, Qmake 20 10)]
  /\ entries (db (snd (load_competencies reliable specialty a))) = coauthored_entries
  /\ entry_competencies (db (snd (load_competencies reliable specialty a))) = []
  /\ weak_zones (select_competency_levels (db (snd (load_competencies reliable specialty a)))) = [].
Proof.
  intros d a specialty.
  assert (H1 : profile specialty a = Some (snd (hd (specialty, []) default_specialties)))
    by reflexivity.
  assert (H2 : specialty <> ""%string) by discriminate.
  assert (H3 : Forall (fun g => references_competency (db a) g = true)
                 (entry_competencies (db a)))
    by (repeat constructor).
  split; [exact H1|]. split; [exact H2|]. split; [exact H3|]. split; [reflexivity|].
  pose proof (load_competencies_resets_levels a specialty _ H1 H2 H3) as H.
  cbv zeta in H. destruct H as (_ & Hentries & Hgrades & _ & _ & _ & Hweak & _).
  repeat split; assumption.
Defined.

(** ** Goals *)

Lemma recompute_current_run g a :
  exists a',
    recompute_current reliable g a = (Returned (current_of (db a) g), a')
    /\ db a' = db a.
Proof.
  unfold recompute_current, current_of, reliable. unfold_actions.
  repeat (cbn [effect]; split_match); cbn; eexists; split; reflexivity.
Qed.

Lemma current_of_live_data d d' g :
  entries d' = entries d ->
  competencies d' = competencies d ->
  entry_competencies d' = entry_competencies d ->
  current_of d' g = current_of d g.
Proof.
  intros He Hc Hg.
  unfold current_of, count_entries, avg_level_by_name, levels_of.
  rewrite He, Hc, Hg. reflexivity.
Qed.

Lemma refresh_goals_run d0 gs :
  forall text a,
    entries (db a) = entries d0 ->
    competencies (db a) = competencies d0 ->
    entry_competencies (db a) = entry_competencies d0 ->
    exists text' a',
      refresh_goals reliable gs text a = (Returned text', a')
      /\ entries (db a') = entries d0
      /\ competencies (db a') = competencies d0
      /\ entry_competencies (db a') = entry_competencies d0
      /\ goals (db a') =
           map (fun row => fold_left (fun r g => refresh_row d0 g r) gs row)
             (goals (db a)).
Proof.
  induction gs as [|g gs IH]; intros text a He Hc Hg.
  - exists text, a. cbn. rewrite map_id. auto.
  - cbn [refresh_goals].
    destruct (recompute_current_run g a) as (a1 & Hcurrent & Hdb1).
    rewrite (current_of_live_data d0 (db a) g He Hc Hg) in Hcurrent.
    rewrite (bind_returned _ _ _ _ _ Hcurrent).
    set (c := current_of d0 g).
    set (a2 := set_db (update_goal (goal_id g) (with_current (to_integer c)) (db a1))
                 (set_issued (issued a1 ++ [UpdateGoalCurrent c (goal_id g)]) a1)).
    rewrite (bind_returned _ _ _ tt a2) by reflexivity.
    set (b := reaches c (goal_target g)).
    set (a3 := set_db (update_goal (goal_id g) (with_completed b) (db a2))
                 (set_issued (issued a2 ++ [UpdateGoalCompleted b (goal_id g)]) a2)).
    assert (Hstatus : exists status,
               (if b
                then execute reliable (UpdateGoalCompleted true (goal_id g)) ;;
                     ret "✓ Выполнено"%string
                else execute reliable (UpdateGoalCompleted false (goal_id g)) ;;
                     ret "→ В процессе"%string) a2
               = (Returned status, a3)).
    { unfold a3. destruct b; eexists; reflexivity. }
    destruct Hstatus as [status Hstatus].
    rewrite (bind_returned _ _ _ _ _ Hstatus).
    destruct (IH (text ++ goal_text g c status)%string a3)
      as (text' & a' & Hrun & He' & Hc' & Hg' & Hgoals);
      try (cbn; rewrite Hdb1; assumption).
    exists text', a'. split; [exact Hrun|]. repeat split; try assumption.
    rewrite Hgoals. cbn. rewrite Hdb1, !map_map. apply map_ext.
    intros row. f_equal. unfold refresh_row, refreshed. fold c. fold b.
    destruct (goal_id row =? goal_id g) eqn:Hid; cbn; rewrite Hid; reflexivity.
Qed.

Lemma refreshed_twice d g row :
  refreshed d g (refreshed d g row) = refreshed d g row.
Proof. reflexivity. Qed.

(** A row visited by the loop, at least once and only ever under its own
    snapshot, ends up refreshed from that snapshot. *)
Lemma fold_refresh_row d row0 gs :
  (forall g, In g gs -> goal_id g = goal_id row0 -> g = row0) ->
  forall r,
    goal_id r = goal_id row0 ->
    fold_left (fun r g => refresh_row d g r) gs r =
      if existsb (fun g => goal_id g =? goal_id row0) gs
      then refreshed d row0 r else r.
Proof.
  induction gs as [|g gs IH]; intros Hsnapshot r Hid; [reflexivity|].
  cbn [fold_left existsb]. unfold refresh_row at 2. rewrite Hid.
  rewrite (Z.eqb_sym (goal_id g)).
  destruct (goal_id row0 =? goal_id g) eqn:Hsame.
  - apply Z.eqb_eq in Hsame.
    rewrite (Hsnapshot g (or_introl eq_refl) (eq_sym Hsame)).
    rewrite IH; [| intros; apply Hsnapshot; [right|]; assumption | exact Hid].
    cbn. destruct (existsb _ gs); reflexivity.
  - cbn. apply IH; [| exact Hid].
    intros; apply Hsnapshot; [right|]; assumption.
Qed.

Lemma NoDup_map_injective {A B : Type} (f : A -> B) l x y :
  NoDup (map f l) -> In x l -> In y l -> f x = f y -> x = y.
Proof.
  induction l as [|z l IH]; cbn; [contradiction|].
  intros Hnodup Hx Hy Hf. inversion Hnodup as [|? ? Hz Hl]; subst.
  destruct Hx as [<- | Hx], Hy as [<- | Hy]; auto.
  - exfalso. apply Hz. rewrite Hf. apply in_map. exact Hy.
  - exfalso. apply Hz. rewrite <- Hf. apply in_map. exact Hx.
Qed.

(** C3. With the primary key of [goals] holding, a refresh returns and
    rewrites every stored goal from the value it recomputes for it:
    [completed] becomes [current >= target], true or false, and the stored
    current value becomes that number as an integer.  The recomputed value
    does not read the stored [completed] flag; for a goal that counts
    entries it is the number of entries, for a goal that raises a
    competency it is the rounded mean of the grades of the named
    competency (0 without grades). *)
Theorem update_goals_recomputes_completion (a : app) :
  NoDup (map goal_id (goals (db a))) ->
  let r := update_goals reliable a in
  fst r = Returned tt
  /\ goals (db (snd r)) =
       map (fun g =>
              match fst (recompute_current reliable g a) with
              | Returned current =>
                  mkGoal (goal_id g) (goal_description g) (goal_type g) (goal_target g)
                    (to_integer current) (reaches current (goal_target g))
              | Raised _ => g
              end)
         (goals (db a))
  /\ (forall g b,
        fst (recompute_current reliable (with_completed b g) a)
        = fst (recompute_current reliable g a))
  /\ (forall g,
        goal_type g = "Добавить записи"%string ->
        fst (recompute_current reliable g a) = Returned (PyInt (count_entries (db a))))
  /\ (forall g,
        goal_type g = "Поднять компетенцию"%string ->
        goal_competency (goal_description g) <> ""%string ->
        fst (recompute_current reliable g a)
        = Returned (PyFloat (round1 (float_or_0
                     (avg_level_by_name (goal_competency (goal_description g)) (db a))))))
  /\ entries (db (snd r)) = entries (db a)
  /\ entry_competencies (db (snd r)) = entry_competencies (db a).
Proof.
  intros Hkey r. subst r.
  assert (Hvalue : forall g,
             fst (recompute_current reliable g a) = Returned (current_of (db a) g)).
  { intros g. destruct (recompute_current_run g a) as (a' & -> & _). reflexivity. }
  set (a1 := set_db (db a) (set_issued (issued a ++ [SelectGoals]) a)).
  destruct (refresh_goals_run (db a) (select_goals (db a)) ""%string a1
              eq_refl eq_refl eq_refl)
    as (text & a2 & Hloop & Hentries & _ & Hgrades & Hgoals).
  set (a3 := set_db (db a2) (set_issued (issued a2 ++ [Commit]) a2)).
  set (a4 := set_goals_text
               (if String.eqb text "" then "Цели еще не добавлены"%string else text) a3).
  assert (Hrun : update_goals reliable a = (Returned tt, a4)).
  { unfold update_goals. apply try_except_returned.
    rewrite (bind_returned _ _ _ (select_goals (db a)) a1) by reflexivity.
    rewrite (bind_returned _ _ _ _ _ Hloop).
    rewrite (bind_returned _ _ _ tt a3) by reflexivity.
    reflexivity. }
  rewrite Hrun. cbn [fst snd]. split; [reflexivity|]. split; [|split; [|split; [|split]]].
  - cbn. rewrite Hgoals. cbn. apply map_ext_in. intros row Hrow.
    rewrite Hvalue.
    rewrite (fold_refresh_row (db a) row); [| |reflexivity].
    + assert (Hvisited : existsb (fun g => goal_id g =? goal_id row)
                           (select_goals (db a)) = true).
      { apply existsb_exists. exists row. split; [|apply Z.eqb_refl].
        apply order_by_In. exact Hrow. }
      rewrite Hvisited. reflexivity.
    + intros g Hg Hid. apply order_by_In in Hg.
      exact (NoDup_map_injective goal_id _ g row Hkey Hg Hrow Hid).
  - intros g b. rewrite !Hvalue. reflexivity.
  - intros g Htype. rewrite Hvalue. unfold current_of. rewrite Htype. reflexivity.
  - intros g Htype Hname. rewrite Hvalue. unfold current_of. rewrite Htype.
    apply String.eqb_neq in Hname. rewrite Hname. reflexivity.
  - cbn. auto.
Qed.

(** The first refresh completes the competency goal (4.5 >= 4) and reopens
    the entries goal (3 < 5); after a reload of the profile has removed the
    grades, the next refresh reopens the competency goal as well. *)
Lemma update_goals_recomputes_completion_witness :
  let a := started goals_sample in
  let refreshed_once := snd (update_goals reliable a) in
  let reloaded := snd (load_competencies reliable "Информационные системы" refreshed_once) in
  NoDup (map goal_id (goals (db a)))
  /\ map goal_completed (goals (db a)) = [false; true]
  /\ map goal_completed (goals (db refreshed_once)) = [true; false]
  /\ map goal_current (goals (db refreshed_once)) = [5; 3]
  /\ map goal_completed (goals (db (snd (update_goals reliable reloaded)))) = [false; false].
Proof.
  intros a refreshed_once reloaded.
  assert (Hkey : NoDup (map goal_id (goals (db a)))).
  { repeat constructor; cbn; intuition discriminate. }
  split; [exact Hkey|]. split; [reflexivity|].
  pose proof (update_goals_recomputes_completion a Hkey) as H. cbv zeta in H.
  destruct H as (_ & Hgoals & _).
  unfold refreshed_once. rewrite Hgoals.
  split; [reflexivity|]. split; [reflexivity|].
  vm_compute. reflexivity.
Defined.

(** * Further properties of the modelled methods *)

(** ** The evaluator: which achievements it tries *)

Lemma in_attempt_iff name b name' tr :
  Forall unlock_step tr ->
  (In (SelectAchievementId name) (attempt b name' tr) <-> name' = name /\ b = true).
Proof.
  intros Hall. split.
  - intros Hin. apply in_attempt in Hin; tauto.
  - intros [-> ->]. left. reflexivity.
Qed.

(** On an answering store, [unlock_achievement] is called for a name exactly
    when the name is one of the five and its condition holds. *)
Lemma check_achievements_attempts entry_id a name :
  In (SelectAchievementId name)
    (new_statements a (snd (check_achievements reliable entry_id a)))
  <-> earned a name.
Proof.
  destruct (check_achievements_run reliable entry_id a reliable_answers)
    as (a' & a2 & t1 & t2 & t3 & t4 & t5 & Hrun & Hsteps & _ & Hissued & _).
  rewrite Hrun. cbn [snd].
  repeat (apply Forall_app in Hsteps; destruct Hsteps as [? Hsteps]).
  rewrite (new_statements_app _ _ _ Hissued).
  repeat (cbn [In]; rewrite in_app_iff).
  cbn [In]. rewrite !in_attempt_iff by assumption.
  unfold earned. rewrite Z.eqb_eq, !Z.geb_le, Z.gtb_lt.
  split.
  - intros Hc. repeat destruct Hc as [Hc | Hc]; try discriminate Hc;
      destruct Hc as [<- Hc]; auto 10.
  - intros Hc. repeat destruct Hc as [Hc | Hc]; destruct Hc as [-> Hc]; auto 15.
Qed.

(** X1. "Разносторонний" is tried exactly with three distinct entry types,
    "Плодотворный год" exactly with three entries dated in the current year,
    "Словобог" exactly when the description lengths sum to more than 5000
    (no description at all counting as 0); and no name outside the five is
    ever tried. *)
Theorem remaining_predicates_exact (entry_id : Z) (a : app) :
  let tried name :=
    In (SelectAchievementId name)
      (new_statements a (snd (check_achievements reliable entry_id a))) in
  (tried "Разносторонний"%string <-> 3 <= count_distinct_types (db a))
  /\ (tried "Плодотворный год"%string
      <-> 3 <= count_entries_of_year (year (today a)) (db a))
  /\ (tried "Словобог"%string
      <-> 5000 < match sum_description_lengths (db a) with
                 | Some n => n
                 | None => 0
                 end)
  /\ (forall name, tried name -> In name (map fst achievements_data)).
Proof.
  cbv zeta. repeat split.
  1-6: rewrite check_achievements_attempts || (intros H; apply check_achievements_attempts).
  1,3,5: intros H; repeat destruct H as [H | H]; destruct H as [Hname H];
         try discriminate Hname; exact H.
  1-3: unfold earned; auto 10.
  intros name H. apply check_achievements_attempts in H.
  repeat destruct H as [H | H]; destruct H as [-> _]; cbn; auto 10.
Qed.

(** ** The evaluator: what it changes *)

Lemma grows_refl names user a : grows names user a a.
Proof.
  unfold grows. repeat split; auto. exists []. rewrite app_nil_r. auto.
Qed.

Lemma select_achievement_id_catalog name d d' :
  achievements d' = achievements d ->
  select_achievement_id name d' = select_achievement_id name d.
Proof. unfold select_achievement_id. intros ->. reflexivity. Qed.

Lemma grows_trans names user a a1 a2 :
  grows names user a a1 -> grows names user a1 a2 -> grows names user a a2.
Proof.
  intros (He & Ha & Hc & Hg & Hgo & Ht & Hk & added & Hrows & Hadded)
         (He' & Ha' & Hc' & Hg' & Hgo' & Ht' & Hk' & added' & Hrows' & Hadded').
  unfold grows. repeat split; try congruence; auto.
  exists (added ++ added'). split.
  - rewrite Hrows', Hrows, app_assoc. reflexivity.
  - apply Forall_app. split; [assumption|].
    eapply Forall_impl; [|exact Hadded']. cbn.
    intros r (Hu & name & Hname & Hid). split; [assumption|].
    exists name. split; [assumption|].
    rewrite <- (select_achievement_id_catalog name (db a) (db a1) Ha). exact Hid.
Qed.

Lemma grows_weaken (names names' : string -> Prop) user a a' :
  (forall name, names name -> names' name) ->
  grows names user a a' -> grows names' user a a'.
Proof.
  intros Hsub (He & Ha & Hc & Hg & Hgo & Ht & Hk & added & Hrows & Hadded).
  unfold grows. repeat split; auto.
  exists added. split; [assumption|].
  eapply Forall_impl; [|exact Hadded]. cbn.
  intros r (Hu & name & Hname & Hid). eauto.
Qed.

Lemma not_unlocked_not_in user ach_id d :
  select_user_achievement user ach_id d = false ->
  ~ In (user, ach_id) (map ua_key (user_achievements d)).
Proof.
  unfold select_user_achievement. intros Hnone Hin.
  apply in_map_iff in Hin as (r & Hkey & Hr).
  assert (Hsome : existsb (is_unlock user ach_id) (user_achievements d) = true).
  { apply existsb_exists. exists r. split; [assumption|].
    unfold ua_key in Hkey. injection Hkey as Hu Hi.
    unfold is_unlock. rewrite Hu, Hi, !Z.eqb_refl. reflexivity. }
  congruence.
Qed.

Lemma NoDup_snoc {A : Type} (l : list A) x :
  NoDup l -> ~ In x l -> NoDup (l ++ [x]).
Proof.
  induction 1 as [|y l Hy Hl IH]; cbn; intros Hx.
  - constructor; [tauto | constructor].
  - constructor.
    + rewrite in_app_iff. cbn. intuition congruence.
    + apply IH. tauto.
Qed.

(** Whatever the store does, [unlock_achievement] changes at most
    [user_achievements], by one row for its user and its name. *)
Lemma unlock_achievement_grows rejects name user a :
  grows (eq name) user a (snd (unlock_achievement rejects name user a)).
Proof.
  unfold unlock_achievement. unfold_actions.
  repeat (cbn; split_match); cbn.
  all: repeat match goal with
         | H : inr _ = inr _ |- _ => injection H as <-
         | H : inl _ = inr _ |- _ => discriminate H
         end.
  all: unfold grows; cbn; repeat split; auto.
  all: try (exists []; rewrite app_nil_r; split; [reflexivity | constructor]).
  - intros Hkey. unfold unlocks_unique in *. cbn. rewrite map_app. cbn.
    apply NoDup_snoc; [assumption|]. apply not_unlocked_not_in. assumption.
  - exists [mkUserAchievement user z (current_timestamp (db a))].
    split; [reflexivity|]. constructor; [|constructor]. cbn. split; [reflexivity|].
    exists name. split; [reflexivity | assumption].
  - intros Hkey. unfold unlocks_unique in *. cbn. rewrite map_app. cbn.
    apply NoDup_snoc; [assumption|]. apply not_unlocked_not_in. assumption.
  - exists [mkUserAchievement user z (current_timestamp (db a))].
    split; [reflexivity|]. constructor; [|constructor]. cbn. split; [reflexivity|].
    exists name. split; [reflexivity | assumption].
Qed.

(** *** Invariants of a run *)

Section Invariant.

Variable rejects : oracle.
Variable a0 : app.

(** A property of the state that fixes entries and clock as in [a0], that
    sending an aggregate query keeps, and that [unlock_achievement] keeps
    for the names whose condition holds in [a0]. *)
Variable inv : app -> Prop.
Hypothesis inv_entries : forall a, inv a -> entries (db a) = entries (db a0).
Hypothesis inv_today : forall a, inv a -> today a = today a0.
Hypothesis inv_query :
  forall a s, predicate_query s = true -> inv a ->
              inv (set_issued (issued a ++ [s]) a).
Hypothesis inv_unlock :
  forall a name, earned a0 name -> inv a ->
                 inv (snd (unlock_achievement rejects name 1 a)).

Lemma inv_keeps_bind {A B : Type} (m : M A) (k : A -> M B) V W :
  inv_keeps inv m V -> (forall x, V x -> inv_keeps inv (k x) W) -> inv_keeps inv (bind m k) W.
Proof.
  intros Hm Hk a Ha. unfold bind.
  destruct (Hm a Ha) as [Hinv Hvalue].
  destruct (m a) as [[x|e] a1]; cbn in *.
  - exact (Hk x (Hvalue x eq_refl) a1 Hinv).
  - split; [assumption | discriminate].
Qed.

Lemma inv_keeps_query {A : Type} s (result : database -> A) :
  predicate_query s = true ->
  (forall d, entries d = entries (db a0) -> result d = result (db a0)) ->
  inv_keeps inv (query rejects s result) (fun x => x = result (db a0)).
Proof.
  intros Hs Hresult a Ha. unfold query, execute, bind, get.
  pose proof (inv_query a s Hs Ha) as Hsent.
  destruct (rejects (List.length (issued a)) s); cbn.
  - split; [assumption | discriminate].
  - destruct s; try discriminate Hs; cbn; (split; [exact Hsent|]);
      intros x [= <-]; apply Hresult; apply inv_entries; assumption.
Qed.

Lemma inv_keeps_year :
  inv_keeps inv (get (fun a => year (today a))) (fun y => y = year (today a0)).
Proof.
  intros a Ha. cbn. split; [assumption|].
  intros y [= <-]. rewrite (inv_today a Ha). reflexivity.
Qed.

Lemma inv_keeps_unlock b name :
  (b = true -> earned a0 name) ->
  inv_keeps inv (when b (unlock_achievement rejects name 1)) (fun _ => True).
Proof.
  intros Hearned a Ha. split; [|trivial].
  destruct b; cbn; [|assumption]. apply inv_unlock; auto.
Qed.

(** Such a property holds when [check_achievements] ends, however it ends. *)
Lemma check_achievements_invariant entry_id a :
  inv a -> inv (snd (check_achievements rejects entry_id a)).
Proof.
  assert (H : inv_keeps inv (check_achievements rejects entry_id) (fun _ => True));
    [|intros Ha; apply (H a Ha)].
  unfold check_achievements.
  eapply inv_keeps_bind; [apply (inv_keeps_query CountEntries); [reflexivity|] |].
  { intros d Hd. unfold count_entries. rewrite Hd. reflexivity. }
  intros count ->.
  eapply inv_keeps_bind; [apply inv_keeps_unlock |].
  { intros Hb. apply Z.eqb_eq in Hb. unfold earned. auto. }
  intros _ _.
  eapply inv_keeps_bind; [apply (inv_keeps_query CountCoauthored); [reflexivity|] |].
  { intros d Hd. unfold count_coauthored. rewrite Hd. reflexivity. }
  intros coauthored ->.
  eapply inv_keeps_bind; [apply inv_keeps_unlock |].
  { intros Hb. apply Z.geb_le in Hb. unfold earned. auto. }
  intros _ _.
  eapply inv_keeps_bind; [apply (inv_keeps_query CountDistinctTypes); [reflexivity|] |].
  { intros d Hd. unfold count_distinct_types. rewrite Hd. reflexivity. }
  intros types_count ->.
  eapply inv_keeps_bind; [apply inv_keeps_unlock |].
  { intros Hb. apply Z.geb_le in Hb. unfold earned. auto 10. }
  intros _ _.
  eapply inv_keeps_bind; [apply inv_keeps_year |].
  intros current_year ->.
  eapply inv_keeps_bind;
    [apply (inv_keeps_query (CountEntriesOfYear (year (today a0)))); [reflexivity|] |].
  { intros d Hd. unfold count_entries_of_year. rewrite Hd. reflexivity. }
  intros year_count ->.
  eapply inv_keeps_bind; [apply inv_keeps_unlock |].
  { intros Hb. apply Z.geb_le in Hb. unfold earned. auto 10. }
  intros _ _.
  eapply inv_keeps_bind; [apply (inv_keeps_query SumDescriptionLengths); [reflexivity|] |].
  { intros d Hd. unfold sum_description_lengths. rewrite Hd. reflexivity. }
  intros result ->.
  apply inv_keeps_unlock.
  intros Hb. apply Z.gtb_lt in Hb. unfold earned. auto 10.
Qed.

End Invariant.

Lemma check_achievements_grows rejects entry_id a :
  grows (earned a) 1 a (snd (check_achievements rejects entry_id a)).
Proof.
  apply (check_achievements_invariant rejects a (grows (earned a) 1 a)).
  - intros a1 H. apply H.
  - intros a1 H. apply H.
  - intros a1 s _ H. exact H.
  - intros a1 name Hearned H.
    apply (grows_trans _ _ _ a1); [assumption|].
    apply (grows_weaken (eq name)); [|apply unlock_achievement_grows].
    intros n <-. exact Hearned.
  - apply grows_refl.
Qed.

(** X2. Whatever the store does, and whether it returns or raises,
    [check_achievements] leaves entries, catalog, competencies, grades and
    goals as they were; it deletes no unlock row and appends rows for user 1
    only; and it keeps the primary key of [user_achievements]. *)
Theorem check_achievements_frame (rejects : oracle) (entry_id : Z) (a : app) :
  let a' := snd (check_achievements rejects entry_id a) in
  entries (db a') = entries (db a)
  /\ achievements (db a') = achievements (db a)
  /\ competencies (db a') = competencies (db a)
  /\ entry_competencies (db a') = entry_competencies (db a)
  /\ goals (db a') = goals (db a)
  /\ (exists added,
        user_achievements (db a') = user_achievements (db a) ++ added
        /\ Forall (fun r => ua_user_id r = 1) added)
  /\ (NoDup (map ua_key (user_achievements (db a))) ->
      NoDup (map ua_key (user_achievements (db a')))).
Proof.
  destruct (check_achievements_grows rejects entry_id a)
    as (He & Ha & Hc & Hg & Hgo & _ & Hkey & added & Hrows & Hadded).
  cbv zeta. repeat split; auto.
  exists added. split; [assumption|].
  eapply Forall_impl; [|exact Hadded]. cbn. tauto.
Qed.

(** X3. Whatever the store does, every unlock row [check_achievements] adds
    is the catalog row of one of the five achievements whose condition
    holds in the store. *)
Theorem check_achievements_unlocks_only_earned
  (rejects : oracle) (entry_id : Z) (a : app) (r : user_achievement) :
  let a' := snd (check_achievements rejects entry_id a) in
  In r (user_achievements (db a')) ->
  In r (user_achievements (db a))
  \/ exists name,
       earned a name
       /\ select_achievement_id name (db a) = Some (ua_achievement_id r).
Proof.
  destruct (check_achievements_grows rejects entry_id a)
    as (_ & _ & _ & _ & _ & _ & _ & added & Hrows & Hadded).
  cbv zeta. rewrite Hrows, in_app_iff. intros [Hold | Hnew]; [left; assumption|].
  right. rewrite Forall_forall in Hadded. destruct (Hadded r Hnew) as (_ & H). exact H.
Qed.

(** ** The evaluator: what it achieves *)

Lemma unlock_achievement_settles name a :
  settled (snd (unlock_achievement reliable name 1 a)) name.
Proof.
  intros ach_id.
  destruct (select_achievement_id name (db a)) as [i|] eqn:Hid.
  - destruct (select_user_achievement 1 i (db a)) eqn:Hrow.
    + rewrite (unlock_achievement_again _ _ _ _ Hid Hrow). cbn.
      rewrite Hid. intros [= <-]. exact Hrow.
    + rewrite (unlock_achievement_fresh _ _ _ _ Hid Hrow). cbn.
      change (select_achievement_id name (db a) = Some ach_id ->
              select_user_achievement 1 ach_id
                (set_user_achievements
                   (user_achievements (db a)
                      ++ [mkUserAchievement 1 i (current_timestamp (db a))])
                   (db a)) = true).
      rewrite Hid. intros [= <-].
      unfold select_user_achievement. cbn. rewrite existsb_app. cbn.
      rewrite Z.eqb_refl. apply orb_true_r.
  - pose proof (unlock_achievement_grows reliable name 1 a) as (_ & Hcatalog & _).
    rewrite (select_achievement_id_catalog _ _ _ Hcatalog), Hid. discriminate.
Qed.

Lemma grows_settled names a a' name :
  grows names 1 a a' -> settled a name -> settled a' name.
Proof.
  intros (_ & Hcatalog & _ & _ & _ & _ & _ & added & Hrows & _) Hsettled ach_id.
  rewrite (select_achievement_id_catalog _ _ _ Hcatalog). intros Hid.
  specialize (Hsettled ach_id Hid).
  unfold select_user_achievement in *. rewrite Hrows, existsb_app, Hsettled.
  reflexivity.
Qed.

Lemma check_achievements_settles entry_id a :
  settles_lookups a (snd (check_achievements reliable entry_id a)).
Proof.
  apply (check_achievements_invariant reliable a (settles_lookups a)).
  - intros a1 H. apply H.
  - intros a1 H. apply H.
  - intros a1 s Hs (Hgrows & tr & Hissued & Hsettled). split; [exact Hgrows|].
    exists (tr ++ [s]). cbn. rewrite Hissued, app_assoc. split; [reflexivity|].
    intros name Hin. apply in_app_iff in Hin as [Hin | [Hlast | []]];
      [apply Hsettled; assumption | subst s; discriminate Hs].
  - intros a1 name Hearned (Hgrows & tr & Hissued & Hsettled).
    pose proof (unlock_achievement_grows reliable name 1 a1) as Hstep.
    split.
    + apply (grows_trans _ _ _ a1); [assumption|].
      apply (grows_weaken (eq name)); [|exact Hstep]. intros n <-. exact Hearned.
    + destruct (unlock_achievement_run reliable name 1 a1)
        as (a2 & tr' & Hrun & Hissued' & Hsteps & _).
      pose proof (unlock_achievement_settles name a1) as Hname.
      rewrite Hrun in *. cbn [snd] in *.
      exists (tr ++ SelectAchievementId name :: tr').
      rewrite Hissued', Hissued, app_assoc. split; [reflexivity|].
      intros n Hin. apply in_app_iff in Hin as [Hin | [[= <-] | Hin]].
      * apply (grows_settled _ _ _ _ Hstep). apply Hsettled. assumption.
      * exact Hname.
      * exfalso. exact (unlock_step_not_lookup _ _ Hsteps Hin).
  - split; [apply grows_refl|]. exists []. rewrite app_nil_r. split; [reflexivity|].
    intros name [].
Qed.

(** X4. On an answering store, when [check_achievements] ends every
    achievement of the catalog whose condition holds is unlocked for user 1. *)
Theorem check_achievements_unlocks_every_earned
  (entry_id : Z) (a : app) (name : string) (ach_id : Z) :
  earned a name ->
  select_achievement_id name (db a) = Some ach_id ->
  select_user_achievement 1 ach_id (db (snd (check_achievements reliable entry_id a)))
  = true.
Proof.
  intros Hearned Hid.
  destruct (check_achievements_settles entry_id a)
    as (Hgrows & tr & Hissued & Hsettled).
  apply (Hsettled name).
  - rewrite <- (new_statements_app _ _ _ Hissued).
    apply check_achievements_attempts. exact Hearned.
  - destruct Hgrows as (_ & Hcatalog & _).
    rewrite (select_achievement_id_catalog _ _ _ Hcatalog). exact Hid.
Qed.

Lemma unlock_achievement_settled_quiet name a :
  settled a name ->
  db (snd (unlock_achievement reliable name 1 a)) = db a
  /\ dialogs (snd (unlock_achievement reliable name 1 a)) = dialogs a
  /\ today (snd (unlock_achievement reliable name 1 a)) = today a.
Proof.
  intros Hsettled.
  destruct (select_achievement_id name (db a)) as [i|] eqn:Hid.
  - rewrite (unlock_achievement_again _ _ _ _ Hid (Hsettled i Hid)). cbn. auto.
  - unfold unlock_achievement. unfold_actions. cbn. rewrite Hid. cbn. auto.
Qed.

Lemma earned_same_entries a a' name :
  entries (db a') = entries (db a) -> today a' = today a ->
  earned a' name -> earned a name.
Proof.
  unfold earned, count_entries, count_coauthored, count_distinct_types,
    count_entries_of_year, sum_description_lengths.
  intros -> ->. tauto.
Qed.

(** X5. Evaluating again over the same data is silent: a second run of
    [check_achievements] right after the first returns, changes no table
    and shows no message box. *)
Theorem check_achievements_again_is_silent (entry_id entry_id' : Z) (a : app) :
  let a1 := snd (check_achievements reliable entry_id a) in
  let second := check_achievements reliable entry_id' a1 in
  fst second = Returned tt
  /\ db (snd second) = db a1
  /\ dialogs (snd second) = dialogs a1.
Proof.
  intros a1 second. subst second.
  pose proof (check_achievements_settles entry_id a) as (Hgrows & tr & Hissued & Hsettled).
  fold a1 in Hgrows, Hissued, Hsettled.
  assert (Hall : forall name, earned a1 name -> settled a1 name).
  { intros name Hearned. apply Hsettled.
    rewrite <- (new_statements_app _ _ _ Hissued).
    apply check_achievements_attempts.
    destruct Hgrows as (He & _ & _ & _ & _ & Ht & _).
    exact (earned_same_entries _ _ _ He Ht Hearned). }
  split.
  { destruct (check_achievements_run reliable entry_id' a1 reliable_answers)
      as (a2 & _ & _ & _ & _ & _ & _ & -> & _). reflexivity. }
  pose proof (check_achievements_invariant reliable a1
                (fun a => db a = db a1 /\ dialogs a = dialogs a1 /\ today a = today a1))
    as Hinv.
  cbv beta in Hinv.
  destruct (Hinv (fun a H => f_equal entries (proj1 H))
              (fun a H => proj2 (proj2 H))
              (fun a s _ H => H)) with (entry_id := entry_id') (a := a1)
    as (Hdb & Hdialogs & _); auto.
  intros a2 name Hearned (Hdb & Hdialogs & Htoday).
  assert (Hsettled2 : settled a2 name).
  { intros i. unfold settled in Hall. rewrite Hdb. apply Hall. exact Hearned. }
  destruct (unlock_achievement_settled_quiet name a2 Hsettled2) as (-> & -> & ->).
  auto.
Qed.

(** ** Goals: a refresh over an answering store *)

Lemma string_app_assoc (s t u : string) : ((s ++ t) ++ u = s ++ (t ++ u))%string.
Proof. induction s as [|c s IH]; cbn; [reflexivity | rewrite IH; reflexivity]. Qed.

Lemma string_app_nil_r (s : string) : (s ++ "" = s)%string.
Proof. induction s as [|c s IH]; cbn; [reflexivity | rewrite IH; reflexivity]. Qed.

Lemma refresh_goals_text d0 gs :
  forall text a,
    entries (db a) = entries d0 ->
    competencies (db a) = competencies d0 ->
    entry_competencies (db a) = entry_competencies d0 ->
    exists a',
      refresh_goals reliable gs text a
      = (Returned (text ++ join (map (goal_block d0) gs))%string, a')
      /\ entries (db a') = entries d0
      /\ competencies (db a') = competencies d0
      /\ entry_competencies (db a') = entry_competencies d0
      /\ achievements (db a') = achievements (db a)
      /\ user_achievements (db a') = user_achievements (db a)
      /\ dialogs a' = dialogs a
      /\ goals (db a') =
           map (fun row => fold_left (fun r g => refresh_row d0 g r) gs row)
             (goals (db a)).
Proof.
  induction gs as [|g gs IH]; intros text a He Hc Hg.
  - exists a. cbn. rewrite map_id, string_app_nil_r. repeat split; auto.
  - cbn [refresh_goals].
    destruct (recompute_current_run g a) as (a1 & Hcurrent & Hdb1).
    rewrite (current_of_live_data d0 (db a) g He Hc Hg) in Hcurrent.
    rewrite (bind_returned _ _ _ _ _ Hcurrent).
    assert (Hdialogs1 : dialogs a1 = dialogs a).
    { revert Hcurrent. unfold recompute_current, reliable. unfold_actions.
      repeat (cbn [effect]; split_match); cbn; intros [= _ <-]; reflexivity. }
    set (c := current_of d0 g).
    set (a2 := set_db (update_goal (goal_id g) (with_current (to_integer c)) (db a1))
                 (set_issued (issued a1 ++ [UpdateGoalCurrent c (goal_id g)]) a1)).
    rewrite (bind_returned _ _ _ tt a2) by reflexivity.
    set (b := reaches c (goal_target g)).
    set (a3 := set_db (update_goal (goal_id g) (with_completed b) (db a2))
                 (set_issued (issued a2 ++ [UpdateGoalCompleted b (goal_id g)]) a2)).
    assert (Hstatus :
              (if b
               then execute reliable (UpdateGoalCompleted true (goal_id g)) ;;
                    ret "✓ Выполнено"%string
               else execute reliable (UpdateGoalCompleted false (goal_id g)) ;;
                    ret "→ В процессе"%string) a2
              = (Returned (if b then "✓ Выполнено" else "→ В процессе")%string, a3)).
    { unfold a3. destruct b; reflexivity. }
    rewrite (bind_returned _ _ _ _ _ Hstatus).
    destruct (IH (text ++ goal_text g c (if b then "✓ Выполнено" else "→ В процессе"))%string
                a3)
      as (a' & Hrun & He' & Hc' & Hg' & Hach & Hua & Hdialogs & Hgoals);
      try (cbn; rewrite Hdb1; assumption).
    exists a'. split.
    { rewrite Hrun. cbn [map join fold_right]. unfold goal_block. fold c. fold b.
      rewrite string_app_assoc. reflexivity. }
    cbn in Hach, Hua, Hdialogs. rewrite Hdb1 in Hach, Hua.
    repeat split; try assumption; try congruence.
    rewrite Hgoals. cbn. rewrite Hdb1, !map_map. apply map_ext.
    intros row. f_equal. unfold refresh_row, refreshed. fold c. fold b.
    destruct (goal_id row =? goal_id g) eqn:Hid; cbn; rewrite Hid; reflexivity.
Qed.

(** A refresh over an answering store with unique goal ids, in full. *)
Lemma update_goals_run a :
  NoDup (map goal_id (goals (db a))) ->
  exists a',
    update_goals reliable a = (Returned tt, a')
    /\ goals (db a') = map (refresh (db a)) (goals (db a))
    /\ entries (db a') = entries (db a)
    /\ competencies (db a') = competencies (db a)
    /\ entry_competencies (db a') = entry_competencies (db a)
    /\ achievements (db a') = achievements (db a)
    /\ user_achievements (db a') = user_achievements (db a)
    /\ dialogs a' = dialogs a
    /\ goals_text a' = goals_pane (db a).
Proof.
  intros Hkey.
  set (a1 := set_db (db a) (set_issued (issued a ++ [SelectGoals]) a)).
  destruct (refresh_goals_text (db a) (select_goals (db a)) ""%string a1
              eq_refl eq_refl eq_refl)
    as (a2 & Hloop & Hentries & Hcomps & Hgrades & Hach & Hua & Hdialogs & Hgoals).
  set (a3 := set_db (db a2) (set_issued (issued a2 ++ [Commit]) a2)).
  exists (set_goals_text (goals_pane (db a)) a3). split.
  { unfold update_goals. apply try_except_returned.
    rewrite (bind_returned _ _ _ (select_goals (db a)) a1) by reflexivity.
    rewrite (bind_returned _ _ _ _ _ Hloop).
    rewrite (bind_returned _ _ _ tt a3) by reflexivity.
    reflexivity. }
  cbn. repeat split; auto.
  rewrite Hgoals. cbn. apply map_ext_in. intros row Hrow.
  rewrite (fold_refresh_row (db a) row); [| |reflexivity].
  - assert (Hvisited : existsb (fun g => goal_id g =? goal_id row)
                         (select_goals (db a)) = true).
    { apply existsb_exists. exists row. split; [|apply Z.eqb_refl].
      apply order_by_In. exact Hrow. }
    rewrite Hvisited. reflexivity.
  - intros g Hg Hid. apply order_by_In in Hg.
    exact (NoDup_map_injective goal_id _ g row Hkey Hg Hrow Hid).
Qed.

Lemma current_of_refresh d d' g :
  entries d' = entries d ->
  competencies d' = competencies d ->
  entry_competencies d' = entry_competencies d ->
  current_of d' (refresh d g) = current_of d g.
Proof.
  intros He Hc Hg. rewrite (current_of_live_data d d' _ He Hc Hg).
  destruct (String.eqb (goal_type g) "Добавить записи") eqn:Hcount;
    [|destruct (String.eqb (goal_type g) "Поднять компетенцию") eqn:Hraise];
    unfold refresh, refreshed, current_of; cbn; rewrite ?Hcount, ?Hraise;
    reflexivity.
Qed.

Lemma refresh_again d d' g :
  entries d' = entries d ->
  competencies d' = competencies d ->
  entry_competencies d' = entry_competencies d ->
  refresh d' (refresh d g) = refresh d g.
Proof.
  intros He Hc Hg. unfold refresh at 1. unfold refreshed.
  rewrite (current_of_refresh d d' g He Hc Hg). reflexivity.
Qed.

Lemma goal_block_refresh d d' g :
  entries d' = entries d ->
  competencies d' = competencies d ->
  entry_competencies d' = entry_competencies d ->
  goal_block d' (refresh d g) = goal_block d g.
Proof.
  intros He Hc Hg. unfold goal_block.
  rewrite (current_of_refresh d d' g He Hc Hg). reflexivity.
Qed.

Lemma insert_by_map {A : Type} (le : A -> A -> bool) (f : A -> A) x l :
  (forall x y, le (f x) (f y) = le x y) ->
  insert_by le (f x) (map f l) = map f (insert_by le x l).
Proof.
  intros Hle. induction l as [|y l IH]; cbn; [reflexivity|].
  rewrite Hle. destruct (le x y); cbn; [reflexivity | rewrite IH; reflexivity].
Qed.

Lemma order_by_map {A : Type} (le : A -> A -> bool) (f : A -> A) l :
  (forall x y, le (f x) (f y) = le x y) ->
  order_by le (map f l) = map f (order_by le l).
Proof.
  intros Hle. unfold order_by. induction l as [|x l IH]; cbn; [reflexivity|].
  rewrite IH. apply insert_by_map. exact Hle.
Qed.

(** X6. On an answering store with unique goal ids, refreshing twice is
    refreshing once: the second [update_goals] leaves every stored goal and
    the text of the goals pane as the first left them. *)
Theorem update_goals_twice (a : app) :
  NoDup (map goal_id (goals (db a))) ->
  let a1 := snd (update_goals reliable a) in
  let a2 := snd (update_goals reliable a1) in
  goals (db a2) = goals (db a1)
  /\ goals_text a2 = goals_text a1
  /\ map goal_id (goals (db a1)) = map goal_id (goals (db a)).
Proof.
  intros Hkey a1 a2. subst a2 a1.
  destruct (update_goals_run a Hkey)
    as (a1 & -> & Hgoals & He & Hc & Hg & _ & _ & _ & Htext).
  cbn [snd].
  assert (Hids : map goal_id (goals (db a1)) = map goal_id (goals (db a))).
  { rewrite Hgoals, map_map. reflexivity. }
  assert (Hkey1 : NoDup (map goal_id (goals (db a1)))) by (rewrite Hids; exact Hkey).
  destruct (update_goals_run a1 Hkey1)
    as (a2 & -> & Hgoals2 & _ & _ & _ & _ & _ & _ & Htext2).
  cbn [snd]. split; [|split; [|exact Hids]].
  - rewrite Hgoals2, Hgoals, map_map. apply map_ext.
    intros g. apply refresh_again; assumption.
  - rewrite Htext2, Htext. unfold goals_pane, select_goals.
    rewrite Hgoals, order_by_map by reflexivity.
    rewrite map_map.
    rewrite (map_ext _ (goal_block (db a)));
      [reflexivity | intros g; apply goal_block_refresh; assumption].
Qed.

(** ** Goals: a refresh over a failing store *)

Lemma contained_bind rejects a0 {A B : Type} (m : M A) (k : A -> M B) :
  contained rejects a0 m -> (forall x, contained rejects a0 (k x)) ->
  contained rejects a0 (bind m k).
Proof.
  intros Hm Hk a tr Hissued Hstable. unfold bind.
  destruct (Hm a tr Hissued Hstable) as [Hstable1 Hout].
  destruct (m a) as [[x|e] a1]; cbn in *.
  - destruct Hout as [tr1 Hissued1]. exact (Hk x a1 tr1 Hissued1 Hstable1).
  - split; assumption.
Qed.

Lemma contained_ret rejects a0 {A : Type} (x : A) : contained rejects a0 (ret x).
Proof. intros a tr Hissued Hstable. cbn. split; [assumption | eauto]. Qed.

Lemma contained_get rejects a0 {A : Type} (f : app -> A) : contained rejects a0 (get f).
Proof. intros a tr Hissued Hstable. cbn. split; [assumption | eauto]. Qed.

Lemma map_goal_static_update id f l :
  (forall g, goal_static (f g) = goal_static g) ->
  map goal_static (map (fun g => if goal_id g =? id then f g else g) l)
  = map goal_static l.
Proof.
  intros Hf. rewrite map_map. apply map_ext. intros g.
  destruct (goal_id g =? id); [apply Hf | reflexivity].
Qed.

Lemma contained_execute rejects a0 s :
  goal_statement s = true -> contained rejects a0 (execute rejects s).
Proof.
  intros Hs a tr Hissued Hstable. unfold execute.
  destruct (rejects (List.length (issued a)) s) as [msg|] eqn:Hrejects; cbn.
  - split; [exact Hstable|]. exists tr, s, msg.
    rewrite Hissued, app_assoc. rewrite Hissued in Hrejects. auto.
  - destruct Hstable as (He & Ha & Hu & Hc & Hg & Hgoals & Hd & Hp).
    destruct s; try discriminate Hs; cbn;
      (split; [unfold only_progress_changed; cbn; repeat split; auto
              | eexists; rewrite Hissued, <- app_assoc; reflexivity]).
    all: rewrite map_goal_static_update; auto.
Qed.

Lemma contained_query rejects a0 {A : Type} s (result : database -> A) :
  goal_statement s = true -> contained rejects a0 (query rejects s result).
Proof.
  intros Hs. unfold query. apply contained_bind.
  - apply contained_execute. exact Hs.
  - intros _. apply contained_get.
Qed.

Lemma contained_recompute_current rejects a0 g :
  contained rejects a0 (recompute_current rejects g).
Proof.
  unfold recompute_current.
  repeat split_match;
    repeat first
      [ apply contained_ret
      | apply contained_query; reflexivity
      | apply contained_bind; [|intro] ].
Qed.

Lemma contained_refresh_goals rejects a0 gs :
  forall text, contained rejects a0 (refresh_goals rejects gs text).
Proof.
  induction gs as [|g gs IH]; intros text; cbn [refresh_goals].
  - apply contained_ret.
  - apply contained_bind; [apply contained_recompute_current | intros current].
    apply contained_bind; [apply contained_execute; reflexivity | intros _].
    apply contained_bind; [| intros status; apply IH].
    destruct (reaches current (goal_target g));
      (apply contained_bind;
       [apply contained_execute; reflexivity | intros _; apply contained_ret]).
Qed.

Lemma bind_assoc {A B C : Type} (m : M A) (f : A -> M B) (g : B -> M C) a :
  bind m (fun x => bind (f x) g) a = bind (bind m f) g a.
Proof.
  unfold bind. destruct (m a) as [[x|e] a1]; reflexivity.
Qed.

(** X7. Whatever the store does, [update_goals] returns.  It changes nothing
    but the trace, the goals pane and the current value and completion flag
    of goals; either it ends with an accepted commit, or the store rejected
    the last statement sent and the goals pane shows that error. *)
Theorem update_goals_contains_failures (rejects : oracle) (a : app) :
  let r := update_goals rejects a in
  fst r = Returned tt
  /\ only_progress_changed a (snd r)
  /\ ((exists tr,
         new_statements a (snd r) = tr ++ [Commit]
         /\ rejects (List.length (issued a ++ tr)) Commit = None)
      \/ (exists tr s msg,
            new_statements a (snd r) = tr ++ [s]
            /\ rejects (List.length (issued a ++ tr)) s = Some msg
            /\ goals_text (snd r)
               = ("Ошибка при обновлении целей: " ++ msg)%string)).
Proof.
  assert (Hstart : only_progress_changed a a) by (unfold only_progress_changed; tauto).
  set (loop := bind (query rejects SelectGoals select_goals)
                 (fun gs => refresh_goals rejects gs ""%string)).
  pose proof (contained_bind rejects a _ _
                (contained_query rejects a SelectGoals select_goals eq_refl)
                (fun gs => contained_refresh_goals rejects a gs ""%string)
                a [] (eq_sym (app_nil_r _)) Hstart) as Hloop.
  fold loop in Hloop.
  cbv zeta. unfold update_goals, try_except.
  rewrite bind_assoc. fold loop.
  destruct (loop a) as [[text|e] a1] eqn:Hrun; cbn [fst snd] in Hloop.
  - destruct Hloop as [Hstable [tr Hissued]].
    rewrite (bind_returned _ _ _ _ _ Hrun).
    unfold bind, execute.
    destruct (rejects (List.length (issued a1)) Commit) as [msg|] eqn:Hcommit; cbn.
    + split; [reflexivity|]. split; [exact Hstable|]. right.
      exists tr, Commit, msg. rewrite Hissued in Hcommit.
      split; [|auto]. apply new_statements_app. cbn. rewrite Hissued, app_assoc.
      reflexivity.
    + split; [reflexivity|]. split; [exact Hstable|]. left.
      exists tr. rewrite Hissued in Hcommit. split; [|exact Hcommit].
      apply new_statements_app. cbn. rewrite Hissued, app_assoc. reflexivity.
  - destruct Hloop as [Hstable (tr & s & msg & Hissued & Hrejects & ->)].
    rewrite (bind_raised _ _ _ _ _ Hrun). cbn.
    split; [reflexivity|]. split; [exact Hstable|]. right.
    exists tr, s, msg. split; [|auto]. apply new_statements_app. exact Hissued.
Qed.

(** ** Competency levels and advice *)

Lemma round_half_even_lower (x : Q) (n : Z) :
  (inject_Z n <= x)%Q -> n <= round_half_even x.
Proof.
  intros H. apply Qfloor_resp_le in H. rewrite Qfloor_Z in H.
  unfold round_half_even.
  destruct (Qcompare _ _); [destruct (Z.even _)| |]; lia.
Qed.

Lemma round_half_even_upper (x : Q) (m : Z) :
  (x <= inject_Z m)%Q -> round_half_even x <= m.
Proof.
  intros H.
  assert (Hfloor : Qfloor x <= m).
  { apply Qfloor_resp_le in H. rewrite Qfloor_Z in H. exact H. }
  destruct (Z.eq_dec (Qfloor x) m) as [Heq | Hne].
  - assert (Hx : (x == inject_Z m)%Q).
    { apply Qle_antisym; [exact H|]. rewrite <- Heq. apply Qfloor_le. }
    unfold round_half_even.
    destruct (Qcompare (x - inject_Z (Qfloor x)) (1 # 2)) eqn:Hcmp.
    + apply Qeq_alt in Hcmp. rewrite Heq, Hx in Hcmp.
      unfold Qeq in Hcmp. cbn in Hcmp. lia.
    + lia.
    + apply Qgt_alt in Hcmp. rewrite Heq, Hx in Hcmp.
      unfold Qlt in Hcmp. cbn in Hcmp. lia.
  - unfold round_half_even.
    destruct (Qcompare _ _); [destruct (Z.even _)| |]; lia.
Qed.

(** Powers of two. *)
Lemma pow2_nonneg_exp t : 0 <= t -> pow2 t = inject_Z (2 ^ t).
Proof. intros H. unfold pow2. destruct (0 <=? t) eqn:E; [reflexivity | lia]. Qed.

Lemma pow2_neg_exp t : t < 0 -> pow2 t = Qmake 1 (Z.to_pos (2 ^ (- t))).
Proof. intros H. unfold pow2. destruct (0 <=? t) eqn:E; [lia | reflexivity]. Qed.

Lemma pow2_pos t : (0 < pow2 t)%Q.
Proof.
  unfold pow2. destruct (0 <=? t) eqn:E.
  - apply Z.leb_le in E. unfold Qlt. cbn. pose proof (Z.pow_pos_nonneg 2 t). lia.
  - reflexivity.
Qed.

(** Scaling by a power of two with an exponent that is not positive. *)
Lemma scale_down (a : Q) (t : Z) :
  t <= 0 -> (a / pow2 t == a * inject_Z (2 ^ (- t)))%Q.
Proof.
  intros Ht. destruct (Z.eq_dec t 0) as [-> | Hne].
  - cbn. unfold Qdiv. reflexivity.
  - rewrite pow2_neg_exp by lia. unfold Qdiv.
    assert (Hp : 0 < 2 ^ (- t)) by (apply Z.pow_pos_nonneg; lia).
    destruct (2 ^ (- t)) as [|k|k] eqn:Hk; try lia.
    reflexivity.
Qed.

Lemma unscale_down (m : Z) (t : Z) :
  t <= 0 -> (inject_Z m * pow2 t == Qmake m (Z.to_pos (2 ^ (- t))))%Q.
Proof.
  intros Ht. destruct (Z.eq_dec t 0) as [-> | Hne].
  - cbn. unfold Qeq. cbn. lia.
  - rewrite pow2_neg_exp by lia. unfold Qeq, Qmult. cbn. lia.
Qed.

Lemma ilog2_small (a : Q) (n : Z) :
  0 <= n < 2 ^ 53 -> (0 <= a)%Q -> (a <= inject_Z n)%Q -> ilog2 a <= 52.
Proof.
  intros Hn Ha Hle. unfold ilog2.
  set (e0 := Z.log2 (Qnum a) - Z.log2 (Z.pos (Qden a))).
  destruct (Qle_bool (pow2 e0) a) eqn:Htest.
  - apply Qle_bool_iff in Htest.
    destruct (Z_le_gt_dec e0 52) as [|Hbig]; [assumption|]. exfalso.
    rewrite pow2_nonneg_exp in Htest by lia.
    assert (Hpow : 2 ^ 53 <= 2 ^ e0) by (apply Z.pow_le_mono_r; lia).
    assert (Hc : (inject_Z (2 ^ e0) <= inject_Z n)%Q) by (eapply Qle_trans; eassumption).
    rewrite <- Zle_Qle in Hc. lia.
  - destruct a as [p q]. cbn [Qnum Qden] in *. unfold Qle in Ha, Hle. cbn in Ha, Hle.
    destruct (Z.eq_dec p 0) as [-> | Hp].
    + pose proof (Z.log2_nonneg (Z.pos q)). change (Z.log2 0) with 0 in e0. lia.
    + assert (Hlp : 2 ^ Z.log2 p <= p) by (apply Z.log2_spec; lia).
      assert (Hlq : Z.pos q < 2 ^ Z.succ (Z.log2 (Z.pos q))) by (apply Z.log2_spec; lia).
      assert (H0q : 0 <= Z.log2 (Z.pos q)) by apply Z.log2_nonneg.
      assert (H0p : 0 <= Z.log2 p) by apply Z.log2_nonneg.
      assert (Hlt : 2 ^ Z.log2 p < 2 ^ (53 + Z.succ (Z.log2 (Z.pos q)))).
      { rewrite Z.pow_add_r by lia. nia. }
      apply Z.pow_lt_mono_r_iff in Hlt; lia.
Qed.

Lemma ilog2_large (a : Q) :
  53 <= ilog2 a -> (pow2 (ilog2 a) <= a)%Q.
Proof.
  unfold ilog2.
  set (e0 := Z.log2 (Qnum a) - Z.log2 (Z.pos (Qden a))).
  destruct (Qle_bool (pow2 e0) a) eqn:Htest.
  - intros _. apply Qle_bool_iff. exact Htest.
  - intros Hbig. rewrite pow2_nonneg_exp by lia.
    destruct a as [p q]. cbn [Qnum Qden] in *.
    assert (H0q : 0 <= Z.log2 (Z.pos q)) by apply Z.log2_nonneg.
    assert (Hppos : 0 < p).
    { destruct (Z_lt_le_dec 0 p) as [|Hle]; [assumption|].
      pose proof (Z.log2_nonpos p Hle). subst e0. lia. }
    assert (Hlp : 2 ^ Z.log2 p <= p) by (apply Z.log2_spec; lia).
    assert (Hlq : Z.pos q < 2 ^ Z.succ (Z.log2 (Z.pos q))) by (apply Z.log2_spec; lia).
    unfold Qle. cbn.
    assert (Hsplit : 2 ^ Z.log2 p = 2 ^ (e0 - 1) * 2 ^ Z.succ (Z.log2 (Z.pos q))).
    { rewrite <- Z.pow_add_r by lia. f_equal. subst e0. lia. }
    assert (Hpw : 0 < 2 ^ (e0 - 1)) by (apply Z.pow_pos_nonneg; lia).
    nia.
Qed.

Lemma Qabs_nonneg_eq (x : Q) : (0 <= x)%Q -> Qabs x = x.
Proof.
  destruct x as [p q]. unfold Qle. cbn. intros H. unfold Qabs.
  rewrite Z.abs_eq by lia. reflexivity.
Qed.

Lemma float_candidate_nonneg (a : Q) (t : Z) :
  (0 <= a)%Q -> (0 <= inject_Z (round_half_even (a / pow2 t)) * pow2 t)%Q.
Proof.
  intros Ha. apply Qmult_le_0_compat; [|apply Qlt_le_weak, pow2_pos].
  change 0%Q with (inject_Z 0). rewrite <- Zle_Qle.
  apply (round_half_even_lower _ 0).
  apply Qle_shift_div_l; [apply pow2_pos|]. rewrite Qmult_0_l. exact Ha.
Qed.

Lemma float_upper (x : Q) (n : Z) :
  0 <= n < 2 ^ 53 -> (x <= inject_Z n)%Q -> (float x <= inject_Z n)%Q.
Proof.
  intros Hn Hx. unfold float, signed, nearest_multiple, last_bit.
  set (a := Qabs x). set (t := Z.max (ilog2 a - 52) (-1074)).
  set (y := (inject_Z (round_half_even (a / pow2 t)) * pow2 t)%Q).
  assert (Hy : (0 <= y)%Q) by (apply float_candidate_nonneg, Qabs_nonneg).
  assert (Hn0 : (0 <= inject_Z n)%Q) by (change 0%Q with (inject_Z 0); rewrite <- Zle_Qle; lia).
  destruct (Qeq_bool y a); [exact Hx|].
  destruct (Qle_bool 0 x) eqn:Hsign.
  - apply Qle_bool_iff in Hsign.
    assert (Ha : a = x) by (apply Qabs_nonneg_eq; exact Hsign).
    assert (Ht : t <= 0).
    { pose proof (ilog2_small a n Hn) as H. rewrite Ha in H. specialize (H Hsign Hx).
      subst t. rewrite Ha. lia. }
    unfold y. rewrite (unscale_down _ t Ht).
    assert (Hm : round_half_even (a / pow2 t) <= n * 2 ^ (- t)).
    { apply round_half_even_upper. rewrite (scale_down a t Ht), inject_Z_mult.
      apply Qmult_le_compat_r; [rewrite Ha; exact Hx|].
      change 0%Q with (inject_Z 0). rewrite <- Zle_Qle. apply Z.pow_nonneg. lia. }
    assert (Hp : 0 < 2 ^ (- t)) by (apply Z.pow_pos_nonneg; lia).
    unfold Qle. cbn. rewrite Z2Pos.id by exact Hp. lia.
  - apply (Qle_trans _ 0); [|exact Hn0].
    apply (Qopp_le_compat 0) in Hy. exact Hy.
Qed.

Lemma float_lower (x : Q) (n : Z) :
  0 <= n < 2 ^ 53 -> (inject_Z n <= x)%Q -> (inject_Z n <= float x)%Q.
Proof.
  intros Hn Hx. unfold float, signed, nearest_multiple, last_bit.
  set (a := Qabs x). set (t := Z.max (ilog2 a - 52) (-1074)).
  set (y := (inject_Z (round_half_even (a / pow2 t)) * pow2 t)%Q).
  assert (Hn0 : (0 <= inject_Z n)%Q) by (change 0%Q with (inject_Z 0); rewrite <- Zle_Qle; lia).
  assert (Hx0 : (0 <= x)%Q) by (eapply Qle_trans; eassumption).
  destruct (Qeq_bool y a); [exact Hx|].
  assert (Hsign : Qle_bool 0 x = true) by (apply Qle_bool_iff; exact Hx0).
  rewrite Hsign.
  assert (Ha : a = x) by (apply Qabs_nonneg_eq; exact Hx0).
  destruct (Z_le_gt_dec t 0) as [Ht | Ht].
  - unfold y. rewrite (unscale_down _ t Ht).
    assert (Hm : n * 2 ^ (- t) <= round_half_even (a / pow2 t)).
    { apply round_half_even_lower. rewrite (scale_down a t Ht), inject_Z_mult.
      apply Qmult_le_compat_r; [rewrite Ha; exact Hx|].
      change 0%Q with (inject_Z 0). rewrite <- Zle_Qle. apply Z.pow_nonneg. lia. }
    assert (Hp : 0 < 2 ^ (- t)) by (apply Z.pow_pos_nonneg; lia).
    unfold Qle. cbn. rewrite Z2Pos.id by exact Hp. lia.
  - assert (He : 53 <= ilog2 a) by (subst t; lia).
    assert (Hte : t = ilog2 a - 52) by (subst t; lia).
    pose proof (ilog2_large a He) as Hpow.
    rewrite pow2_nonneg_exp in Hpow by lia.
    assert (Hm : 2 ^ 52 <= round_half_even (a / pow2 t)).
    { apply round_half_even_lower.
      apply Qle_shift_div_l; [apply pow2_pos|].
      rewrite pow2_nonneg_exp by lia. rewrite <- inject_Z_mult, <- Z.pow_add_r by lia.
      replace (52 + t) with (ilog2 a) by lia. exact Hpow. }
    unfold y. set (m := round_half_even (a / pow2 t)) in *.
    rewrite pow2_nonneg_exp by lia. rewrite <- inject_Z_mult, <- Zle_Qle.
    assert (Hpt : 2 ^ 1 <= 2 ^ t) by (apply Z.pow_le_mono_r; lia).
    change (2 ^ 1) with 2 in Hpt.
    assert (H52 : 0 < 2 ^ 52) by reflexivity.
    assert (n < 2 ^ 52 * 2) by (change (2 ^ 52 * 2) with (2 ^ 53); lia).
    nia.
Qed.

Lemma tenths_lower (x : Q) (n : Z) : (inject_Z n <= x)%Q -> n * 10 <= tenths x.
Proof.
  intros Hn. unfold tenths. apply round_half_even_lower.
  unfold Qle in *. destruct x as [num den]. cbn in *. lia.
Qed.

Lemma tenths_upper (x : Q) (m : Z) : (x <= inject_Z m)%Q -> tenths x <= m * 10.
Proof.
  intros Hm. unfold tenths. apply round_half_even_upper.
  unfold Qle in *. destruct x as [num den]. cbn in *. lia.
Qed.

Lemma round1_lower (x : Q) (n : Z) :
  0 <= n < 2 ^ 53 -> (inject_Z n <= x)%Q -> (inject_Z n <= round1 x)%Q.
Proof.
  intros Hn Hx. unfold round1. apply float_lower; [exact Hn|].
  apply tenths_lower in Hx. unfold Qle. cbn. lia.
Qed.

Lemma round1_upper (x : Q) (m : Z) :
  0 <= m < 2 ^ 53 -> (x <= inject_Z m)%Q -> (round1 x <= inject_Z m)%Q.
Proof.
  intros Hm Hx. unfold round1. apply float_upper; [exact Hm|].
  apply tenths_upper in Hx. unfold Qle. cbn. lia.
Qed.

Lemma sum_of_levels_bounds (levels : list Z) :
  Forall (fun x => 1 <= x <= 5) levels ->
  Z.of_nat (List.length levels) <= fold_right Z.add 0 levels
  <= 5 * Z.of_nat (List.length levels).
Proof.
  induction 1 as [|x l Hx _ IH]; cbn [List.length fold_right]; lia.
Qed.

Lemma avg_bounds (levels : list Z) :
  Forall (fun x => 1 <= x <= 5) levels ->
  match avg levels with
  | None => levels = []
  | Some q => (1 <= q)%Q /\ (q <= 5)%Q
  end.
Proof.
  intros Hall. pose proof (sum_of_levels_bounds levels Hall) as Hsum.
  destruct levels as [|x l]; [reflexivity|]. cbn [avg].
  set (n := List.length (x :: l)) in *.
  assert (Hpos : Z.pos (Pos.of_nat n) = Z.of_nat n).
  { rewrite <- positive_nat_Z, Nat2Pos.id; [reflexivity | discriminate]. }
  unfold Qle. cbn [Qnum Qden]. rewrite Hpos. lia.
Qed.

(** X8. When every stored grade is between 1 and 5, as the check constraint
    of [entry_competencies] demands, each row of the aggregation either has
    no mean and the displayed level 0, or a mean between 1 and 5, whose
    float is between 1 and 5 and whose displayed level, that float rounded
    to one decimal, is between 1 and 5 as well. *)
Theorem competency_levels_bounded (d : database) (r : level_row) :
  Forall (fun g => 1 <= ec_level g <= 5) (entry_competencies d) ->
  In r (select_competency_levels d) ->
  (row_avg r = None /\ displayed_level r = Qmake 0 10)
  \/ (exists q,
        row_avg r = Some q
        /\ (1 <= q)%Q /\ (q <= 5)%Q
        /\ (1 <= float_or_0 (row_avg r))%Q /\ (float_or_0 (row_avg r) <= 5)%Q
        /\ (1 <= displayed_level r)%Q /\ (displayed_level r <= 5)%Q).
Proof.
  intros Hcheck Hr. unfold select_competency_levels in Hr.
  apply order_by_In, in_map_iff in Hr as (c & <- & _).
  unfold displayed_level. cbn [row_avg].
  assert (Hlevels : Forall (fun x => 1 <= x <= 5) (levels_of d c)).
  { unfold levels_of. apply Forall_map.
    apply Forall_forall. intros g Hg. apply filter_In in Hg as [Hg _].
    rewrite Forall_forall in Hcheck. exact (Hcheck g Hg). }
  pose proof (avg_bounds _ Hlevels) as Havg.
  destruct (avg (levels_of d c)) as [q|]; [right | left; split; reflexivity].
  destruct Havg as [Hlow Hhigh]. exists q. cbn [float_or_0].
  assert (H1 : 0 <= 1 < 2 ^ 53) by (split; [lia | reflexivity]).
  assert (H5 : 0 <= 5 < 2 ^ 53) by (split; [lia | reflexivity]).
  assert (Hflow : (1 <= float q)%Q) by (apply (float_lower q 1 H1); exact Hlow).
  assert (Hfhigh : (float q <= 5)%Q) by (apply (float_upper q 5 H5); exact Hhigh).
  repeat split; auto.
  - apply (round1_lower (float q) 1 H1). exact Hflow.
  - apply (round1_upper (float q) 5 H5). exact Hfhigh.
Qed.

Lemma update_competencies_panes a :
  self_competencies a <> [] ->
  let comp_data := select_competency_levels (db a) in
  let done := update_competencies reliable a in
  fst done = Returned tt
  /\ competencies_text (snd done) = levels_text comp_data
  /\ recommendations_text (snd done)
     = ("Персонализированные рекомендации:" ++ nl ++ nl
          ++ numbered 1 (recommendations comp_data))%string.
Proof.
  intros Hloaded. unfold update_competencies, generate_recommendations.
  unfold_actions. cbv beta.
  destruct (self_competencies a) as [|c l]; [contradiction|].
  cbn. repeat split.
Qed.

Lemma concat_lines_cons (line : string) (lines : list string) :
  String.concat "" (line :: lines) = (line ++ String.concat "" lines)%string.
Proof.
  destruct lines as [|next lines]; cbn; [|reflexivity].
  symmetry. apply string_app_nil_r.
Qed.

Lemma concat_lines_In {A : Type} (f : A -> string) (z : A) (l : list A) :
  In z l ->
  exists above below,
    String.concat "" (map f l) = (above ++ f z ++ below)%string.
Proof.
  induction l as [|y l IH]; [contradiction|].
  intros [-> | Hin]; cbn [map]; rewrite concat_lines_cons.
  - exists ""%string, (String.concat "" (map f l)). reflexivity.
  - destruct (IH Hin) as (above & below & ->).
    exists (f y ++ above)%string, below. symmetry. apply string_app_assoc.
Qed.

Lemma flat_map_In_split {A B : Type} (f : A -> list B) (x : A) (y : B) (l : list A) :
  In x l -> f x = [y] ->
  exists before after, flat_map f l = before ++ y :: after.
Proof.
  intros Hin Hone. apply in_split in Hin as (l1 & l2 & ->).
  rewrite flat_map_app. cbn [flat_map]. rewrite Hone.
  exists (flat_map f l1), (flat_map f l2). reflexivity.
Qed.

Lemma weak_zone_line (comp_data : list level_row) (z : string * Q) :
  In z (weak_zones comp_data) ->
  exists between below,
    levels_text comp_data
    = (("Средний уровень по компетенциям:" ++ nl ++ nl
          ++ String.concat "" (map level_line comp_data))
         ++ nl ++ "Слабые зоны (уровень < 3):" ++ nl
         ++ between ++ weak_line z ++ below)%string.
Proof.
  intros Hweak. unfold levels_text.
  destruct (concat_lines_In weak_line _ _ Hweak) as (between & below & Hlines).
  exists between, below.
  destruct (weak_zones comp_data) as [|z' zones]; [contradiction|].
  rewrite Hlines. reflexivity.
Qed.

Lemma weak_zone_shown (comp_data : list level_row) (r : level_row) :
  In (row_name r, displayed_level r) (weak_zones comp_data) ->
  (0 < displayed_level r)%Q /\ (displayed_level r < 3)%Q.
Proof.
  intros Hweak.
  unfold weak_zones in Hweak. apply in_map_iff in Hweak as (r' & Hsame & Hr').
  apply filter_In in Hr' as [_ Hr'].
  apply (f_equal snd) in Hsame. cbn [snd] in Hsame. rewrite <- Hsame.
  unfold is_weak in Hr'. apply andb_true_iff in Hr' as [H3 H0].
  apply Qlt_bool_iff in H3, H0. auto.
Qed.

Lemma weak_level_bounds (level : Q) :
  (0 < round1 level)%Q -> (round1 level < 3)%Q ->
  (0 < level)%Q /\ (level < 3)%Q.
Proof.
  intros H0 H3.
  assert (R0 : 0 <= 0 < 2 ^ 53) by (split; [lia | reflexivity]).
  assert (R3 : 0 <= 3 < 2 ^ 53) by (split; [lia | reflexivity]).
  split; apply Qnot_le_lt; intros Hle.
  - pose proof (round1_upper level 0 R0 Hle) as Hup.
    exact (Qlt_not_le _ _ H0 Hup).
  - pose proof (round1_lower level 3 R3 Hle) as Hdown.
    exact (Qlt_not_le _ _ H3 Hdown).
Qed.

Lemma one_message_below_three (r : level_row) :
  (0 < float_or_0 (row_avg r))%Q -> (float_or_0 (row_avg r) < 3)%Q ->
  exists message, recommendation r = [message].
Proof.
  intros Hpos Hlow. unfold recommendation.
  set (level := float_or_0 (row_avg r)) in *. clearbody level.
  destruct level as [num den].
  repeat split_match; try (eexists; reflexivity); exfalso; q_order.
Qed.

(** X9. Every competency that [update_competencies] lists as a weak zone
    gets advice in the same run.  With competencies loaded and the
    aggregate query answered, the method returns; the competencies pane
    holds the heading of the weak zones and, under it, the line of the
    competency; the float of its mean, which [generate_recommendations]
    tests, is strictly between 0 and 3; and the recommendations pane holds
    the one message of [generate_recommendations] for it in its numbered
    list. *)
Theorem weak_zone_gets_advice (a : app) (r : level_row) :
  self_competencies a <> [] ->
  In r (select_competency_levels (db a)) ->
  In (row_name r, displayed_level r)
     (weak_zones (select_competency_levels (db a))) ->
  let done := update_competencies reliable a in
  fst done = Returned tt
  /\ (exists between below,
        competencies_text (snd done)
        = (("Средний уровень по компетенциям:" ++ nl ++ nl
              ++ String.concat "" (map level_line (select_competency_levels (db a))))
             ++ nl ++ "Слабые зоны (уровень < 3):" ++ nl
             ++ between ++ weak_line (row_name r, displayed_level r) ++ below)%string)
  /\ (0 < float_or_0 (row_avg r))%Q
  /\ (float_or_0 (row_avg r) < 3)%Q
  /\ exists message before after,
       recommendation r = [message]
       /\ recommendations_text (snd done)
          = ("Персонализированные рекомендации:" ++ nl ++ nl
               ++ numbered 1 (before ++ message :: after))%string.
Proof.
  intros Hloaded Hr Hweak.
  destruct (update_competencies_panes a Hloaded) as (Hret & Hpane & Hadvice).
  intros done. subst done.
  split; [exact Hret|]. split.
  { rewrite Hpane. exact (weak_zone_line _ _ Hweak). }
  destruct (weak_zone_shown _ _ Hweak) as [H0 H3].
  destruct (weak_level_bounds _ H0 H3) as [Hpos Hlow].
  split; [exact Hpos|]. split; [exact Hlow|].
  destruct (one_message_below_three r Hpos Hlow) as [message Hone].
  destruct (flat_map_In_split recommendation r message _ Hr Hone)
    as (before & after & Hsplit).
  exists message, before, after. split; [exact Hone|].
  rewrite Hadvice. unfold recommendations. rewrite Hsplit.
  destruct before; reflexivity.
Qed.


(** ** The order of the aggregation *)

Lemma insert_by_permutation {A : Type} (le : A -> A -> bool) x l :
  Permutation (insert_by le x l) (x :: l).
Proof.
  induction l as [|y l IH]; cbn; [reflexivity|].
  destruct (le x y); [reflexivity|].
  rewrite IH. apply perm_swap.
Qed.

Lemma order_by_permutation {A : Type} (le : A -> A -> bool) l :
  Permutation (order_by le l) l.
Proof.
  unfold order_by. induction l as [|x l IH]; cbn; [reflexivity|].
  rewrite insert_by_permutation. constructor. exact IH.
Qed.

Lemma insert_by_sorted {A : Type} (le : A -> A -> bool) x l :
  (forall y z, le y z = false -> le z y = true) ->
  Sorted (fun y z => le y z = true) l ->
  Sorted (fun y z => le y z = true) (insert_by le x l).
Proof.
  intros Htotal. induction 1 as [|y l Hl IH Hhd]; cbn.
  - repeat constructor.
  - destruct (le x y) eqn:Hxy.
    + constructor; [constructor; assumption | constructor; assumption].
    + constructor; [exact IH|].
      destruct l as [|z l]; cbn.
      * constructor. apply Htotal. exact Hxy.
      * destruct (le x z); constructor; [apply Htotal; exact Hxy|].
        inversion Hhd; assumption.
Qed.

Lemma order_by_sorted {A : Type} (le : A -> A -> bool) l :
  (forall y z, le y z = false -> le z y = true) ->
  Sorted (fun y z => le y z = true) (order_by le l).
Proof.
  intros Htotal. unfold order_by. induction l as [|x l IH]; cbn.
  - constructor.
  - apply insert_by_sorted; assumption.
Qed.

Lemma category_name_le_total r1 r2 :
  category_name_le r1 r2 = false -> category_name_le r2 r1 = true.
Proof.
  unfold category_name_le.
  rewrite (String.compare_antisym (row_category r2) (row_category r1)).
  destruct (String.compare (row_category r1) (row_category r2)); cbn;
    [|discriminate|reflexivity].
  intros Hle. destruct (String.leb_total (row_name r1) (row_name r2)); congruence.
Qed.

Lemma Sorted_weaken {A : Type} (R R' : A -> A -> Prop) l :
  (forall x y, R x y -> R' x y) -> Sorted R l -> Sorted R' l.
Proof.
  intros Hweaker. induction 1 as [|x l Hl IH Hhd]; constructor; [exact IH|].
  destruct Hhd; constructor. auto.
Qed.

(** X10. The aggregation has exactly one row per competency of the table,
    carrying its id, name, category and the mean of its own grades, and the
    rows come ordered by category and then by name. *)
Theorem competency_levels_ordered (d : database) :
  Permutation (select_competency_levels d)
    (map (fun c => mkLevelRow (competency_id c) (competency_name c)
                     (competency_category c) (avg (levels_of d c)))
       (competencies d))
  /\ Sorted category_then_name (select_competency_levels d).
Proof.
  split; [apply order_by_permutation|].
  unfold select_competency_levels.
  apply (Sorted_weaken (fun r1 r2 => category_name_le r1 r2 = true)).
  - intros r1 r2. unfold category_name_le, category_then_name.
    destruct (String.compare (row_category r1) (row_category r2)) eqn:Hcmp;
      cbv iota; [|auto|discriminate].
    apply String.compare_eq_iff in Hcmp. auto.
  - apply order_by_sorted. exact category_name_le_total.
Qed.

(** ** The competency pane over a failing store *)

(** X11. Whatever the store does, [update_competencies] returns and changes
    no table and no message box.  With nothing loaded in memory it sends
    nothing, shows the prompt and clears the advice; otherwise a rejected
    query puts the error in the levels pane and leaves the advice as it
    was, and an answered one fills both panes from the aggregation. *)
Theorem update_competencies_contains_failures (rejects : oracle) (a : app) :
  let r := update_competencies rejects a in
  fst r = Returned tt
  /\ db (snd r) = db a
  /\ dialogs (snd r) = dialogs a
  /\ (self_competencies a = [] ->
      issued (snd r) = issued a
      /\ competencies_text (snd r)
         = "Сначала загрузите компетенции для специальности"%string
      /\ recommendations_text (snd r) = ""%string)
  /\ (self_competencies a <> [] ->
      issued (snd r) = issued a ++ [SelectCompetencyLevels]
      /\ match rejects (List.length (issued a)) SelectCompetencyLevels with
         | Some msg =>
             competencies_text (snd r)
             = ("Ошибка при загрузке компетенций: " ++ msg)%string
             /\ recommendations_text (snd r) = recommendations_text a
         | None =>
             competencies_text (snd r) = levels_text (select_competency_levels (db a))
             /\ recommendations_text (snd r)
                = ("Персонализированные рекомендации:" ++ nl ++ nl
                     ++ numbered 1 (recommendations (select_competency_levels (db a))))%string
         end).
Proof.
  cbv zeta. unfold update_competencies, generate_recommendations. unfold_actions.
  cbv beta.
  destruct (self_competencies a) as [|c l] eqn:Hloaded.
  - cbn. split; [reflexivity|]. split; [reflexivity|]. split; [reflexivity|].
    split; [auto | intros H; contradiction].
  - destruct (rejects (List.length (issued a)) SelectCompetencyLevels); cbn;
      (split; [reflexivity|]); (split; [reflexivity|]); (split; [reflexivity|]);
      (split; [discriminate | auto]).
Qed.

(** ** Reloading a profile: what the form then offers *)

Lemma insert_competencies_ids comps :
  forall a,
  exists a' news,
    for_each comps
      (fun comp =>
         comp_id <- query reliable (InsertCompetency (fst comp) (snd comp))
                      competencies_id_seq ;;
         modify (fun a =>
                   set_profile (current_specialty a)
                     (self_competencies a
                        ++ [mkCompetency comp_id (fst comp) (snd comp)]) a)) a
    = (Returned tt, a')
    /\ competencies (db a') = competencies (db a) ++ news
    /\ self_competencies a' = self_competencies a ++ news
    /\ current_specialty a' = current_specialty a
    /\ map name_and_category news = comps
    /\ map competency_id news
       = map (fun i => competencies_id_seq (db a) + 1 + Z.of_nat i)
           (seq 0 (List.length comps))
    /\ competencies_id_seq (db a')
       = competencies_id_seq (db a) + Z.of_nat (List.length comps).
Proof.
  induction comps as [|[name category] comps IH]; intros a.
  - exists a, []. cbn. rewrite !app_nil_r. repeat split; auto. lia.
  - cbn [for_each].
    set (a1 := set_profile (current_specialty a)
                 (self_competencies a
                    ++ [mkCompetency (competencies_id_seq (db a) + 1) name category])
                 (set_db
                    (set_competencies
                       (competencies (db a)
                          ++ [mkCompetency (competencies_id_seq (db a) + 1) name category])
                       (competencies_id_seq (db a) + 1)
                       (entry_competencies (db a)) (db a))
                    (set_issued (issued a ++ [InsertCompetency name category]) a))).
    destruct (IH a1) as (a' & news & Hrun & Hcomps & Hself & Hspec & Hnames & Hids & Hseq).
    exists a', (mkCompetency (competencies_id_seq (db a) + 1) name category :: news).
    split.
    { unfold bind at 1. cbn. exact Hrun. }
    cbn in Hcomps, Hself, Hspec, Hids, Hseq.
    rewrite <- app_assoc in Hcomps, Hself.
    repeat split; auto.
    + cbn. rewrite Hnames. reflexivity.
    + cbn [map List.length seq competency_id]. f_equal; [cbn; lia|].
      rewrite Hids, <- seq_shift, map_map. apply map_ext. intros i. lia.
    + rewrite Hseq. cbn [List.length]. lia.
Qed.

Lemma update_competencies_keeps_profile rejects a :
  current_specialty (snd (update_competencies rejects a)) = current_specialty a
  /\ self_competencies (snd (update_competencies rejects a)) = self_competencies a.
Proof.
  unfold update_competencies, generate_recommendations.
  unfold try_except, query, bind, execute, get, modify. cbv beta.
  destruct (self_competencies a) eqn:Hloaded; [cbn; auto|].
  destruct (rejects (List.length (issued a)) SelectCompetencyLevels); cbn; auto.
Qed.

(** X12. After a reload of a known profile over an answering store, the
    in-memory list [self.competencies] is the [competencies] table row for
    row, so every competency the entry form offers exists in the table;
    the rows carry the profile's names and categories in order, with fresh
    consecutive ids. *)
Theorem load_competencies_mirrors_table
  (a : app) (specialty : string) (comps : list (string * string)) :
  profile specialty a = Some comps ->
  specialty <> ""%string ->
  let a' := snd (load_competencies reliable specialty a) in
  current_specialty a' = Some specialty
  /\ self_competencies a' = competencies (db a')
  /\ map name_and_category (competencies (db a')) = comps
  /\ map competency_id (competencies (db a'))
     = map (fun i => competencies_id_seq (db a) + 1 + Z.of_nat i)
         (seq 0 (List.length comps))
  /\ competencies_id_seq (db a')
     = competencies_id_seq (db a) + Z.of_nat (List.length comps).
Proof.
  intros Hprofile Hnonempty a'. subst a'.
  apply String.eqb_neq in Hnonempty.
  set (a0 := set_profile (Some specialty) [] a).
  set (a1 := set_db
               (set_competencies [] (competencies_id_seq (db a))
                  (filter (fun g => negb (references_competency (db a) g))
                     (entry_competencies (db a)))
                  (db a))
               (set_issued (issued a ++ [DeleteCompetencies]) a0)).
  destruct (insert_competencies_ids comps a1)
    as (a2 & news & Hloop & Hcomps & Hself & Hspec & Hnames & Hids & Hseq).
  cbn in Hcomps, Hself, Hspec, Hids, Hseq.
  set (a3 := set_db (db a2) (set_issued (issued a2 ++ [Commit]) a2)).
  destruct (update_competencies_run a3) as (a4 & Hupdate & Hdb & _).
  pose proof (update_competencies_keeps_profile reliable a3) as [Hspec4 Hself4].
  rewrite Hupdate in Hspec4, Hself4. cbn in Hdb, Hspec4, Hself4.
  assert (Hrun : load_competencies reliable specialty a
                 = (Returned tt,
                    set_dialogs
                      (dialogs a4
                         ++ [InfoBox "Успех"
                               ("Загружены компетенции для специальности: " ++ specialty)])
                      a4)).
  { unfold load_competencies.
    rewrite (bind_returned _ _ _ (Some comps) a)
      by (unfold get; rewrite Hprofile; reflexivity).
    rewrite Hnonempty. cbn [negb when].
    rewrite (bind_returned _ _ _ tt a0) by reflexivity.
    apply try_except_returned.
    rewrite (bind_returned _ _ _ tt a1) by reflexivity.
    rewrite (bind_returned _ _ _ _ _ Hloop).
    rewrite (bind_returned _ _ _ tt a3) by reflexivity.
    rewrite (bind_returned _ _ _ _ _ Hupdate).
    reflexivity. }
  rewrite Hrun. cbn. rewrite Hdb, Hspec4, Hself4, Hspec, Hself, Hcomps, Hseq.
  repeat split; auto.
Qed.

(** ** Reloading a profile over a failing store *)

Lemma rejected_only_bind {A B : Type} (m : M A) (k : A -> M B) :
  rejected_only m -> (forall x, rejected_only (k x)) -> rejected_only (bind m k).
Proof.
  intros Hm Hk a. unfold bind. destruct (Hm a) as (Hd & He & Hout).
  destruct (m a) as [[x|e] a1]; cbn in *.
  - destruct (Hk x a1) as (Hd' & He' & Hout'). repeat split; congruence.
  - auto.
Qed.

Lemma rejected_only_execute rejects s :
  (forall d, exists d', effect s d = inr d' /\ entries d' = entries d) ->
  rejected_only (execute rejects s).
Proof.
  intros Heffect a. unfold execute.
  destruct (rejects (List.length (issued a)) s) as [msg|]; cbn; [eauto|].
  destruct (Heffect (db a)) as (d' & -> & Hentries). cbn. auto.
Qed.

Lemma rejected_only_for_each {A : Type} (l : list A) (body : A -> M unit) :
  (forall x, rejected_only (body x)) -> rejected_only (for_each l body).
Proof.
  intros Hbody. induction l as [|x l IH]; cbn [for_each].
  - intros a. cbn. auto.
  - apply rejected_only_bind; [apply Hbody | intros _; exact IH].
Qed.

Lemma update_competencies_rejected_only rejects :
  rejected_only (update_competencies rejects).
Proof.
  intros a. unfold update_competencies, generate_recommendations.
  unfold try_except, query, bind, execute, get, modify. cbv beta.
  destruct (self_competencies a); [cbn; auto|].
  destruct (rejects (List.length (issued a)) SelectCompetencyLevels); cbn; auto.
Qed.

(** X13. Whatever the store does, [load_competencies] returns and touches no
    entry.  For an empty or unknown specialty it does nothing at all;
    otherwise it shows exactly one message box: the success note, or the
    error of the statement the store rejected. *)
Theorem load_competencies_contains_failures
  (rejects : oracle) (specialty : string) (a : app) :
  let r := load_competencies rejects specialty a in
  fst r = Returned tt
  /\ entries (db (snd r)) = entries (db a)
  /\ (profile specialty a = None \/ specialty = ""%string -> snd r = a)
  /\ (profile specialty a <> None -> specialty <> ""%string ->
      dialogs (snd r)
      = dialogs a
          ++ [InfoBox "Успех" ("Загружены компетенции для специальности: " ++ specialty)]
      \/ exists msg,
           dialogs (snd r)
           = dialogs a
               ++ [ErrorBox "Ошибка" ("Ошибка загрузки компетенций: " ++ msg)]).
Proof.
  cbv zeta. unfold load_competencies.
  rewrite (bind_returned _ _ _ (profile specialty a) a) by reflexivity.
  destruct (profile specialty a) as [comps|] eqn:Hprofile.
  2: { cbn. split; [reflexivity|]. split; [reflexivity|]. split; [auto|].
       intros H. contradiction. }
  destruct (String.eqb specialty "") eqn:Hempty; cbn [negb when].
  { apply String.eqb_eq in Hempty. cbn.
    split; [reflexivity|]. split; [reflexivity|]. split; [auto|].
    intros _ H. contradiction. }
  apply String.eqb_neq in Hempty.
  set (a0 := set_profile (Some specialty) [] a).
  rewrite (bind_returned _ _ _ tt a0) by reflexivity.
  unfold try_except. rewrite 3 bind_assoc.
  match goal with
  | |- context [bind ?prefix _ a0] =>
      assert (Hprefix : rejected_only prefix)
  end.
  { repeat first
      [ apply update_competencies_rejected_only
      | apply rejected_only_for_each; intros comp
      | apply rejected_only_execute; intros d; eexists; split; reflexivity
      | intros a1; cbn; solve [auto]
      | apply rejected_only_bind; [|intro] ]. }
  match goal with
  | |- context [bind ?prefix _ a0] =>
      destruct (Hprefix a0) as (Hd & He & Hout);
      destruct (prefix a0) as [[[]|e] a1] eqn:Hrun
  end.
  - rewrite (bind_returned _ _ _ _ _ Hrun). cbn in *.
    split; [reflexivity|]. split; [exact He|]. split.
    + intros [H | H]; [discriminate H | contradiction].
    + intros _ _. left. rewrite Hd. reflexivity.
  - rewrite (bind_raised _ _ _ _ _ Hrun). cbn in *.
    destruct Hout as [msg ->].
    split; [reflexivity|]. split; [exact He|]. split.
    + intros [H | H]; [discriminate H | contradiction].
    + intros _ _. right. exists msg. rewrite Hd. reflexivity.
Qed.

(** * The methods around: seeding, saving entries, goals, panes *)

(** ** Running actions of the window *)

Local Open Scope window_scope.

Lemma bind_w_returned {A B : Type} (m : W A) (k : A -> W B) s x s' :
  m s = (Returned x, s') -> bind_w m k s = k x s'.
Proof. intros H. unfold bind_w. rewrite H. reflexivity. Qed.

Lemma bind_w_raised {A B : Type} (m : W A) (k : A -> W B) s e s' :
  m s = (Raised e, s') -> bind_w m k s = (Raised e, s').
Proof. intros H. unfold bind_w. rewrite H. reflexivity. Qed.

Lemma try_except_w_returned {A : Type} (body : W A) (handler : exn -> W A) s x s' :
  body s = (Returned x, s') -> try_except_w body handler s = (Returned x, s').
Proof. intros H. unfold try_except_w. rewrite H. reflexivity. Qed.

Lemma try_except_w_raised {A : Type} (body : W A) (handler : exn -> W A) s e s' :
  body s = (Raised e, s') -> try_except_w body handler s = handler e s'.
Proof. intros H. unfold try_except_w. rewrite H. reflexivity. Qed.

Lemma lift_run {A : Type} (m : M A) s r a' :
  m (window s) = (r, a') -> lift m s = (r, set_window a' s).
Proof. intros H. unfold lift. rewrite H. reflexivity. Qed.

Lemma bind_w_assoc {A B C : Type} (m : W A) (f : A -> W B) (g : B -> W C) s :
  bind_w m (fun x => bind_w (f x) g) s = bind_w (bind_w m f) g s.
Proof. unfold bind_w. destruct (m s) as [[x|e] s1]; reflexivity. Qed.

(** [update_goals] returns whatever the store does, and keeps what
    [only_progress_changed] lists. *)
Lemma update_goals_returns rejects a :
  exists a', update_goals rejects a = (Returned tt, a') /\ only_progress_changed a a'.
Proof.
  assert (Hstart : only_progress_changed a a) by (unfold only_progress_changed; tauto).
  set (loop := bind (query rejects SelectGoals select_goals)
                 (fun gs => refresh_goals rejects gs ""%string)).
  pose proof (contained_bind rejects a _ _
                (contained_query rejects a SelectGoals select_goals eq_refl)
                (fun gs => contained_refresh_goals rejects a gs ""%string)
                a [] (eq_sym (app_nil_r _)) Hstart) as Hloop.
  fold loop in Hloop.
  unfold update_goals, try_except.
  rewrite bind_assoc. fold loop.
  destruct (loop a) as [[text|e] a1] eqn:Hrun; cbn [fst snd] in Hloop.
  - destruct Hloop as [Hstable _].
    rewrite (bind_returned _ _ _ _ _ Hrun).
    unfold bind, execute.
    destruct (rejects (List.length (issued a1)) Commit) as [msg|]; cbn;
      eexists; (split; [reflexivity | exact Hstable]).
  - destruct Hloop as [Hstable _].
    rewrite (bind_raised _ _ _ _ _ Hrun). cbn.
    eexists; (split; [reflexivity | exact Hstable]).
Qed.

(** ** Deleting the goals *)

(** X14. Over a store that answers, a confirmed [delete_all_goals] returns
    with the goals table empty, the goals pane showing its placeholder and
    one message box, the success note, added; entries, competencies and
    grades stay as they were. *)
Theorem delete_all_goals_empties (date_in : string -> option date) (s : session) :
  exists s',
    delete_all_goals reliable reliable_w date_in true s = (Returned tt, s')
    /\ goals (tables s') = []
    /\ goals_text (window s') = "Цели еще не добавлены"%string
    /\ dialogs (window s') = dialogs (window s) ++ [InfoBox "Успех" "Все цели удалены"]
    /\ entries (tables s') = entries (tables s)
    /\ competencies (tables s') = competencies (tables s)
    /\ entry_competencies (tables s') = entry_competencies (tables s)
    /\ warnings s' = warnings s.
Proof.
  set (s1 := set_tables (set_goals [] (tables s)) (set_sent (sent s ++ [DeleteGoals]) s)).
  set (a2 := set_db (db (window s1)) (set_issued (issued (window s1) ++ [Commit]) (window s1))).
  destruct (update_goals_run a2) as (a3 & Hrun & Hgoals & He & Hc & Hg & _ & _ & Hd & Htext).
  { cbn. constructor. }
  eexists. split.
  { unfold delete_all_goals. apply try_except_w_returned.
    rewrite (bind_w_returned _ _ _ tt s1) by reflexivity.
    rewrite (bind_w_returned _ _ _ tt (set_window a2 s1)) by reflexivity.
    rewrite (bind_w_returned _ _ _ tt (set_window a3 (set_window a2 s1)))
      by (apply lift_run; exact Hrun).
    reflexivity. }
  cbn in *. unfold tables. cbn.
  rewrite Hgoals, Htext, Hd, He, Hc, Hg. repeat split; reflexivity.
Qed.

(** X15. Whatever the store does, [delete_all_goals] returns.  Declined, it
    changes nothing.  Confirmed, it adds exactly one message box: an error
    box with the store's message when the [DELETE] or the commit after it
    is rejected, and the success note otherwise, even when the refresh of
    the goals pane that follows fails; no entry and no warning is touched. *)
Theorem delete_all_goals_reports
  (rejects : oracle) (refuses : oracle_w) (date_in : string -> option date)
  (answer : bool) (s : session) :
  let r := delete_all_goals rejects refuses date_in answer s in
  fst r = Returned tt
  /\ (answer = false -> snd r = s)
  /\ (answer = true ->
      entries (tables (snd r)) = entries (tables s)
      /\ warnings (snd r) = warnings s
      /\ dialogs (window (snd r))
         = dialogs (window s)
             ++ [match refuses (List.length (sent s)) DeleteGoals with
                 | Some msg => ErrorBox "Ошибка" ("Ошибка при удалении: " ++ msg)
                 | None =>
                     match rejects (List.length (issued (window s))) Commit with
                     | Some msg => ErrorBox "Ошибка" ("Ошибка при удалении: " ++ msg)
                     | None => InfoBox "Успех" "Все цели удалены"
                     end
                 end]).
Proof.
  cbv zeta. destruct answer; cbn [delete_all_goals].
  2:{ cbn. split; [reflexivity|]. split; [reflexivity | discriminate]. }
  set (s0 := set_sent (sent s ++ [DeleteGoals]) s).
  destruct (refuses (List.length (sent s)) DeleteGoals) as [msg|] eqn:Hdelete.
  { rewrite (try_except_w_raised _ _ _ (OperationalError msg) s0).
    2:{ apply bind_w_raised. unfold execute_w. rewrite Hdelete. reflexivity. }
    cbn. split; [reflexivity|]. split; [discriminate|]. intros _. repeat split. }
  set (s1 := set_tables (set_goals [] (tables s)) s0).
  assert (Hfirst : execute_w refuses date_in DeleteGoals s = (Returned tt, s1)).
  { unfold execute_w. rewrite Hdelete. reflexivity. }
  destruct (rejects (List.length (issued (window s))) Commit) as [msg|] eqn:Hcommit.
  { rewrite (try_except_w_raised _ _ _ (OperationalError msg)
               (set_window (set_issued (issued (window s1) ++ [Commit]) (window s1)) s1)).
    2:{ rewrite (bind_w_returned _ _ _ _ _ Hfirst). apply bind_w_raised.
        apply lift_run. unfold execute. cbn. rewrite Hcommit. reflexivity. }
    cbn. split; [reflexivity|]. split; [discriminate|]. intros _. repeat split. }
  set (a2 := set_db (db (window s1)) (set_issued (issued (window s1) ++ [Commit]) (window s1))).
  destruct (update_goals_returns rejects a2) as (a3 & Hrun & He & _ & _ & _ & _ & _ & Hd & _).
  rewrite (try_except_w_returned _ _ _ tt
             (set_window (set_dialogs (dialogs a3 ++ [InfoBox "Успех" "Все цели удалены"]) a3)
                (set_window a3 (set_window a2 s1)))).
  2:{ rewrite (bind_w_returned _ _ _ _ _ Hfirst).
      rewrite (bind_w_returned _ _ _ tt (set_window a2 s1)).
      2:{ apply lift_run. unfold execute. cbn. rewrite Hcommit. reflexivity. }
      rewrite (bind_w_returned _ _ _ tt (set_window a3 (set_window a2 s1)))
        by (apply lift_run; exact Hrun).
      reflexivity. }
  cbn. split; [reflexivity|]. split; [discriminate|]. intros _.
  unfold tables. cbn. rewrite He, Hd. repeat split.
Qed.

(** ** Adding a goal *)

Lemma eqb_empty_false (s : string) : s <> ""%string -> String.eqb s "" = false.
Proof. intros H. apply String.eqb_neq. exact H. Qed.

Lemma add_goal_complete rejects refuses date_in py_int goal_type value competency s target :
  goal_form_complete py_int goal_type value competency (goal_desc_entry s) target ->
  add_goal rejects refuses date_in py_int goal_type value competency s
  = insert_goal rejects refuses date_in
      (stored_description goal_type (goal_desc_entry s) competency) goal_type target s.
Proof.
  intros (Hdesc & Hint & Hpos & Hcomp).
  unfold add_goal, bind_w, get_w, stored_description.
  rewrite (eqb_empty_false _ Hdesc), Hint.
  destruct (target <=? 0) eqn:Hle; [lia|].
  destruct (String.eqb goal_type "Поднять компетенцию") eqn:Htype; [|reflexivity].
  apply String.eqb_eq in Htype.
  rewrite (eqb_empty_false _ (Hcomp Htype)). reflexivity.
Qed.

(** X16. A goal form that fails a check of [add_goal] (no description, a
    value [int] does not read or that is not positive, or a goal of raising
    a competency with none chosen) gets one warning and nothing else:
    no statement is sent and the state is otherwise as it was. *)
Theorem add_goal_rejects_incomplete_form
  (rejects : oracle) (refuses : oracle_w) (date_in : string -> option date)
  (py_int : string -> option Z) (goal_type value competency : string) (s : session) :
  goal_desc_entry s = ""%string
  \/ (forall n, py_int value = Some n -> n <= 0)
  \/ (goal_type = "Поднять компетенцию"%string /\ competency = ""%string) ->
  exists message,
    add_goal rejects refuses date_in py_int goal_type value competency s
    = (Returned tt, set_warnings (warnings s ++ [("Предупреждение"%string, message)]) s).
Proof.
  intros H. unfold add_goal, bind_w, get_w, messagebox_showwarning, modify_w.
  destruct (String.eqb (goal_desc_entry s) "") eqn:Hdesc; [eexists; reflexivity|].
  destruct H as [H | [H | [-> ->]]].
  - rewrite H in Hdesc. discriminate.
  - destruct (py_int value) as [n|] eqn:Hint; [|eexists; reflexivity].
    specialize (H n eq_refl).
    destruct (n <=? 0) eqn:Hle; [eexists; reflexivity | lia].
  - destruct (py_int value) as [n|]; [|eexists; reflexivity].
    destruct (n <=? 0); eexists; reflexivity.
Qed.

Lemma add_goal_rejects_incomplete_form_witness :
  exists message,
    add_goal reliable reliable_w (fun _ => None) (fun _ => Some (-2)) "Добавить записи" "-2" ""
      (mkSession (started (seeded [])) [] [] 0 0 0 5 [] [] [] [] "" "" "Две записи" [])
    = (Returned tt,
       set_warnings [("Предупреждение"%string, message)]
         (mkSession (started (seeded [])) [] [] 0 0 0 5 [] [] [] [] "" "" "Две записи" [])).
Proof.
  apply (add_goal_rejects_incomplete_form reliable reliable_w (fun _ => None)
           (fun _ => Some (-2)) "Добавить записи" "-2" ""
           (mkSession (started (seeded [])) [] [] 0 0 0 5 [] [] [] [] "" "" "Две записи" [])).
  right. left. intros n H. injection H as <-. lia.
Defined.

(** The run of [add_goal] over an answering store. *)
Lemma insert_goal_run date_in description goal_type target s :
  integer_min <= target <= integer_max ->
  NoDup (map goal_id (goals (tables s))) ->
  Forall (fun g => goal_id g <= goals_id_seq s) (goals (tables s)) ->
  let added := mkGoal (goals_id_seq s + 1) description goal_type target 0 false in
  let d := set_goals (goals (tables s) ++ [added]) (tables s) in
  exists s',
    insert_goal reliable reliable_w date_in description goal_type target s
    = (Returned tt, s')
    /\ goals (tables s') = map (refresh d) (goals d)
    /\ goal_desc_entry s' = ""%string
    /\ dialogs (window s') = dialogs (window s) ++ [InfoBox "Успех" "Цель добавлена"]
    /\ goals_text (window s') = goals_pane d
    /\ warnings s' = warnings s
    /\ goals_id_seq s' = goals_id_seq s + 1
    /\ entries (tables s') = entries (tables s).
Proof.
  intros Hrange Hkey Hseq added d.
  assert (Hfresh : existsb (fun g => goal_id g =? goals_id_seq s + 1) (goals (tables s))
                   = false).
  { apply not_true_is_false. intros H. apply existsb_exists in H.
    destruct H as (g & Hin & Hid). rewrite Forall_forall in Hseq.
    specialize (Hseq g Hin). lia. }
  set (s0 := set_sent (sent s ++ [InsertGoal description goal_type target]) s).
  set (s1 := set_tables d (set_goals_id_seq (goals_id_seq s + 1) s0)).
  assert (Hinsert : execute_w reliable_w date_in (InsertGoal description goal_type target) s
                    = (Returned tt, s1)).
  { unfold execute_w. cbn.
    destruct (target <? integer_min) eqn:Hlo; [lia|].
    destruct (integer_max <? target) eqn:Hhi; [lia|].
    unfold tables in *. cbn. rewrite Hfresh. reflexivity. }
  set (a2 := set_db (db (window s1)) (set_issued (issued (window s1) ++ [Commit]) (window s1))).
  set (s3 := set_goal_desc_entry "" (set_window a2 s1)).
  set (a4 := set_dialogs (dialogs (window s3) ++ [InfoBox "Успех" "Цель добавлена"])
               (window s3)).
  destruct (update_goals_run a4) as (a5 & Hrun & Hgoals & He & _ & _ & _ & _ & Hd & Htext).
  { cbn. rewrite map_app. cbn. apply NoDup_snoc; [exact Hkey|].
    intros Hin. apply in_map_iff in Hin. destruct Hin as (g & Hid & Hin).
    rewrite Forall_forall in Hseq. specialize (Hseq g Hin). lia. }
  exists (set_window a5 (set_window a4 s3)). split.
  { unfold insert_goal. apply try_except_w_returned.
    rewrite (bind_w_returned _ _ _ _ _ Hinsert).
    rewrite (bind_w_returned _ _ _ tt (set_window a2 s1)) by reflexivity.
    rewrite (bind_w_returned _ _ _ tt s3) by reflexivity.
    rewrite (bind_w_returned _ _ _ tt (set_window a4 s3)) by reflexivity.
    apply lift_run. exact Hrun. }
  unfold tables. cbn. cbn in Hgoals, He, Hd, Htext.
  rewrite Hgoals, Htext, Hd, He. repeat split; reflexivity.
Qed.

(** X17. Over a store that answers, [add_goal] on a complete form (with a
    target an [INTEGER] column holds, goal ids unique and drawn from the
    sequence) appends one goal with the next id, the description (followed
    by the competency in parentheses for a goal of raising one), the type
    and the target, and refreshes every goal at once: current values and
    completion flags are those of the tables now, the goals pane shows
    them, the description field is cleared and the one message box added
    is the success note. *)
Theorem add_goal_stores_goal
  (date_in : string -> option date) (py_int : string -> option Z)
  (goal_type value competency : string) (target : Z) (s : session) :
  goal_form_complete py_int goal_type value competency (goal_desc_entry s) target ->
  target <= integer_max ->
  NoDup (map goal_id (goals (tables s))) ->
  Forall (fun g => goal_id g <= goals_id_seq s) (goals (tables s)) ->
  let added :=
    mkGoal (goals_id_seq s + 1)
      (stored_description goal_type (goal_desc_entry s) competency) goal_type target
      0 false in
  let d := set_goals (goals (tables s) ++ [added]) (tables s) in
  exists s',
    add_goal reliable reliable_w date_in py_int goal_type value competency s
    = (Returned tt, s')
    /\ goals (tables s') = map (refresh d) (goals (tables s) ++ [added])
    /\ goal_desc_entry s' = ""%string
    /\ dialogs (window s') = dialogs (window s) ++ [InfoBox "Успех" "Цель добавлена"]
    /\ goals_text (window s') = goals_pane d
    /\ warnings s' = warnings s
    /\ entries (tables s') = entries (tables s).
Proof.
  intros Hform Hmax Hkey Hseq added d.
  rewrite (add_goal_complete _ _ _ _ _ _ _ _ _ Hform).
  destruct Hform as (_ & _ & Hpos & _).
  destruct (insert_goal_run date_in
              (stored_description goal_type (goal_desc_entry s) competency)
              goal_type target s) as (s' & Hrun & Hgoals & Hfield & Hd & Htext & Hw & _ & He);
    try assumption.
  { unfold integer_min. lia. }
  exists s'. repeat split; assumption.
Qed.

Lemma add_goal_stores_goal_witness :
  exists s',
    add_goal reliable reliable_w (fun _ => None) (fun _ => Some 2) "Добавить записи" "2" ""
      (mkSession (started (seeded [])) [] [] 0 0 0 5 [] [] [] [] "" "" "Две записи" [])
    = (Returned tt, s')
    /\ goals (tables s') = [mkGoal 1 "Две записи" "Добавить записи" 2 0 false]
    /\ goal_desc_entry s' = ""%string.
Proof.
  destruct (add_goal_stores_goal (fun _ => None) (fun _ => Some 2) "Добавить записи" "2" "" 2
              (mkSession (started (seeded [])) [] [] 0 0 0 5 [] [] [] [] "" "" "Две записи" []))
    as (s' & Hrun & Hgoals & Hfield & _).
  - repeat split; try discriminate; lia.
  - unfold integer_max. lia.
  - constructor.
  - constructor.
  - exists s'. repeat split; assumption.
Defined.

(** *** From the stored description back to the competency *)

Lemma contains_char_nil (ch : ascii) : contains (String ch "") "" = false.
Proof. reflexivity. Qed.

Lemma contains_char_cons (ch c : ascii) (s : string) :
  contains (String ch "") (String c s) = Ascii.eqb c ch || contains (String ch "") s.
Proof.
  cbn [contains String.prefix].
  destruct (ascii_dec ch c) as [<- | Hne].
  - rewrite Ascii.eqb_refl. destruct s; reflexivity.
  - assert (Hc : Ascii.eqb c ch = false)
      by (apply Ascii.eqb_neq; intros H; apply Hne; symmetry; exact H).
    rewrite Hc. reflexivity.
Qed.

Lemma contains_char_app (ch : ascii) (s t : string) :
  contains (String ch "") (s ++ t)
  = contains (String ch "") s || contains (String ch "") t.
Proof.
  induction s as [|c s IH]; [reflexivity|].
  change (String c s ++ t)%string with (String c (s ++ t)).
  rewrite !contains_char_cons, IH, orb_assoc. reflexivity.
Qed.

Lemma split_last_after (sep : ascii) (s t : string) :
  contains (String sep "") t = false ->
  split_last sep (s ++ String sep t) = t.
Proof.
  intros Ht. induction s as [|c s IH].
  - cbn [String.append split_last]. rewrite Ht, Ascii.eqb_refl. reflexivity.
  - change (String c s ++ String sep t)%string with (String c (s ++ String sep t)).
    cbn [split_last].
    rewrite contains_char_app, contains_char_cons, Ascii.eqb_refl, orb_true_r.
    exact IH.
Qed.

Lemma rstrip_snoc (ch : ascii) (s : string) :
  rstrip ch (s ++ String ch "") = rstrip ch s.
Proof.
  induction s as [|c s IH].
  - cbn. rewrite Ascii.eqb_refl. reflexivity.
  - change (String c s ++ String ch "")%string with (String c (s ++ String ch "")).
    cbn [rstrip]. rewrite IH. reflexivity.
Qed.

(** The competency [update_goals] reads back from a description of the
    form [add_goal] stores. *)
Lemma goal_competency_stored (description competency : string) :
  contains "(" competency = false ->
  goal_competency (description ++ " (" ++ competency ++ ")") = rstrip ")" competency.
Proof.
  intros Hc. unfold goal_competency.
  change (description ++ " (" ++ competency ++ ")")%string
    with (description ++ String " " (String "(" (competency ++ ")")))%string.
  assert (Hshape : (description ++ String " " (String "(" (competency ++ ")")))%string
                   = ((description ++ " ") ++ String "(" (competency ++ ")"))%string).
  { rewrite string_app_assoc. reflexivity. }
  rewrite Hshape.
  assert (Hrest : contains "(" (competency ++ ")") = false).
  { rewrite contains_char_app, Hc. reflexivity. }
  rewrite contains_char_app, contains_char_cons, Ascii.eqb_refl, orb_true_r.
  rewrite (split_last_after "(" _ _ Hrest).
  apply rstrip_snoc.
Qed.

(** X18. A goal of raising a competency added through [add_goal] is tracked
    by that competency: when its name holds no opening parenthesis and
    does not end with a closing one, the goal just stored has, after the
    refresh [add_goal] ends with, the rounded mean grade of the competency
    of that name as its current value (as an [INTEGER] column keeps it) and
    is completed exactly when that rounded mean reaches the target. *)
Theorem add_goal_tracks_chosen_competency
  (date_in : string -> option date) (py_int : string -> option Z)
  (value competency : string) (target : Z) (s : session) :
  goal_form_complete py_int "Поднять компетенцию" value competency
    (goal_desc_entry s) target ->
  target <= integer_max ->
  NoDup (map goal_id (goals (tables s))) ->
  Forall (fun g => goal_id g <= goals_id_seq s) (goals (tables s)) ->
  contains "(" competency = false ->
  rstrip ")" competency = competency ->
  let level := round1 (float_or_0 (avg_level_by_name competency (tables s))) in
  exists s' earlier,
    add_goal reliable reliable_w date_in py_int "Поднять компетенцию" value competency s
    = (Returned tt, s')
    /\ goals (tables s')
       = earlier
           ++ [mkGoal (goals_id_seq s + 1)
                 (goal_desc_entry s ++ " (" ++ competency ++ ")")
                 "Поднять компетенцию" target
                 (to_integer (PyFloat level))
                 (Qle_bool (inject_Z target) level)].
Proof.
  intros Hform Hmax Hkey Hseq Hopen Hclose level.
  rewrite (add_goal_complete _ _ _ _ _ _ _ _ _ Hform).
  destruct Hform as (_ & _ & Hpos & Hchosen).
  set (description := stored_description "Поднять компетенцию" (goal_desc_entry s) competency).
  destruct (insert_goal_run date_in description "Поднять компетенцию" target s)
    as (s' & Hrun & Hgoals & _); try assumption.
  { unfold integer_min. lia. }
  exists s', (map (refresh (set_goals
                              (goals (tables s)
                                 ++ [mkGoal (goals_id_seq s + 1) description
                                       "Поднять компетенцию" target 0 false])
                              (tables s)))
                (goals (tables s))).
  split; [exact Hrun|].
  rewrite Hgoals. cbn [goals set_goals]. rewrite map_app. f_equal.
  cbn [map]. unfold refresh, refreshed, current_of. cbn [goal_type goal_description].
  subst description. unfold stored_description. cbn [String.eqb Ascii.eqb Bool.eqb].
  rewrite (goal_competency_stored _ _ Hopen), Hclose.
  rewrite (eqb_empty_false _ (Hchosen eq_refl)).
  reflexivity.
Qed.

Lemma add_goal_tracks_chosen_competency_witness :
  let s := mkSession (started goals_sample) [] [] 3 0 2 5 [] [] [] [] "" "" "Писать код" [] in
  avg_level_by_name "Программирование" (tables s) = Some (9 # 2)%Q
  /\ exists s' earlier,
       add_goal reliable reliable_w (fun _ => None) (fun _ => Some 5)
         "Поднять компетенцию" "5" "Программирование" s
       = (Returned tt, s')
       /\ goals (tables s')
          = earlier
              ++ [mkGoal 3 "Писать код (Программирование)" "Поднять компетенцию" 5 5 false].
Proof.
  intros s. split; [reflexivity|].
  apply (add_goal_tracks_chosen_competency (fun _ => None) (fun _ => Some 5)
           "5" "Программирование" 5 s).
  - repeat split; try discriminate; lia.
  - unfold integer_max. lia.
  - repeat constructor; cbn; intuition discriminate.
  - repeat constructor; cbn; lia.
  - reflexivity.
  - reflexivity.
Defined.

(** *** Over a failing store *)

(** X19. Whatever the store does, [add_goal] on a complete form returns,
    having sent one [INSERT] of the goal with the stored description, type
    and target, shown no warning, touched no entry and added exactly one
    message box.  Either that box is the success note, and then the goal
    is in the table under the next id and the description field is
    cleared, even when the refresh that follows fails; or it is an error
    box with the message of the failure, and the field keeps its text. *)
Theorem add_goal_reports
  (rejects : oracle) (refuses : oracle_w) (date_in : string -> option date)
  (py_int : string -> option Z) (goal_type value competency : string) (target : Z)
  (s : session) :
  goal_form_complete py_int goal_type value competency (goal_desc_entry s) target ->
  let description := stored_description goal_type (goal_desc_entry s) competency in
  let r := add_goal rejects refuses date_in py_int goal_type value competency s in
  fst r = Returned tt
  /\ sent (snd r) = sent s ++ [InsertGoal description goal_type target]
  /\ warnings (snd r) = warnings s
  /\ entries (tables (snd r)) = entries (tables s)
  /\ ((dialogs (window (snd r)) = dialogs (window s) ++ [InfoBox "Успех" "Цель добавлена"]
       /\ goal_desc_entry (snd r) = ""%string
       /\ map goal_static (goals (tables (snd r)))
          = map goal_static (goals (tables s))
              ++ [(goals_id_seq s + 1, description, goal_type, target)])
      \/ (exists msg,
            dialogs (window (snd r))
            = dialogs (window s)
                ++ [ErrorBox "Ошибка" ("Ошибка при добавлении цели: " ++ msg)]
            /\ goal_desc_entry (snd r) = goal_desc_entry s)).
Proof.
  intros Hform description r. subst r.
  rewrite (add_goal_complete _ _ _ _ _ _ _ _ _ Hform). fold description.
  clear Hform. unfold insert_goal.
  set (q := InsertGoal description goal_type target).
  set (s0 := set_sent (sent s ++ [q]) s).
  set (handler := fun e : exn => lift (messagebox_showerror "Ошибка"
                     ("Ошибка при добавлении цели: " ++ str_exn e)%string)).
  assert (Hfailed : forall e,
             execute_w refuses date_in q s = (Raised e, s0) ->
             let r := try_except_w
                        (execute_w refuses date_in q ;;
                         lift (execute rejects Commit) ;;
                         modify_w (set_goal_desc_entry "") ;;
                         lift (messagebox_showinfo "Успех" "Цель добавлена") ;;
                         lift (update_goals rejects)) handler s in
             fst r = Returned tt
             /\ sent (snd r) = sent s ++ [q]
             /\ warnings (snd r) = warnings s
             /\ entries (tables (snd r)) = entries (tables s)
             /\ exists msg,
                  dialogs (window (snd r))
                  = dialogs (window s)
                      ++ [ErrorBox "Ошибка" ("Ошибка при добавлении цели: " ++ msg)]
                  /\ goal_desc_entry (snd r) = goal_desc_entry s).
  { intros e He. cbv zeta.
    rewrite (try_except_w_raised _ _ _ e s0) by (apply bind_w_raised; exact He).
    cbn. repeat split. exists (str_exn e). split; reflexivity. }
  destruct (execute_w refuses date_in q s) as [[[]|e] s1] eqn:Hinsert.
  2:{ assert (s1 = s0) as ->.
      { unfold execute_w in Hinsert. fold s0 in Hinsert.
        destruct (refuses (List.length (sent s)) q); [congruence|].
        destruct (run date_in q s0); congruence. }
      destruct (Hfailed e eq_refl) as (H1 & H2 & H3 & H4 & H5).
      repeat (split; [assumption|]). right. exact H5. }
  clear Hfailed.
  assert (Hs1 : s1 = set_tables
                       (set_goals (goals (tables s)
                                     ++ [mkGoal (goals_id_seq s + 1) description goal_type
                                           target 0 false]) (tables s))
                       (set_goals_id_seq (goals_id_seq s + 1) s0)).
  { unfold execute_w in Hinsert. fold s0 in Hinsert.
    destruct (refuses (List.length (sent s)) q); [discriminate|].
    unfold q, run in Hinsert. unfold tables in *. cbn in Hinsert.
    destruct ((target <? integer_min) || (integer_max <? target)); [discriminate|].
    destruct (existsb _ _); [discriminate|].
    injection Hinsert as <-. reflexivity. }
  subst s1.
  set (s1 := set_tables _ _) in Hinsert.
  destruct (rejects (List.length (issued (window s))) Commit) as [msg|] eqn:Hcommit.
  { rewrite (try_except_w_raised _ _ _ (OperationalError msg)
               (set_window (set_issued (issued (window s1) ++ [Commit]) (window s1)) s1)).
    2:{ rewrite (bind_w_returned _ _ _ _ _ Hinsert). apply bind_w_raised.
        apply lift_run. unfold execute. cbn. rewrite Hcommit. reflexivity. }
    cbn. repeat split. right. exists msg. split; reflexivity. }
  set (a2 := set_db (db (window s1)) (set_issued (issued (window s1) ++ [Commit]) (window s1))).
  set (s3 := set_goal_desc_entry "" (set_window a2 s1)).
  set (a4 := set_dialogs (dialogs (window s3) ++ [InfoBox "Успех" "Цель добавлена"])
               (window s3)).
  destruct (update_goals_returns rejects a4)
    as (a5 & Hrun & He & _ & _ & _ & _ & Hstatic & Hd & _).
  rewrite (try_except_w_returned _ _ _ tt (set_window a5 (set_window a4 s3))).
  2:{ rewrite (bind_w_returned _ _ _ _ _ Hinsert).
      rewrite (bind_w_returned _ _ _ tt (set_window a2 s1)).
      2:{ apply lift_run. unfold execute. cbn. rewrite Hcommit. reflexivity. }
      rewrite (bind_w_returned _ _ _ tt s3) by reflexivity.
      rewrite (bind_w_returned _ _ _ tt (set_window a4 s3)) by reflexivity.
      apply lift_run. exact Hrun. }
  unfold tables. cbn [fst snd window set_window sent warnings goal_desc_entry].
  rewrite He, Hd, Hstatic. cbn. unfold tables. cbn.
  repeat (split; [reflexivity|]). left.
  rewrite map_app. repeat split.
Qed.

Lemma add_goal_reports_witness :
  let s := mkSession (started goals_sample) [] [] 3 0 2 5 [] [] [] [] "" "" "Писать код" [] in
  let r := add_goal (fails_at 0 "server closed the connection") reliable_w (fun _ => None)
             (fun _ => Some 5) "Поднять компетенцию" "5" "Программирование" s in
  dialogs (window (snd r))
  = [ErrorBox "Ошибка" "Ошибка при добавлении цели: server closed the connection"]
  /\ sent (snd r)
     = [InsertGoal "Писать код (Программирование)" "Поднять компетенцию" 5].
Proof.
  intros s r.
  destruct (add_goal_reports (fails_at 0 "server closed the connection") reliable_w
              (fun _ => None) (fun _ => Some 5) "Поднять компетенцию" "5"
              "Программирование" 5 s) as (_ & Hsent & _).
  - repeat split; try discriminate; lia.
  - split; [reflexivity | exact Hsent].
Defined.



(** ** Creating and seeding the tables *)

Lemma create_loop_run refuses date_in l :
  Forall (fun q => exists table, q = CreateTable table) l ->
  forall s, exists s',
    create_loop refuses date_in l s = (Returned tt, s')
    /\ same_store s s'
    /\ sent s' = sent s ++ l.
Proof.
  unfold same_store.
  induction 1 as [|q l [table ->] _ IH]; intros s.
  - exists s. cbn. rewrite app_nil_r. repeat split.
  - set (s0 := set_sent (sent s ++ [CreateTable table]) s).
    assert (Hstep : exists s1,
               try_except_w (execute_w refuses date_in (CreateTable table))
                 (fun e => lift (print ("Ошибка при создании таблицы: " ++ str_exn e)%string))
                 s = (Returned tt, s1)
               /\ same_store s s1 /\ sent s1 = sent s ++ [CreateTable table]).
    { unfold try_except_w, execute_w, same_store.
      destruct (refuses (List.length (sent s)) (CreateTable table)); cbn;
        eexists; (split; [reflexivity|]); cbn; repeat split. }
    destruct Hstep as (s1 & Hstep & Hsame & Hsent).
    destruct (IH s1) as (s' & Hrun & Hsame' & Hsent').
    exists s'. split.
    { unfold create_loop in *. cbn [for_each_w].
      rewrite (bind_w_returned _ _ _ _ _ Hstep). exact Hrun. }
    unfold same_store in Hsame.
    destruct Hsame as (H1 & H2 & H3 & H4 & H5 & H6 & H7).
    destruct Hsame' as (G1 & G2 & G3 & G4 & G5 & G6 & G7).
    rewrite G1, G2, G3, G4, G5, G6, G7, Hsent', Hsent, <- app_assoc.
    repeat split; assumption.
Qed.

Lemma queries_create_tables :
  Forall (fun q => exists table, q = CreateTable table) queries.
Proof.
  unfold queries. apply Forall_forall. intros q Hq.
  apply in_map_iff in Hq. destruct Hq as (table & <- & _). exists table. reflexivity.
Qed.

(** X21. [create_tables] seeds only an empty catalog.  Whatever the store
    does, a catalog that already holds a row comes out as it went in, so
    an achievement missing from it stays missing: the eight
    [CREATE TABLE] statements (a rejected one is printed and passed over)
    and the count are all the method sends besides the commit. *)
Theorem create_tables_keeps_nonempty_catalog
  (rejects : oracle) (refuses : oracle_w) (date_in : string -> option date)
  (s : session) :
  achievements (tables s) <> [] ->
  let s' := snd (create_tables rejects refuses date_in s) in
  achievements (tables s') = achievements (tables s)
  /\ (forall name,
        select_achievement_id name (tables s') = select_achievement_id name (tables s))
  /\ sent s' = sent s ++ queries ++ [CountAchievements].
Proof.
  intros Hcatalog.
  destruct (create_loop_run refuses date_in queries queries_create_tables s)
    as (s1 & Hloop & (Hdb & _) & Hsent).
  assert (Hgoal : let s' := snd (create_tables rejects refuses date_in s) in
                  achievements (tables s') = achievements (tables s)
                  /\ sent s' = sent s ++ queries ++ [CountAchievements]).
  { cbv zeta. unfold create_tables. fold (create_loop refuses date_in queries).
    rewrite (bind_w_returned _ _ _ _ _ Hloop).
    set (s2 := set_sent (sent s1 ++ [CountAchievements]) s1).
    destruct (refuses (List.length (sent s1)) CountAchievements) as [msg|] eqn:Hcount.
    { rewrite (bind_w_raised _ _ _ (OperationalError msg) s2).
      2:{ unfold query_w. apply bind_w_raised. unfold execute_w. rewrite Hcount.
          reflexivity. }
      cbn. unfold tables. cbn. rewrite Hdb, Hsent, <- app_assoc. split; reflexivity. }
    rewrite (bind_w_returned _ _ _ (count_achievements s2) s2).
    2:{ unfold query_w. rewrite (bind_w_returned _ _ _ tt s2); [reflexivity|].
        unfold execute_w. rewrite Hcount. reflexivity. }
    assert (Hsome : (count_achievements s2 =? 0) = false).
    { apply Z.eqb_neq. unfold count_achievements, tables. cbn [window set_sent s2].
      rewrite Hdb. unfold tables in Hcatalog.
      destruct (achievements (db (window s))); [contradiction | cbn [List.length]; lia]. }
    rewrite Hsome.
    rewrite (bind_w_returned _ _ _ tt s2) by reflexivity.
    unfold lift, execute. cbn [window set_sent s2].
    destruct (rejects _ Commit); cbn; unfold tables; cbn;
      rewrite Hdb, Hsent, <- app_assoc; split; reflexivity. }
  cbv zeta in *. destruct Hgoal as [Hsame Htrace].
  split; [exact Hsame|]. split.
  - intros name. unfold select_achievement_id. rewrite Hsame. reflexivity.
  - exact Htrace.
Qed.

Lemma create_tables_keeps_nonempty_catalog_witness :
  let s := mkSession
             (started (mkDatabase [] [mkAchievement 7 "Словобог" ""] [] [] 0 [] [] 0))
             [] [] 0 0 0 7 [] [] [] [] "" "" "" [] in
  let s' := snd (create_tables reliable reliable_w (fun _ => None) s) in
  select_achievement_id "Первый шаг" (tables s') = None
  /\ List.length (sent s') = 9%nat.
Proof.
  intros s s'.
  destruct (create_tables_keeps_nonempty_catalog reliable reliable_w (fun _ => None) s)
    as (_ & Hnames & Hsent).
  - discriminate.
  - unfold s'. split; [rewrite (Hnames "Первый шаг"%string) | rewrite Hsent]; reflexivity.
Defined.

Lemma seed_loop_run date_in (rows : list (string * string)) :
  forall s,
    NoDup (map fst rows) ->
    Forall (fun a => achievement_id a <= achievements_id_seq s) (achievements (tables s)) ->
    (forall a, In a (achievements (tables s)) -> ~ In (achievement_name a) (map fst rows)) ->
    exists s',
      for_each_w rows
        (fun row => execute_w reliable_w date_in (InsertAchievement (fst row) (snd row))) s
      = (Returned tt, s')
      /\ achievements (tables s')
         = achievements (tables s) ++ seed_achievements (achievements_id_seq s + 1) rows
      /\ entries (tables s') = entries (tables s)
      /\ user_achievements (tables s') = user_achievements (tables s)
      /\ goals (tables s') = goals (tables s)
      /\ issued (window s') = issued (window s)
      /\ printed (window s') = printed (window s)
      /\ dialogs (window s') = dialogs (window s).
Proof.
  induction rows as [|[name description] rows IH]; intros s Hnames Hseq Hnew.
  - exists s. cbn. rewrite app_nil_r. repeat split.
  - inversion Hnames as [|? ? Hhead Hrest]; subst.
    set (id := achievements_id_seq s + 1).
    set (s0 := set_sent (sent s ++ [InsertAchievement name description]) s).
    set (s1 := set_tables
                 (set_achievements
                    (achievements (tables s) ++ [mkAchievement id name description])
                    (tables s))
                 (set_achievements_id_seq id s0)).
    assert (Hstep : execute_w reliable_w date_in (InsertAchievement name description) s
                    = (Returned tt, s1)).
    { unfold execute_w. cbn [reliable_w run]. fold s0.
      change (tables s0) with (tables s). change (achievements_id_seq s0 + 1) with id.
      destruct (existsb (fun a => String.eqb (achievement_name a) name)
                  (achievements (tables s))) eqn:Hname.
      { apply existsb_exists in Hname. destruct Hname as (a & Hin & Heq).
        apply String.eqb_eq in Heq. exfalso. apply (Hnew a Hin). left. symmetry. exact Heq. }
      destruct (existsb (fun a => achievement_id a =? id) (achievements (tables s)))
        eqn:Hid.
      { apply existsb_exists in Hid. destruct Hid as (a & Hin & Heq).
        rewrite Forall_forall in Hseq. specialize (Hseq a Hin). unfold id in Heq. lia. }
      reflexivity. }
    destruct (IH s1) as (s' & Hrun & Hcatalog & He & Hua & Hg & Hi & Hp & Hd).
    + exact Hrest.
    + unfold tables. cbn. apply Forall_app. split.
      * eapply Forall_impl; [|exact Hseq]. cbn. intros a Ha. unfold id. lia.
      * repeat constructor. cbn. lia.
    + unfold tables. cbn. intros a Hin. apply in_app_or in Hin.
      destruct Hin as [Hin | [<- | []]].
      * intros Hmem. apply (Hnew a Hin). right. exact Hmem.
      * exact Hhead.
    + exists s'. split.
      { cbn [for_each_w fst snd].
        rewrite (bind_w_returned _ _ _ _ _ Hstep). exact Hrun. }
      rewrite Hcatalog, He, Hua, Hg, Hi, Hp, Hd. unfold tables. cbn.
      rewrite <- app_assoc. repeat split.
Qed.

Lemma create_loop_quiet date_in l :
  Forall (fun q => exists table, q = CreateTable table) l ->
  forall s, create_loop reliable_w date_in l s = (Returned tt, set_sent (sent s ++ l) s).
Proof.
  induction 1 as [|q l [table ->] _ IH]; intros s.
  - cbn. rewrite app_nil_r. destruct s; reflexivity.
  - unfold create_loop in *. cbn [for_each_w].
    rewrite (bind_w_returned _ _ _ tt (set_sent (sent s ++ [CreateTable table]) s))
      by reflexivity.
    rewrite IH. cbn. unfold set_sent. cbn. rewrite <- app_assoc. reflexivity.
Qed.

(** X22. Over a store that answers, [create_tables] on an empty catalog
    returns with the five achievements of [achievements_data] in it, in
    that order and under consecutive ids from the sequence; entries,
    unlocks and goals are untouched and nothing is printed or shown. *)
Theorem create_tables_seeds_empty_catalog
  (date_in : string -> option date) (s : session) :
  achievements (tables s) = [] ->
  exists s',
    create_tables reliable reliable_w date_in s = (Returned tt, s')
    /\ achievements (tables s')
       = seed_achievements (achievements_id_seq s + 1) achievements_data
    /\ map achievement_name (achievements (tables s'))
       = ["Первый шаг"; "Командный игрок"; "Разносторонний"; "Плодотворный год";
          "Словобог"]%string
    /\ entries (tables s') = entries (tables s)
    /\ user_achievements (tables s') = user_achievements (tables s)
    /\ goals (tables s') = goals (tables s)
    /\ printed (window s') = printed (window s)
    /\ dialogs (window s') = dialogs (window s).
Proof.
  intros Hempty.
  pose proof (create_loop_quiet date_in queries queries_create_tables s) as Hloop.
  set (s1 := set_sent (sent s ++ queries) s) in Hloop.
  set (s2 := set_sent (sent s1 ++ [CountAchievements]) s1).
  assert (Hcatalog : achievements (tables s2) = []) by exact Hempty.
  destruct (seed_loop_run date_in achievements_data s2)
    as (s3 & Hseed & Hrows & He & Hua & Hg & Hi & Hp & Hd).
  { repeat constructor; cbn; intuition discriminate. }
  { rewrite Hcatalog. constructor. }
  { rewrite Hcatalog. intros a []. }
  eexists. split.
  { unfold create_tables. fold (create_loop reliable_w date_in queries).
    rewrite (bind_w_returned _ _ _ _ _ Hloop).
    rewrite (bind_w_returned _ _ _ (count_achievements s2) s2) by reflexivity.
    unfold count_achievements. rewrite Hcatalog. cbn [List.length Z.of_nat Z.eqb].
    rewrite (bind_w_returned _ _ _ _ _ Hseed).
    reflexivity. }
  unfold tables in *. cbn in *.
  rewrite Hrows, Hempty, He, Hua, Hg, Hp, Hd.
  repeat split; reflexivity.
Qed.

Lemma create_tables_seeds_empty_catalog_witness :
  let s := mkSession (started (mkDatabase [] [] [] [] 0 [] [] 0))
             [] [] 0 0 0 0 [] [] [] [] "" "" "" [] in
  exists s',
    create_tables reliable reliable_w (fun _ => None) s = (Returned tt, s')
    /\ achievements (tables s') = achievements (seeded []).
Proof.
  intros s.
  destruct (create_tables_seeds_empty_catalog (fun _ => None) s eq_refl)
    as (s' & Hrun & Hrows & _).
  exists s'. split; [exact Hrun | exact Hrows].
Defined.

(** ** The panes *)

Lemma only_progress_changed_refl a : only_progress_changed a a.
Proof. unfold only_progress_changed. tauto. Qed.

Lemma only_progress_changed_trans a b c :
  only_progress_changed a b -> only_progress_changed b c -> only_progress_changed a c.
Proof.
  unfold only_progress_changed.
  intros (H1 & H2 & H3 & H4 & H5 & H6 & H7 & H8) (G1 & G2 & G3 & G4 & G5 & G6 & G7 & G8).
  repeat split; congruence.
Qed.

Lemma panes_only_refl s : panes_only s s.
Proof. unfold panes_only. split; [apply only_progress_changed_refl | tauto]. Qed.

Lemma panes_only_trans s1 s2 s3 :
  panes_only s1 s2 -> panes_only s2 s3 -> panes_only s1 s3.
Proof.
  unfold panes_only.
  intros (H0 & H1 & H2 & H3 & H4 & H5 & H6 & H7 & H8 & H9 & H10 & H11 & H12 & H13)
         (G0 & G1 & G2 & G3 & G4 & G5 & G6 & G7 & G8 & G9 & G10 & G11 & G12 & G13).
  split; [exact (only_progress_changed_trans _ _ _ H0 G0)|].
  repeat split; congruence.
Qed.

Lemma update_research_map_returns refuses date_in s :
  exists s',
    update_research_map refuses date_in s = (Returned tt, s') /\ panes_only s s'.
Proof.
  unfold update_research_map, try_except_w, query_w, bind_w, execute_w, get_w, modify_w.
  cbn [run].
  destruct (refuses (List.length (sent s)) SelectKeywordCounts); cbn.
  { eexists. split; [reflexivity|].
    unfold panes_only, only_progress_changed. cbn. tauto. }
  destruct (refuses _ SelectCoauthors); cbn;
    (eexists; split; [reflexivity|]);
    unfold panes_only, only_progress_changed; cbn; tauto.
Qed.

Lemma update_achievements_returns refuses date_in strftime s :
  exists s',
    update_achievements refuses date_in strftime s = (Returned tt, s') /\ panes_only s s'.
Proof.
  unfold update_achievements, try_except_w, query_w, bind_w, execute_w, get_w, modify_w.
  cbn [run].
  destruct (refuses (List.length (sent s)) SelectAchievements); cbn;
    (eexists; split; [reflexivity|]);
    unfold panes_only, only_progress_changed; cbn; tauto.
Qed.

Lemma update_competencies_returns rejects a :
  exists a',
    update_competencies rejects a = (Returned tt, a')
    /\ db a' = db a /\ dialogs a' = dialogs a /\ printed a' = printed a
    /\ today a' = today a /\ self_competencies a' = self_competencies a
    /\ current_specialty a' = current_specialty a.
Proof.
  unfold update_competencies, generate_recommendations.
  unfold try_except, query, bind, execute, get, modify. cbv beta.
  destruct (self_competencies a) as [|c l] eqn:Hloaded.
  - cbn. eexists. split; [reflexivity|]. cbn. rewrite Hloaded. repeat split.
  - destruct (rejects (List.length (issued a)) SelectCompetencyLevels); cbn;
      (eexists; split; [reflexivity|]); cbn; rewrite Hloaded; repeat split.
Qed.

Section Leaves.

Variable rejects : oracle.
Variable X : Type.
Variable f : app -> X.
Hypothesis f_issued : forall l a, f (set_issued l a) = f a.
Hypothesis f_db : forall d a, f (set_db d a) = f a.
Hypothesis f_goals_text : forall t a, f (set_goals_text t a) = f a.

Lemma leaves_bind {A B : Type} (m : M A) (k : A -> M B) :
  leaves f m -> (forall x, leaves f (k x)) -> leaves f (bind m k).
Proof.
  intros Hm Hk a. unfold bind. specialize (Hm a).
  destruct (m a) as [[x|e] a1]; cbn [snd] in *; [|exact Hm].
  rewrite (Hk x a1). exact Hm.
Qed.

Lemma leaves_ret {A : Type} (x : A) : leaves f (ret x).
Proof. intros a. reflexivity. Qed.

Lemma leaves_execute s : leaves f (execute rejects s).
Proof.
  intros a. unfold execute.
  destruct (rejects _ s); [cbn; apply f_issued|].
  destruct (effect s (db a)); cbn; [|rewrite f_db]; apply f_issued.
Qed.

Lemma leaves_query {A : Type} s (result : database -> A) :
  leaves f (query rejects s result).
Proof.
  unfold query. apply leaves_bind; [apply leaves_execute|].
  intros [] a. reflexivity.
Qed.

Lemma leaves_recompute_current g : leaves f (recompute_current rejects g).
Proof.
  unfold recompute_current.
  destruct (String.eqb (goal_type g) "Добавить записи").
  { apply leaves_bind; [apply leaves_query | intros n; apply leaves_ret]. }
  destruct (String.eqb (goal_type g) "Поднять компетенцию"); [|apply leaves_ret].
  destruct (String.eqb (goal_competency (goal_description g)) ""); [apply leaves_ret|].
  apply leaves_bind; [apply leaves_query | intros n; apply leaves_ret].
Qed.

Lemma leaves_refresh_goals gs : forall text, leaves f (refresh_goals rejects gs text).
Proof.
  induction gs as [|g gs IH]; intros text; [apply leaves_ret|].
  cbn [refresh_goals].
  apply leaves_bind; [apply leaves_recompute_current|]. intros current.
  apply leaves_bind; [apply leaves_execute|]. intros _.
  apply leaves_bind; [|intros status; apply IH].
  destruct (reaches current (goal_target g));
    (apply leaves_bind; [apply leaves_execute | intros _; apply leaves_ret]).
Qed.

Lemma leaves_update_goals : leaves f (update_goals rejects).
Proof.
  intros a. unfold update_goals, try_except.
  set (body := bind _ _).
  assert (Hbody : leaves f body).
  { unfold body.
    apply leaves_bind; [apply leaves_query|]. intros gs.
    apply leaves_bind; [apply leaves_refresh_goals|]. intros text.
    apply leaves_bind; [apply leaves_execute|]. intros _.
    intros a1. cbn. apply f_goals_text. }
  specialize (Hbody a).
  destruct (body a) as [[[]|e] a1]; cbn [snd] in *; [exact Hbody|].
  cbn. rewrite f_goals_text. exact Hbody.
Qed.

End Leaves.

Lemma update_goals_keeps_profile rejects a :
  today (snd (update_goals rejects a)) = today a
  /\ self_competencies (snd (update_goals rejects a)) = self_competencies a
  /\ current_specialty (snd (update_goals rejects a)) = current_specialty a.
Proof.
  repeat split.
  - apply (leaves_update_goals rejects _ today); reflexivity.
  - apply (leaves_update_goals rejects _ self_competencies); reflexivity.
  - apply (leaves_update_goals rejects _ current_specialty); reflexivity.
Qed.

(** [update_all_tabs] returns whatever the store does. *)
Lemma update_all_tabs_returns rejects refuses date_in strftime s :
  exists s',
    update_all_tabs rejects refuses date_in strftime s = (Returned tt, s')
    /\ panes_only s s'.
Proof.
  destruct (update_research_map_returns refuses date_in s) as (s1 & Hmap & H1).
  destruct (update_achievements_returns refuses date_in strftime s1) as (s2 & Hach & H2).
  destruct (update_competencies_returns rejects (window s2))
    as (a3 & Hcomp & Hdb & Hd & Hp & Ht & Hsc & Hcs).
  destruct (update_goals_returns rejects a3) as (a4 & Hgoals & H4).
  pose proof (update_goals_keeps_profile rejects a3) as Hprofile.
  rewrite Hgoals in Hprofile. cbn [snd] in Hprofile.
  destruct Hprofile as (Ht4 & Hsc4 & Hcs4).
  exists (set_window a4 (set_window a3 s2)). split.
  { unfold update_all_tabs.
    rewrite (bind_w_returned _ _ _ _ _ Hmap).
    rewrite (bind_w_returned _ _ _ _ _ Hach).
    rewrite (bind_w_returned _ _ _ tt (set_window a3 s2))
      by (apply lift_run; exact Hcomp).
    apply lift_run. exact Hgoals. }
  apply (panes_only_trans _ s1); [exact H1|].
  apply (panes_only_trans _ s2); [exact H2|].
  unfold panes_only. cbn.
  split.
  { apply (only_progress_changed_trans _ a3); [|exact H4].
    unfold only_progress_changed. rewrite Hdb, Hd, Hp. tauto. }
  repeat split; congruence.
Qed.

(** ** Saving an entry *)

Lemma save_entry_complete rejects refuses strptime date_in strftime f s :
  form_complete strptime f ->
  save_entry rejects refuses strptime date_in strftime f s
  = save_checked rejects refuses date_in strftime f s.
Proof.
  intros (Htitle & Htype & Hdate & Hparse & Hlow & Hhigh).
  unfold save_entry, save_checked. fold (selected_comps f). fold (stored_text f).
  rewrite (eqb_empty_false _ Htitle), (eqb_empty_false _ Htype), (eqb_empty_false _ Hdate).
  cbn [orb].
  destruct (strptime (date_entry f)) as [day|]; [|contradiction].
  destruct (List.length (selected_comps f) =? 0)%nat eqn:Hzero.
  { apply Nat.eqb_eq in Hzero. lia. }
  destruct (3 <? List.length (selected_comps f))%nat eqn:Hmany.
  { apply Nat.ltb_lt in Hmany. lia. }
  reflexivity.
Qed.

(** X23. A form that fails a check of [save_entry] (title, type or date
    left empty, a date [strptime] does not read, no competency ticked or
    more than three) gets one warning and nothing else: no statement is
    sent, no entry stored, no message box shown. *)
Theorem save_entry_rejects_incomplete_form
  (rejects : oracle) (refuses : oracle_w) (strptime date_in : string -> option date)
  (strftime : Z -> string) (f : form) (s : session) :
  title_entry f = ""%string \/ type_combo f = ""%string \/ date_entry f = ""%string
  \/ strptime (date_entry f) = None
  \/ List.length (filter fst (comp_vars f)) = 0%nat
  \/ (3 < List.length (filter fst (comp_vars f)))%nat ->
  exists message,
    save_entry rejects refuses strptime date_in strftime f s
    = (Returned tt, set_warnings (warnings s ++ [("Предупреждение"%string, message)]) s).
Proof.
  intros H. unfold save_entry, try_except_w, messagebox_showwarning, modify_w.
  rewrite length_map.
  destruct (String.eqb (title_entry f) "") eqn:Htitle; [eexists; reflexivity|].
  destruct (String.eqb (type_combo f) "") eqn:Htype; [eexists; reflexivity|].
  destruct (String.eqb (date_entry f) "") eqn:Hdate; [eexists; reflexivity|].
  cbn [orb].
  destruct (strptime (date_entry f)) as [day|] eqn:Hparse; [|eexists; reflexivity].
  destruct (List.length (filter fst (comp_vars f)) =? 0)%nat eqn:Hzero;
    [eexists; reflexivity|].
  destruct (3 <? List.length (filter fst (comp_vars f)))%nat eqn:Hmany;
    [eexists; reflexivity|].
  exfalso.
  apply String.eqb_neq in Htitle, Htype, Hdate.
  apply Nat.eqb_neq in Hzero. apply Nat.ltb_ge in Hmany.
  destruct H as [H | [H | [H | [H | [H | H]]]]];
    try contradiction; try discriminate; lia.
Qed.

(** *** The keywords of a new entry *)

Lemma find_app_some {A : Type} (p : A -> bool) l l' x :
  find p l = Some x -> find p (l ++ l') = Some x.
Proof.
  induction l as [|y l IH]; [discriminate|].
  cbn. destruct (p y); [auto | exact IH].
Qed.

Lemma find_app_none {A : Type} (p : A -> bool) l l' :
  find p l = None -> find p (l ++ l') = find p l'.
Proof.
  induction l as [|y l IH]; [reflexivity|].
  cbn. destruct (p y); [discriminate | exact IH].
Qed.

Lemma existsb_find {A : Type} (p : A -> bool) l :
  existsb p l = true -> exists x, find p l = Some x /\ In x l /\ p x = true.
Proof.
  induction l as [|y l IH]; [discriminate|].
  cbn. destruct (p y) eqn:Hy.
  - intros _. exists y. auto.
  - intros H. destruct (IH H) as (x & Hfind & Hin & Hx). exists x. auto.
Qed.

Lemma existsb_false_find {A : Type} (p : A -> bool) l :
  existsb p l = false -> find p l = None.
Proof.
  induction l as [|y l IH]; [reflexivity|].
  cbn. destruct (p y); [discriminate | exact IH].
Qed.

Lemma linked_later eid kws kseq eks tr s keyword :
  linked eid s keyword ->
  linked eid (with_keywords kws kseq eks tr s) keyword.
Proof.
  intros (id & Hid & Hlink). exists id. unfold keyword_id_of in *. cbn.
  destruct (find _ (keywords s)) as [row|] eqn:Hfind; [|discriminate].
  rewrite (find_app_some _ _ _ _ Hfind). split; [exact Hid|].
  apply in_or_app. left. exact Hlink.
Qed.

Lemma with_keywords_twice kws kseq eks tr kws' kseq' eks' tr' s :
  with_keywords kws' kseq' eks' tr' (with_keywords kws kseq eks tr s)
  = with_keywords (kws ++ kws') kseq' (eks ++ eks') (tr ++ tr') s.
Proof.
  unfold with_keywords. cbn. rewrite <- !app_assoc. reflexivity.
Qed.

Lemma keyword_step_run date_in eid keyword s :
  existsb (fun r => entry_id r =? eid)%Z (entries (tables s)) = true ->
  Forall (fun r => keyword_id r <= keywords_id_seq s) (keywords s) ->
  exists kws eks id,
    keyword_step reliable_w date_in eid keyword s
    = (Returned tt,
       with_keywords kws (keywords_id_seq s + 1) eks
         [InsertKeyword keyword; InsertEntryKeyword eid id] s)
    /\ Forall (fun r => keyword_id r <= keywords_id_seq s + 1) (keywords s ++ kws)
    /\ (forall x, In x (map keyword_text kws) -> x = keyword)
    /\ linked eid
         (with_keywords kws (keywords_id_seq s + 1) eks
            [InsertKeyword keyword; InsertEntryKeyword eid id] s) keyword.
Proof.
  intros Hentry Hseq.
  set (s0 := set_sent (sent s ++ [InsertKeyword keyword]) s).
  set (seq' := keywords_id_seq s + 1).
  assert (Hfresh : existsb (fun k => keyword_id k =? seq') (keywords s) = false).
  { apply not_true_is_false. intros H. apply existsb_exists in H.
    destruct H as (r & Hin & Hid). rewrite Forall_forall in Hseq.
    specialize (Hseq r Hin). unfold seq' in Hid. lia. }
  assert (Hbound : forall kws,
             Forall (fun r => keyword_id r <= seq') kws ->
             Forall (fun r => keyword_id r <= seq') (keywords s ++ kws)).
  { intros kws Hk. apply Forall_app. split; [|exact Hk].
    eapply Forall_impl; [|exact Hseq]. cbn. unfold seq'. intros; lia. }
  assert (Hupsert : exists kws id,
             execute_w reliable_w date_in (InsertKeyword keyword) s
             = (Returned tt, set_keywords (keywords s ++ kws) seq' s0)
             /\ Forall (fun r => keyword_id r <= seq') kws
             /\ (forall x, In x (map keyword_text kws) -> x = keyword)
             /\ keyword_id_of keyword (set_keywords (keywords s ++ kws) seq' s0) = Some id
             /\ existsb (fun r => keyword_id r =? id) (keywords s ++ kws) = true).
  { unfold execute_w. cbn [reliable_w run]. fold s0.
    change (keywords s0) with (keywords s). change (keywords_id_seq s0 + 1) with seq'.
    destruct (existsb (fun k => String.eqb (keyword_text k) keyword) (keywords s))
      eqn:Hknown.
    - destruct (existsb_find _ _ Hknown) as (row & Hfind & Hin & _).
      exists [], (keyword_id row). rewrite app_nil_r.
      split; [reflexivity|]. split; [constructor|]. split; [intros x []|].
      split.
      + unfold keyword_id_of. cbn. rewrite Hfind. reflexivity.
      + apply existsb_exists. exists row. split; [exact Hin | apply Z.eqb_refl].
    - rewrite Hfresh.
      exists [mkKeyword seq' keyword], seq'.
      split; [reflexivity|].
      split; [repeat constructor; cbn; lia|].
      split; [intros x [<- | []]; reflexivity|].
      split.
      + unfold keyword_id_of. cbn.
        rewrite (find_app_none _ _ _ (existsb_false_find _ _ Hknown)).
        cbn. rewrite String.eqb_refl. reflexivity.
      + rewrite existsb_app. cbn. rewrite Z.eqb_refl, orb_true_r. reflexivity. }
  destruct Hupsert as (kws & id & Hupsert & Hkws & Htexts & Hid & Hrow).
  set (s1 := set_keywords (keywords s ++ kws) seq' s0) in *.
  assert (Hlink : exists eks,
             execute_w reliable_w date_in (InsertEntryKeyword eid id) s1
             = (Returned tt,
                with_keywords kws seq' eks
                  [InsertKeyword keyword; InsertEntryKeyword eid id] s)
             /\ In (mkEntryKeyword eid id) (entry_keywords s ++ eks)).
  { unfold execute_w. cbn [reliable_w run].
    set (s2 := set_sent (sent s1 ++ [InsertEntryKeyword eid id]) s1).
    change (entry_keywords s2) with (entry_keywords s).
    change (keywords s2) with (keywords s ++ kws).
    change (tables s2) with (tables s).
    destruct (existsb (fun r => (ek_entry_id r =? eid) && (ek_keyword_id r =? id))
                (entry_keywords s)) eqn:Hpair.
    - exists []. split.
      + unfold with_keywords, s2, s1, s0. cbn. rewrite app_nil_r, <- app_assoc.
        reflexivity.
      + rewrite app_nil_r. apply existsb_exists in Hpair.
        destruct Hpair as ([e k] & Hin & Hids). cbn in Hids.
        apply andb_true_iff in Hids. destruct Hids as [He Hk].
        apply Z.eqb_eq in He, Hk. subst. exact Hin.
    - rewrite Hentry, Hrow. cbn [andb].
      exists [mkEntryKeyword eid id]. split.
      + unfold with_keywords, s2, s1, s0. cbn. rewrite <- app_assoc. reflexivity.
      + apply in_or_app. right. left. reflexivity. }
  destruct Hlink as (eks & Hlink & Hin).
  exists kws, eks, id. split.
  { unfold keyword_step, query_w.
    rewrite <- bind_w_assoc.
    rewrite (bind_w_returned _ _ _ _ _ Hupsert).
    rewrite (bind_w_returned _ _ _ (keyword_id_of keyword s1) s1) by reflexivity.
    rewrite Hid. cbn [subscript0_w].
    rewrite (bind_w_returned _ _ _ id s1) by reflexivity.
    exact Hlink. }
  split; [apply Hbound; exact Hkws|].
  split; [exact Htexts|].
  exists id. split; [|exact Hin].
  unfold keyword_id_of in *. cbn in *. exact Hid.
Qed.

Lemma keyword_loop_run date_in eid ks :
  forall s,
    existsb (fun r => entry_id r =? eid)%Z (entries (tables s)) = true ->
    Forall (fun r => keyword_id r <= keywords_id_seq s) (keywords s) ->
    exists kws kseq eks tr,
      for_each_w ks (keyword_step reliable_w date_in eid) s
      = (Returned tt, with_keywords kws kseq eks tr s)
      /\ Forall (fun r => keyword_id r <= kseq) (keywords s ++ kws)
      /\ (forall x, In x (map keyword_text kws) -> In x ks)
      /\ Forall (linked eid (with_keywords kws kseq eks tr s)) ks
      /\ keyword_inserts tr = ks
      /\ Forall (fun q => match q with
                          | InsertKeyword _ | InsertEntryKeyword _ _ => True
                          | _ => False
                          end) tr.
Proof.
  induction ks as [|k ks IH]; intros s Hentry Hseq.
  - exists [], (keywords_id_seq s), [], []. split.
    { cbn. unfold with_keywords, unit_w. rewrite !app_nil_r. destruct s; reflexivity. }
    rewrite app_nil_r. repeat split; auto.
  - destruct (keyword_step_run date_in eid k s Hentry Hseq)
      as (kws1 & eks1 & id & Hstep & Hbound & Htexts & Hlinked).
    set (s1 := with_keywords kws1 (keywords_id_seq s + 1) eks1
                 [InsertKeyword k; InsertEntryKeyword eid id] s) in *.
    destruct (IH s1) as (kws2 & kseq & eks2 & tr2 & Hrun & Hbound2 & Htexts2 & Hlinked2
                         & Htrace & Hkinds).
    { exact Hentry. }
    { exact Hbound. }
    exists (kws1 ++ kws2), kseq, (eks1 ++ eks2),
      ([InsertKeyword k; InsertEntryKeyword eid id] ++ tr2).
    unfold s1 in Hrun, Hlinked2. rewrite with_keywords_twice in Hrun, Hlinked2.
    split.
    { cbn [for_each_w]. rewrite (bind_w_returned _ _ _ _ _ Hstep). exact Hrun. }
    split.
    { rewrite app_assoc. exact Hbound2. }
    split.
    { intros x Hx. rewrite map_app in Hx. apply in_app_or in Hx.
      destruct Hx as [Hx | Hx]; [left; symmetry; exact (Htexts x Hx)|].
      right. exact (Htexts2 x Hx). }
    split.
    { constructor; [|exact Hlinked2].
      rewrite <- (with_keywords_twice kws1 (keywords_id_seq s + 1) eks1
                    [InsertKeyword k; InsertEntryKeyword eid id] kws2 kseq eks2 tr2 s).
      apply linked_later. exact Hlinked. }
    split.
    { cbn. f_equal. exact Htrace. }
    constructor; [exact I|]. constructor; [exact I | exact Hkinds].
Qed.

(** *** The grades of a new entry *)

Lemma with_grades_twice grades tr grades' tr' s :
  with_grades grades' tr' (with_grades grades tr s)
  = with_grades (grades ++ grades') (tr ++ tr') s.
Proof.
  unfold with_grades, tables. cbn. rewrite <- !app_assoc. reflexivity.
Qed.

Lemma grade_loop_run date_in eid selected :
  forall s,
    existsb (fun r => entry_id r =? eid)%Z (entries (tables s)) = true ->
    Forall (fun c =>
              1 <= snd c <= 5
              /\ existsb (fun r => competency_id r =? fst c) (competencies (tables s)) = true)
      selected ->
    NoDup (map fst selected) ->
    (forall g c, In g (entry_competencies (tables s)) -> In c selected ->
                 ec_entry_id g = eid -> ec_competency_id g <> fst c) ->
    for_each_w selected (fun c => execute_w reliable_w date_in (insert_grade eid c)) s
    = (Returned tt,
       with_grades (map (grade_of eid) selected) (map (insert_grade eid) selected) s).
Proof.
  induction selected as [|c rest IH]; intros s Hentry Hvalid Hdistinct Hnew.
  - cbn. unfold with_grades, unit_w, tables. rewrite !app_nil_r.
    destruct s as [w]. destruct w as [d]. destruct d. reflexivity.
  - inversion Hvalid as [|? ? (Hlevel & Hknown) Hvalid']; subst.
    inversion Hdistinct as [|? ? Hhead Hdistinct']; subst.
    assert (Hstep : execute_w reliable_w date_in (insert_grade eid c) s
                    = (Returned tt, with_grades [grade_of eid c] [insert_grade eid c] s)).
    { unfold execute_w, insert_grade. cbn [reliable_w run].
      set (s0 := set_sent _ s).
      change (tables s0) with (tables s).
      destruct (1 <=? snd c) eqn:Hlow; [|lia].
      destruct (snd c <=? 5) eqn:Hhigh; [|lia].
      cbn [andb negb].
      destruct (existsb (fun r => (ec_entry_id r =? eid) && (ec_competency_id r =? fst c))
                  (entry_competencies (tables s))) eqn:Hpair.
      { apply existsb_exists in Hpair. destruct Hpair as (g & Hin & Hids).
        apply andb_true_iff in Hids. destruct Hids as [He Hc].
        apply Z.eqb_eq in He, Hc.
        exfalso. exact (Hnew g c Hin (or_introl eq_refl) He Hc). }
      rewrite Hentry, Hknown. reflexivity. }
    cbn [for_each_w]. rewrite (bind_w_returned _ _ _ _ _ Hstep).
    rewrite IH.
    + rewrite with_grades_twice. reflexivity.
    + exact Hentry.
    + exact Hvalid'.
    + exact Hdistinct'.
    + unfold with_grades, tables. cbn. intros g c' Hin Hc' He.
      apply in_app_or in Hin. destruct Hin as [Hin | [<- | []]].
      * exact (Hnew g c' Hin (or_intror Hc') He).
      * cbn. intros Heq. apply Hhead. rewrite Heq. apply in_map. exact Hc'.
Qed.

(** *** The statements up to the commit *)

Lemma store_entry_run rejects date_in f day ks s :
  storable date_in f day s ->
  rejects (List.length (issued (window s))) Commit = None ->
  exists kws kseq eks tr,
    store_entry rejects reliable_w date_in f (stored_text f) (selected_comps f) ks s
    = (Returned (entries_id_seq s + 1), stored f day kws kseq eks tr s)
    /\ (forall x, In x (map keyword_text kws) -> In x ks)
    /\ Forall (linked (entries_id_seq s + 1) (stored f day kws kseq eks tr s)) ks
    /\ keyword_inserts tr = ks
    /\ Forall (fun q => match q with
                        | InsertKeyword _ | InsertEntryKeyword _ _ => True
                        | _ => False
                        end) tr.
Proof.
  intros (Hdate & Hlevel & Hdistinct & Hknown & Hentries & Hgrades & Hkeywords) Hcommit.
  set (id := entries_id_seq s + 1).
  set (s0 := set_sent (sent s ++ [insert_entry f]) s).
  set (s1 := set_tables (set_entries (entries (tables s) ++ [new_entry f id day]) (tables s))
               (set_entries_id_seq id s0)).
  assert (Hinsert : query_w reliable_w date_in (insert_entry f) entries_id_seq s
                    = (Returned id, s1)).
  { unfold query_w. rewrite (bind_w_returned _ _ _ tt s1); [reflexivity|].
    unfold execute_w, insert_entry. cbn [reliable_w run]. rewrite Hdate.
    fold (insert_entry f). fold s0.
    change (tables s0) with (tables s). change (entries_id_seq s0 + 1) with id.
    replace (existsb (fun e => entry_id e =? id) (entries (tables s))) with false;
      [reflexivity|].
    symmetry. apply not_true_is_false. intros H. apply existsb_exists in H.
    destruct H as (e & Hin & Hid). rewrite Forall_forall in Hentries.
    specialize (Hentries e Hin). unfold id in Hid. lia. }
  assert (Hentry : existsb (fun r => entry_id r =? id) (entries (tables s1)) = true).
  { unfold tables. cbn. rewrite existsb_app. cbn. rewrite Z.eqb_refl, orb_true_r.
    reflexivity. }
  destruct (keyword_loop_run date_in id ks s1 Hentry Hkeywords)
    as (kws & kseq & eks & tr & Hloop & _ & Htexts & Hlinked & Htrace & Hkinds).
  set (s2 := with_keywords kws kseq eks tr s1) in *.
  pose proof (grade_loop_run date_in id (selected_comps f) s2) as Hgrade.
  set (s3 := with_grades _ _ s2) in Hgrade.
  assert (Hfinal : set_window
                     (set_db (db (window s3))
                        (set_issued (issued (window s3) ++ [Commit]) (window s3))) s3
                   = stored f day kws kseq eks tr s).
  { unfold stored, s3, s2, s1, s0, with_grades, with_keywords, tables. fold id. cbn.
    rewrite <- !app_assoc. reflexivity. }
  exists kws, kseq, eks, tr. split.
  { unfold store_entry. fold (insert_entry f).
    rewrite (bind_w_returned _ _ _ _ _ Hinsert).
    rewrite (bind_w_returned _ _ _ _ _ Hloop).
    rewrite (bind_w_returned _ _ _ tt s3).
    2:{ apply Hgrade.
        - exact Hentry.
        - apply Forall_forall. intros c Hc. split.
          + unfold selected_comps in Hc. apply in_map_iff in Hc.
            destruct Hc as (v & <- & _). exact Hlevel.
          + rewrite Forall_forall in Hknown. specialize (Hknown c Hc).
            apply in_map_iff in Hknown. destruct Hknown as (r & Hid & Hin).
            apply existsb_exists. exists r. split; [exact Hin|].
            apply Z.eqb_eq. exact Hid.
        - exact Hdistinct.
        - intros g c Hin _ He. rewrite Forall_forall in Hgrades.
          specialize (Hgrades g Hin). unfold id in He. lia. }
    rewrite (bind_w_returned _ _ _ tt (stored f day kws kseq eks tr s)).
    2:{ rewrite <- Hfinal. apply lift_run. unfold execute.
        change (issued (window s3)) with (issued (window s)). rewrite Hcommit.
        reflexivity. }
    reflexivity. }
  split; [exact Htexts|]. split; [|split; [exact Htrace | exact Hkinds]].
  eapply Forall_impl; [|exact Hlinked].
  intros k (kid & Hkid & Hlink). exists kid. split; [exact Hkid | exact Hlink].
Qed.

(** *** Up to the evaluation of the achievements *)

Lemma try_bind_returned {A B : Type} (m : W A) (k : A -> W B) (h : exn -> W B) s x s' :
  m s = (Returned x, s') ->
  try_except_w (bind_w m k) h s = try_except_w (k x) h s'.
Proof.
  intros H. unfold try_except_w. rewrite (bind_w_returned _ _ _ _ _ H). reflexivity.
Qed.

Lemma save_checked_stored rejects date_in strftime f day s :
  storable date_in f day s ->
  rejects (List.length (issued (window s))) Commit = None ->
  exists kws kseq eks tr,
    save_checked rejects reliable_w date_in strftime f s
    = after_commit rejects reliable_w date_in strftime (entries_id_seq s + 1)
        (listed (stored f day kws kseq eks tr (noted f s)))
    /\ (forall x, In x (map keyword_text kws) -> In x (saved_keywords f))
    /\ Forall (linked (entries_id_seq s + 1)
                 (listed (stored f day kws kseq eks tr (noted f s))))
         (saved_keywords f)
    /\ keyword_inserts tr = saved_keywords f
    /\ Forall (fun q => match q with
                        | InsertKeyword _ | InsertEntryKeyword _ _ => True
                        | _ => False
                        end) tr.
Proof.
  intros Hstorable Hcommit.
  assert (Hnote : (if (5 <? List.length (stripped_pieces (keywords_combo f)))%nat
                   then lift (messagebox_showinfo "Информация"
                                "Выбрано более 5 ключевых слов. Сохранены первые 5.") ;;
                        unit_w (firstn 5 (stripped_pieces (keywords_combo f)))
                   else unit_w (stripped_pieces (keywords_combo f))) s
                  = (Returned (saved_keywords f), noted f s)).
  { unfold noted, saved_keywords.
    destruct (5 <? List.length (stripped_pieces (keywords_combo f)))%nat eqn:Hmany.
    - reflexivity.
    - apply Nat.ltb_ge in Hmany. rewrite firstn_all2 by exact Hmany. reflexivity. }
  assert (Hstorable' : storable date_in f day (noted f s)).
  { unfold noted. destruct (5 <? _)%nat; exact Hstorable. }
  assert (Hcommit' : rejects (List.length (issued (window (noted f s)))) Commit = None).
  { unfold noted. destruct (5 <? _)%nat; exact Hcommit. }
  assert (Hseq : entries_id_seq (noted f s) = entries_id_seq s).
  { unfold noted. destruct (5 <? _)%nat; reflexivity. }
  destruct (store_entry_run rejects date_in f day (saved_keywords f) (noted f s)
              Hstorable' Hcommit')
    as (kws & kseq & eks & tr & Hstore & Htexts & Hlinked & Htrace & Hkinds).
  rewrite Hseq in Hstore, Hlinked.
  exists kws, kseq, eks, tr. split.
  { unfold save_checked, after_commit.
    rewrite (try_bind_returned _ _ _ _ _ _ Hnote).
    rewrite (try_bind_returned _ _ _ _ _ _ Hstore).
    set (s1 := stored f day kws kseq eks tr (noted f s)).
    rewrite (try_bind_returned _ _ _ s1 tt
               (set_used_keywords (select_keywords s1)
                  (set_sent (sent s1 ++ [SelectKeywords]) s1))) by reflexivity.
    rewrite (try_bind_returned _ _ _ _ tt
               (set_keywords_listbox (select_keywords s1)
                  (set_used_keywords (select_keywords s1)
                     (set_sent (sent s1 ++ [SelectKeywords]) s1)))) by reflexivity.
    rewrite (try_bind_returned _ _ _ _ tt (listed s1)) by reflexivity.
    reflexivity. }
  split; [exact Htexts|]. split; [|split; [exact Htrace | exact Hkinds]].
  eapply Forall_impl; [|exact Hlinked].
  intros k (kid & Hkid & Hlink). exists kid. split; [exact Hkid | exact Hlink].
Qed.

(** *** The evaluator inside [save_entry] *)

Lemma unlock_achievement_notes rejects name user a :
  exists notes,
    dialogs (snd (unlock_achievement rejects name user a)) = dialogs a ++ notes
    /\ Forall is_info notes.
Proof.
  unfold unlock_achievement.
  unfold try_except, query, when, bind, execute, subscript0, get, modify,
    messagebox_showinfo, messagebox_showerror, print, ret, raise.
  repeat (cbn; split_match); cbn.
  all: try (exists []; rewrite app_nil_r; split; [reflexivity | constructor]).
  all: eexists; split; [reflexivity|]; repeat constructor.
Qed.

Lemma check_achievements_notes rejects eid a :
  exists notes,
    dialogs (snd (check_achievements rejects eid a)) = dialogs a ++ notes
    /\ Forall is_info notes.
Proof.
  pose proof (check_achievements_invariant rejects a
                (fun a1 =>
                   entries (db a1) = entries (db a)
                   /\ today a1 = today a
                   /\ exists notes, dialogs a1 = dialogs a ++ notes /\ Forall is_info notes))
    as H.
  apply H.
  - intros a1 H1. apply H1.
  - intros a1 H1. apply H1.
  - intros a1 s _ H1. exact H1.
  - intros a1 name _ (He & Ht & notes & Hd & Hnotes).
    destruct (unlock_achievement_run rejects name 1 a1)
      as (a2 & tr & Hrun & _ & _ & He2 & _ & Ht2).
    destruct (unlock_achievement_notes rejects name 1 a1) as (notes2 & Hd2 & Hnotes2).
    rewrite Hrun in *. cbn [snd] in *.
    split; [congruence|]. split; [congruence|].
    exists (notes ++ notes2). rewrite Hd2, Hd, app_assoc. split; [reflexivity|].
    apply Forall_app. split; assumption.
  - split; [reflexivity|]. split; [reflexivity|].
    exists []. rewrite app_nil_r. split; [reflexivity | constructor].
Qed.

Lemma check_achievements_first_query_rejected rejects eid a msg :
  rejects (List.length (issued a)) CountEntries = Some msg ->
  check_achievements rejects eid a
  = (Raised (OperationalError msg), set_issued (issued a ++ [CountEntries]) a).
Proof.
  intros H. unfold check_achievements, bind, query, bind, execute. rewrite H. reflexivity.
Qed.

(** X24. When the store accepts the entry and its commit and then rejects
    the first query of [check_achievements], [save_entry] on a complete
    form returns with the entry and its grades stored, yet the one message
    box it adds after the keyword note is an error box carrying the
    store's message: the success note is not shown and no pane is
    refreshed. *)
Theorem save_entry_reports_evaluator_failure
  (rejects : oracle) (strptime date_in : string -> option date) (strftime : Z -> string)
  (f : form) (day : date) (s : session) (msg : string) :
  form_complete strptime f ->
  storable date_in f day s ->
  rejects (List.length (issued (window s))) Commit = None ->
  rejects (S (List.length (issued (window s)))) CountEntries = Some msg ->
  let r := save_entry rejects reliable_w strptime date_in strftime f s in
  let id := entries_id_seq s + 1 in
  fst r = Returned tt
  /\ entries (tables (snd r)) = entries (tables s) ++ [new_entry f id day]
  /\ entry_competencies (tables (snd r))
     = entry_competencies (tables s) ++ map (grade_of id) (selected_comps f)
  /\ issued (window (snd r)) = issued (window s) ++ [Commit; CountEntries]
  /\ dialogs (window (snd r))
     = dialogs (window (noted f s))
         ++ [ErrorBox "Ошибка" ("Ошибка при сохранении: " ++ msg)]
  /\ research_text (snd r) = research_text s
  /\ achievements_text (snd r) = achievements_text s
  /\ competencies_text (window (snd r)) = competencies_text (window s)
  /\ goals_text (window (snd r)) = goals_text (window s).
Proof.
  intros Hform Hstorable Hcommit Hquery r id. subst r.
  rewrite (save_entry_complete _ _ _ _ _ _ _ Hform).
  destruct (save_checked_stored rejects date_in strftime f day s Hstorable Hcommit)
    as (kws & kseq & eks & tr & Hrun & _).
  rewrite Hrun. clear Hrun.
  set (s2 := listed (stored f day kws kseq eks tr (noted f s))).
  assert (Hlength : List.length (issued (window s2)) = S (List.length (issued (window s)))).
  { unfold s2, noted. destruct (5 <? _)%nat; cbn; rewrite length_app; cbn; lia. }
  rewrite <- Hlength in Hquery.
  unfold after_commit.
  rewrite (try_except_w_raised _ _ _ (OperationalError msg)
             (set_window (set_issued (issued (window s2) ++ [CountEntries]) (window s2)) s2)).
  2:{ apply bind_w_raised. apply lift_run.
      apply check_achievements_first_query_rejected. exact Hquery. }
  unfold s2, noted, tables. destruct (5 <? _)%nat; cbn; rewrite <- !app_assoc;
    repeat split.
Qed.

Lemma save_entry_reports_evaluator_failure_witness :
  let r := save_entry (fails_at 1 "connection lost") reliable_w sample_date sample_date
             (fun _ => ""%string) first_form (opened profile_loaded) in
  map entry_title (entries (tables (snd r))) = ["Доклад на семинаре"%string]
  /\ dialogs (window (snd r))
     = [ErrorBox "Ошибка" "Ошибка при сохранении: connection lost"].
Proof.
  intros r.
  destruct (save_entry_reports_evaluator_failure (fails_at 1 "connection lost")
              sample_date sample_date (fun _ => ""%string) first_form (mkDate 2025 9 1)
              (opened profile_loaded) "connection lost")
    as (_ & Hentries & _ & _ & Hdialogs & _).
  - repeat split; try discriminate; cbn; lia.
  - repeat split; try (cbn; lia); try reflexivity; repeat constructor; cbn; auto.
  - reflexivity.
  - reflexivity.
  - fold r in Hentries, Hdialogs. rewrite Hentries, Hdialogs. split; reflexivity.
Defined.

(** *** Over a store that answers *)

Lemma linked_in_table eid s keyword :
  linked eid s keyword -> In keyword (map keyword_text (keywords s)).
Proof.
  intros (id & Hid & _). unfold keyword_id_of in Hid.
  destruct (find _ (keywords s)) as [row|] eqn:Hfind; [|discriminate].
  apply find_some in Hfind. destruct Hfind as [Hin Heq].
  apply String.eqb_eq in Heq. rewrite <- Heq. apply in_map. exact Hin.
Qed.

Lemma after_commit_run rejects refuses date_in strftime eid s2 a3 s' :
  check_achievements rejects eid (window s2) = (Returned tt, a3) ->
  update_all_tabs rejects refuses date_in strftime
    (set_window (set_dialogs (dialogs a3 ++ [InfoBox "Успех" "Запись сохранена"]) a3) s2)
  = (Returned tt, s') ->
  after_commit rejects refuses date_in strftime eid s2 = (Returned tt, s').
Proof.
  intros Hcheck Htabs.
  unfold after_commit. apply try_except_w_returned.
  rewrite (bind_w_returned _ _ _ tt (set_window a3 s2))
    by (apply lift_run; exact Hcheck).
  rewrite (bind_w_returned _ _ _ tt
             (set_window
                (set_dialogs (dialogs a3 ++ [InfoBox "Успех" "Запись сохранена"]) a3) s2))
    by reflexivity.
  exact Htabs.
Qed.

(** The run of [save_entry] on a complete form over an answering store. *)
Lemma save_entry_run strptime date_in strftime f day s :
  form_complete strptime f ->
  storable date_in f day s ->
  exists kws kseq eks tr a3 s',
    let s2 := listed (stored f day kws kseq eks tr (noted f s)) in
    save_entry reliable reliable_w strptime date_in strftime f s = (Returned tt, s')
    /\ check_achievements reliable (entries_id_seq s + 1) (window s2) = (Returned tt, a3)
    /\ panes_only
         (set_window
            (set_dialogs (dialogs a3 ++ [InfoBox "Успех" "Запись сохранена"]) a3) s2) s'
    /\ (forall x, In x (map keyword_text kws) -> In x (saved_keywords f))
    /\ Forall (linked (entries_id_seq s + 1) s2) (saved_keywords f)
    /\ keyword_inserts tr = saved_keywords f.
Proof.
  intros Hform Hstorable.
  rewrite (save_entry_complete _ _ _ _ _ _ _ Hform).
  destruct (save_checked_stored reliable date_in strftime f day s Hstorable eq_refl)
    as (kws & kseq & eks & tr & Hrun & Htexts & Hlinked & Htrace & _).
  rewrite Hrun. clear Hrun.
  set (s2 := listed (stored f day kws kseq eks tr (noted f s))) in *.
  destruct (check_achievements_run reliable (entries_id_seq s + 1) (window s2)
              reliable_answers) as (a3 & _ & _ & _ & _ & _ & _ & Hcheck & _).
  set (s3 := set_window
               (set_dialogs (dialogs a3 ++ [InfoBox "Успех" "Запись сохранена"]) a3) s2).
  destruct (update_all_tabs_returns reliable reliable_w date_in strftime s3)
    as (s' & Htabs & Hpanes).
  exists kws, kseq, eks, tr, a3, s'. cbv zeta. fold s2. fold s3.
  split; [exact (after_commit_run _ _ _ _ _ s2 a3 s' Hcheck Htabs)|].
  split; [exact Hcheck|]. split; [exact Hpanes|]. split; [exact Htexts|].
  split; [exact Hlinked | exact Htrace].
Qed.

(** X25. Over a store that answers, [save_entry] on a complete form the
    store can take returns with exactly one entry added, under the next
    id, holding the title, type and date of the form, the description
    stripped and the coauthors as typed; each ticked competency is graded
    for it with the chosen level; every message box added is a note, the
    last one the success note; no warning is shown; and each keyword kept
    is in the keyword table, linked to the entry and listed in the
    reloaded keyword list, which the list box and the combo box show. *)
Theorem save_entry_stores_entry
  (strptime date_in : string -> option date) (strftime : Z -> string)
  (f : form) (day : date) (s : session) :
  form_complete strptime f ->
  storable date_in f day s ->
  let id := entries_id_seq s + 1 in
  exists s',
    save_entry reliable reliable_w strptime date_in strftime f s = (Returned tt, s')
    /\ entries (tables s') = entries (tables s) ++ [new_entry f id day]
    /\ entry_competencies (tables s')
       = entry_competencies (tables s) ++ map (grade_of id) (selected_comps f)
    /\ (exists notes,
          dialogs (window s')
          = dialogs (window s) ++ notes ++ [InfoBox "Успех" "Запись сохранена"]
          /\ Forall is_info notes)
    /\ warnings s' = warnings s
    /\ Forall (linked id s') (saved_keywords f)
    /\ Forall (fun k => In k (used_keywords s')) (saved_keywords f)
    /\ keywords_listbox s' = used_keywords s'
    /\ keywords_combo_values s' = used_keywords s'.
Proof.
  intros Hform Hstorable id.
  destruct (save_entry_run strptime date_in strftime f day s Hform Hstorable)
    as (kws & kseq & eks & tr & a3 & s' & Hrun & Hcheck & Hpanes & _ & Hlinked & _).
  cbv zeta in *.
  set (s2 := listed (stored f day kws kseq eks tr (noted f s))) in *.
  pose proof (check_achievements_grows reliable (entries_id_seq s + 1) (window s2))
    as Hgrows.
  destruct (check_achievements_notes reliable (entries_id_seq s + 1) (window s2))
    as (notes & Hnotes & Hinfo).
  rewrite Hcheck in Hgrows, Hnotes. cbn [snd] in Hgrows, Hnotes.
  destruct Hgrows as (He & _ & _ & Hg & _).
  destruct Hpanes as ((He' & _ & _ & _ & Hg' & _ & Hd' & _) & _ & _ & _ & Hk & Hek & _
                      & _ & _ & Hused & Hbox & Hcombo & _ & Hw).
  cbn [window set_window] in He', Hg', Hd'.
  cbn in Hk, Hek, Hused, Hbox, Hcombo, Hw.
  exists s'. split; [exact Hrun|].
  unfold tables.
  split. { rewrite He'. cbn. rewrite He. unfold s2, noted, tables.
           destruct (5 <? _)%nat; reflexivity. }
  split. { rewrite Hg'. cbn. rewrite Hg. unfold s2, noted, tables.
           destruct (5 <? _)%nat; reflexivity. }
  split.
  { rewrite Hd'. cbn. rewrite Hnotes.
    unfold s2, noted. destruct (5 <? _)%nat; cbn.
    - eexists (InfoBox _ _ :: notes). rewrite <- !app_assoc. cbn.
      split; [reflexivity|]. constructor; [exact I | exact Hinfo].
    - exists notes. rewrite <- !app_assoc. split; [reflexivity | exact Hinfo]. }
  split. { rewrite Hw. unfold s2, noted. destruct (5 <? _)%nat; reflexivity. }
  assert (Hlinked' : Forall (linked id s') (saved_keywords f)).
  { eapply Forall_impl; [|exact Hlinked].
    intros k (kid & Hkid & Hlink). exists kid.
    unfold keyword_id_of in *. rewrite Hk, Hek. split; [exact Hkid | exact Hlink]. }
  split; [exact Hlinked'|].
  split.
  { eapply Forall_impl; [|exact Hlinked].
    intros k Hk'. rewrite Hused. apply order_by_In.
    apply linked_in_table in Hk'. exact Hk'. }
  split; [rewrite Hbox, Hused | rewrite Hcombo, Hused]; reflexivity.
Qed.

Lemma save_entry_stores_entry_witness :
  exists s',
    save_entry reliable reliable_w sample_date sample_date (fun _ => ""%string)
      first_form (opened profile_loaded)
    = (Returned tt, s')
    /\ map entry_id (entries (tables s')) = [1]
    /\ entry_competencies (tables s') = [mkEntryCompetency 1 1 4].
Proof.
  destruct (save_entry_stores_entry sample_date sample_date (fun _ => ""%string)
              first_form (mkDate 2025 9 1) (opened profile_loaded))
    as (s' & Hrun & Hentries & Hgrades & _).
  - repeat split; try discriminate; cbn; lia.
  - repeat split; try (cbn; lia); try reflexivity; repeat constructor; cbn; auto.
  - exists s'. rewrite Hentries, Hgrades. repeat split; [exact Hrun].
Defined.

(** X26. Saving an entry unlocks what it earns: over a store that answers,
    when [save_entry] on a complete form returns, every achievement of the
    catalog whose condition holds with the new entry counted is unlocked
    for user 1; the first entry ever saved thus unlocks "Первый шаг". *)
Theorem save_entry_unlocks_earned
  (strptime date_in : string -> option date) (strftime : Z -> string)
  (f : form) (day : date) (s : session) (name : string) (ach_id : Z) :
  form_complete strptime f ->
  storable date_in f day s ->
  earned (with_entry f day s) name ->
  select_achievement_id name (tables s) = Some ach_id ->
  exists s',
    save_entry reliable reliable_w strptime date_in strftime f s = (Returned tt, s')
    /\ select_user_achievement 1 ach_id (tables s') = true.
Proof.
  intros Hform Hstorable Hearned Hcatalog.
  destruct (save_entry_run strptime date_in strftime f day s Hform Hstorable)
    as (kws & kseq & eks & tr & a3 & s' & Hrun & Hcheck & Hpanes & _).
  cbv zeta in *.
  set (s2 := listed (stored f day kws kseq eks tr (noted f s))) in *.
  exists s'. split; [exact Hrun|].
  destruct (check_achievements_settles (entries_id_seq s + 1) (window s2))
    as (Hgrows & trace & Hissued & Hsettled).
  pose proof (check_achievements_attempts (entries_id_seq s + 1) (window s2) name)
    as Hattempts.
  rewrite Hcheck in Hgrows, Hissued, Hsettled, Hattempts. cbn [snd] in *.
  rewrite (new_statements_app _ _ _ Hissued) in Hattempts.
  assert (Hearned2 : earned (window s2) name).
  { apply (earned_same_entries _ (with_entry f day s)); [| |exact Hearned];
      unfold s2, noted, with_entry, tables; destruct (5 <? _)%nat; reflexivity. }
  apply Hattempts in Hearned2.
  specialize (Hsettled name Hearned2 ach_id).
  destruct Hgrows as (_ & Hach & _).
  destruct Hpanes as ((_ & _ & Hua & _) & _).
  cbn [window set_window] in Hua.
  unfold select_user_achievement, tables. rewrite Hua. cbn.
  apply Hsettled.
  rewrite (select_achievement_id_catalog _ _ _ Hach).
  unfold s2, noted, tables in *. destruct (5 <? _)%nat; exact Hcatalog.
Qed.

Lemma save_entry_unlocks_earned_witness :
  exists s',
    save_entry reliable reliable_w sample_date sample_date (fun _ => ""%string)
      first_form (opened profile_loaded)
    = (Returned tt, s')
    /\ select_user_achievement 1 1 (tables s') = true.
Proof.
  apply (save_entry_unlocks_earned sample_date sample_date (fun _ => ""%string)
           first_form (mkDate 2025 9 1) (opened profile_loaded) "Первый шаг" 1).
  - repeat split; try discriminate; cbn; lia.
  - repeat split; try (cbn; lia); try reflexivity; repeat constructor; cbn; auto.
  - left. split; reflexivity.
  - reflexivity.
Defined.

(** X27. [save_entry] keeps the first five keywords: over a store that
    answers, the rows a save adds to the keyword table all carry one of
    the first five of the comma-separated pieces of the keyword field that
    are not blank once stripped; beyond five pieces, a note saying so is
    among the message boxes shown. *)
Theorem save_entry_keeps_five_keywords
  (strptime date_in : string -> option date) (strftime : Z -> string)
  (f : form) (day : date) (s : session) :
  form_complete strptime f ->
  storable date_in f day s ->
  exists s' added,
    save_entry reliable reliable_w strptime date_in strftime f s = (Returned tt, s')
    /\ keywords s' = keywords s ++ added
    /\ (forall k, In k (map keyword_text added) ->
                  In k (firstn 5 (stripped_pieces (keywords_combo f))))
    /\ ((5 < List.length (stripped_pieces (keywords_combo f)))%nat ->
        In (InfoBox "Информация" "Выбрано более 5 ключевых слов. Сохранены первые 5.")
          (dialogs (window s'))).
Proof.
  intros Hform Hstorable.
  destruct (save_entry_run strptime date_in strftime f day s Hform Hstorable)
    as (kws & kseq & eks & tr & a3 & s' & Hrun & Hcheck & Hpanes & Htexts & _).
  cbv zeta in *.
  set (s2 := listed (stored f day kws kseq eks tr (noted f s))) in *.
  exists s', kws. split; [exact Hrun|].
  destruct Hpanes as ((_ & _ & _ & _ & _ & _ & Hd & _) & _ & _ & _ & Hk & _).
  cbn [window set_window] in Hd. cbn in Hk.
  split. { rewrite Hk. unfold noted. destruct (5 <? _)%nat; reflexivity. }
  split; [exact Htexts|].
  intros Hmany. rewrite Hd. cbn.
  destruct (check_achievements_notes reliable (entries_id_seq s + 1) (window s2))
    as (notes & Hnotes & _).
  rewrite Hcheck in Hnotes. cbn [snd] in Hnotes. rewrite Hnotes.
  apply in_or_app. left. apply in_or_app. left.
  unfold s2, noted. apply Nat.ltb_lt in Hmany. rewrite Hmany. cbn.
  apply in_or_app. right. left. reflexivity.
Qed.

Lemma save_entry_keeps_five_keywords_witness :
  let f := mkForm "Обзор" "Публикация" "2025-09-01" "" "" "a, b, c, d, e, f, g"
             [(true, 1); (true, 2)] 3 in
  exists s' added,
    save_entry reliable reliable_w sample_date sample_date (fun _ => ""%string) f
      (opened profile_loaded)
    = (Returned tt, s')
    /\ keywords s' = added
    /\ (forall k, In k (map keyword_text added) -> In k ["a"; "b"; "c"; "d"; "e"]%string).
Proof.
  intros f.
  destruct (save_entry_keeps_five_keywords sample_date sample_date (fun _ => ""%string)
              f (mkDate 2025 9 1) (opened profile_loaded))
    as (s' & added & Hrun & Hkeywords & Htexts & _).
  - repeat split; try discriminate; cbn; lia.
  - repeat split; try (cbn; lia); try reflexivity; repeat constructor; cbn; intuition lia.
  - exists s', added. split; [exact Hrun|]. split; [exact Hkeywords | exact Htexts].
Defined.

Lemma save_entry_rejects_incomplete_form_witness :
  let f := mkForm "Обзор" "Публикация" "2025-09-01" "" "" ""
             [(true, 1); (true, 2); (true, 3); (true, 4)] 3 in
  exists message,
    save_entry reliable reliable_w sample_date sample_date (fun _ => ""%string) f
      (opened profile_loaded)
    = (Returned tt, set_warnings [("Предупреждение"%string, message)] (opened profile_loaded)).
Proof.
  intros f.
  apply (save_entry_rejects_incomplete_form reliable reliable_w sample_date sample_date
           (fun _ => ""%string) f (opened profile_loaded)).
  right. right. right. right. right. cbn. lia.
Defined.

(** ** Refreshing every pane *)

(** X28. Whatever the store does, [update_all_tabs] returns.  It shows no
    message box and no warning and prints nothing; of the tables it
    changes the current value and the completion flag of goals at most,
    and it leaves the keyword list and the loaded profile alone. *)
Theorem update_all_tabs_contains_failures
  (rejects : oracle) (refuses : oracle_w) (date_in : string -> option date)
  (strftime : Z -> string) (s : session) :
  let r := update_all_tabs rejects refuses date_in strftime s in
  fst r = Returned tt
  /\ entries (tables (snd r)) = entries (tables s)
  /\ achievements (tables (snd r)) = achievements (tables s)
  /\ user_achievements (tables (snd r)) = user_achievements (tables s)
  /\ competencies (tables (snd r)) = competencies (tables s)
  /\ entry_competencies (tables (snd r)) = entry_competencies (tables s)
  /\ map goal_static (goals (tables (snd r))) = map goal_static (goals (tables s))
  /\ keywords (snd r) = keywords s
  /\ entry_keywords (snd r) = entry_keywords s
  /\ used_keywords (snd r) = used_keywords s
  /\ self_competencies (window (snd r)) = self_competencies (window s)
  /\ dialogs (window (snd r)) = dialogs (window s)
  /\ printed (window (snd r)) = printed (window s)
  /\ warnings (snd r) = warnings s.
Proof.
  destruct (update_all_tabs_returns rejects refuses date_in strftime s)
    as (s' & Hrun & (H1 & H2 & H3 & H4 & H5 & H6 & H7 & H8) & _ & Hsc & _ & Hk & Hek & _
        & _ & _ & Hused & _ & _ & _ & Hw).
  cbv zeta. rewrite Hrun. cbn [fst snd]. unfold tables.
  repeat split; assumption.
Qed.

(** ** The research map *)

Lemma coauthor_count_blank rows :
  Forall (fun row => match row with
                     | Some r => stripped_pieces r = []
                     | None => True
                     end) rows ->
  forall counts,
    fold_left
      (fun counts row =>
         match row with
         | Some r =>
             if String.eqb r "" then counts
             else fold_left (fun c author => increment author c) (stripped_pieces r) counts
         | None => counts
         end)
      rows counts
    = counts.
Proof.
  induction 1 as [|row rows Hrow _ IH]; intros counts; [reflexivity|].
  cbn [fold_left]. destruct row as [r|]; [|apply IH].
  destruct (String.eqb r ""); [apply IH|]. rewrite Hrow. cbn [fold_left]. apply IH.
Qed.

(** X29. The research map and the "Командный игрок" count read the
    coauthors field differently.  Over a store that answers, when the
    coauthors field of every entry strips to nothing piece by piece (blank
    text, spaces, commas), [update_research_map] ends the pane with the
    line saying no coauthors were added, however many of these entries
    the query behind "Командный игрок" counts as coauthored. *)
Theorem research_map_ignores_blank_coauthors
  (date_in : string -> option date) (s : session) :
  Forall (fun e => match entry_coauthors e with
                   | Some c => stripped_pieces c = []
                   | None => True
                   end) (entries (tables s)) ->
  exists keyword_part,
    research_text (snd (update_research_map reliable_w date_in s))
    = (keyword_part ++ nl ++ "Соавторы:" ++ nl
         ++ "  (соавторы еще не добавлены)" ++ nl)%string.
Proof.
  intros Hblank.
  assert (Hcount : coauthor_count (select_coauthors s) = []).
  { unfold coauthor_count. apply coauthor_count_blank.
    unfold select_coauthors. apply Forall_forall. intros row Hrow.
    apply in_map_iff in Hrow. destruct Hrow as (e & <- & He).
    apply filter_In in He. destruct He as [He _].
    rewrite Forall_forall in Hblank. exact (Hblank e He). }
  set (s1 := set_sent (sent s ++ [SelectKeywordCounts]) s).
  set (s2 := set_sent (sent s1 ++ [SelectCoauthors]) s1).
  assert (Hrun : update_research_map reliable_w date_in s
                 = (Returned tt,
                    set_research_text
                      (research_map_text (select_keyword_counts s1) (select_coauthors s2))
                      s2)).
  { unfold update_research_map. apply try_except_w_returned.
    rewrite (bind_w_returned _ _ _ (select_keyword_counts s1) s1).
    2:{ unfold query_w. rewrite (bind_w_returned _ _ _ tt s1); reflexivity. }
    rewrite (bind_w_returned _ _ _ (select_coauthors s2) s2).
    2:{ unfold query_w. rewrite (bind_w_returned _ _ _ tt s2); reflexivity. }
    reflexivity. }
  rewrite Hrun. cbn [snd research_text set_research_text].
  change (select_coauthors s2) with (select_coauthors s).
  unfold research_map_text. rewrite Hcount.
  unfold sorted_by_count, order_by. cbn [fold_right filter map join].
  match goal with
  | |- exists _, String.append (String.append (String.append ?part _) _) _ = _ =>
      exists part
  end.
  rewrite string_app_nil_r. rewrite (string_app_assoc _ (nl ++ "Соавторы:" ++ nl)).
  rewrite !(string_app_assoc nl). reflexivity.
Qed.

Lemma research_map_ignores_blank_coauthors_witness :
  count_coauthored (tables (opened (seeded blank_coauthor_entries))) = 3
  /\ exists keyword_part,
       research_text
         (snd (update_research_map reliable_w sample_date
                 (opened (seeded blank_coauthor_entries))))
       = (keyword_part ++ nl ++ "Соавторы:" ++ nl
            ++ "  (соавторы еще не добавлены)" ++ nl)%string.
Proof.
  split; [reflexivity|].
  apply (research_map_ignores_blank_coauthors sample_date
           (opened (seeded blank_coauthor_entries))).
  repeat constructor.
Defined.

(** * Sample runs of the further properties *)

Lemma check_achievements_unlocks_only_earned_witness :
  let a := started (seeded [sample_entry 1 "Проект" "Иванов"]) in
  let r := mkUserAchievement 1 1 0 in
  In r (user_achievements (db (snd (check_achievements reliable 1 a))))
  /\ (In r (user_achievements (db a))
      \/ exists name,
           earned a name
           /\ select_achievement_id name (db a) = Some (ua_achievement_id r)).
Proof.
  intros a r.
  assert (Hrow : In r (user_achievements (db (snd (check_achievements reliable 1 a)))))
    by (left; reflexivity).
  split; [exact Hrow|].
  exact (check_achievements_unlocks_only_earned reliable 1 a r Hrow).
Defined.

Lemma check_achievements_unlocks_every_earned_witness :
  let a := started (seeded [sample_entry 1 "Проект" "Иванов"]) in
  earned a "Первый шаг"
  /\ select_user_achievement 1 1 (db (snd (check_achievements reliable 1 a))) = true.
Proof.
  intros a.
  assert (Hearned : earned a "Первый шаг") by (left; split; reflexivity).
  split; [exact Hearned|].
  exact (check_achievements_unlocks_every_earned 1 a "Первый шаг" 1 Hearned eq_refl).
Defined.

Lemma update_goals_twice_witness :
  let a := started goals_sample in
  let a1 := snd (update_goals reliable a) in
  let a2 := snd (update_goals reliable a1) in
  NoDup (map goal_id (goals (db a)))
  /\ goals (db a2) = goals (db a1)
  /\ goals_text a2 = goals_text a1.
Proof.
  intros a a1 a2.
  assert (Hkey : NoDup (map goal_id (goals (db a)))).
  { repeat constructor; cbn; intuition discriminate. }
  split; [exact Hkey|].
  destruct (update_goals_twice a Hkey) as (Hgoals & Htext & _).
  split; [exact Hgoals | exact Htext].
Defined.

Lemma competency_levels_bounded_witness :
  let r := mkLevelRow 1 "Программирование" "Технические" (Some (9 # 2)%Q) in
  In r (select_competency_levels goals_sample)
  /\ (1 <= displayed_level r)%Q /\ (displayed_level r <= 5)%Q.
Proof.
  intros r.
  assert (Hr : In r (select_competency_levels goals_sample)) by (left; reflexivity).
  split; [exact Hr|].
  destruct (competency_levels_bounded goals_sample r)
    as [[Hnone _] | (q & _ & _ & _ & _ & _ & H)].
  - repeat constructor; cbn; lia.
  - exact Hr.
  - discriminate Hnone.
  - exact H.
Defined.

Lemma weak_zone_gets_advice_witness :
  let a := graded_app in
  let r := mkLevelRow 1 "Программирование" "Технические" (avg [2; 2]) in
  In r (select_competency_levels (db a))
  /\ (0 < float_or_0 (row_avg r))%Q
  /\ (float_or_0 (row_avg r) < 3)%Q.
Proof.
  intros a r.
  assert (Hr : In r (select_competency_levels (db a))) by (left; reflexivity).
  split; [exact Hr|].
  destruct (weak_zone_gets_advice a r) as (_ & _ & H0 & H3 & _).
  - discriminate.
  - exact Hr.
  - vm_compute. left. reflexivity.
  - split; [exact H0 | exact H3].
Defined.

Lemma load_competencies_mirrors_table_witness :
  let a := started (seeded []) in
  let a' := snd (load_competencies reliable "Информационные системы" a) in
  self_competencies a' = competencies (db a')
  /\ map competency_id (competencies (db a')) = [1; 2; 3; 4; 5; 6; 7].
Proof.
  intros a a'.
  destruct (load_competencies_mirrors_table a "Информационные системы"
              (snd (hd (""%string, []) default_specialties)) eq_refl)
    as (_ & Hself & _ & Hids & _).
  - discriminate.
  - split; [exact Hself | exact Hids].
Defined.
